(** * local-coder: memory store, streaming display and agent loop

    A shallow embedding of [memory.py], of the streaming part of [ui.py]
    and of [agent.py], with the properties of the specification stated
    over it.

    Python [str] values are modelled as Rocq strings whose characters are
    the code points 0..255 (Latin-1); Python [int] values are [Z]. *)

From Stdlib Require Import List String Ascii ZArith Lia Bool Arith PeanoNat DecimalString.
From Stdlib Require Import Permutation Sorted Reals Lra.
Import ListNotations.

Open Scope string_scope.
Open Scope list_scope.

Infix "+++" := String.append (right associativity, at level 60).

(* ===================================================================== *)
(** * Python primitives used by the sources *)
(* ===================================================================== *)

Module Py.

Definition code (c : ascii) : nat := nat_of_ascii c.

Definition between (lo hi n : nat) : bool := Nat.leb lo n && Nat.leb n hi.

(** [str.isspace] on one character: the set [str.split()] and
    [str.strip()] use. *)
Definition is_space (c : ascii) : bool :=
  let n := code c in
  between 9 13 n || between 28 32 n || Nat.eqb n 133 || Nat.eqb n 160.

(** The regular-expression class [\w] on [str] patterns: alphanumeric
    characters and the underscore. *)
Definition is_word (c : ascii) : bool :=
  let n := code c in
  between 48 57 n || between 65 90 n || Nat.eqb n 95 || between 97 122 n
  || Nat.eqb n 170 || between 178 179 n || Nat.eqb n 181 || between 185 186 n
  || between 188 190 n || between 192 214 n || between 216 246 n
  || between 248 255 n.

(** [str.lower] on one character. *)
Definition lower_char (c : ascii) : ascii :=
  let n := code c in
  if between 65 90 n || between 192 214 n || between 216 222 n
  then ascii_of_nat (n + 32) else c.

Fixpoint map_chars (f : ascii -> ascii) (s : string) : string :=
  match s with
  | EmptyString => EmptyString
  | String c s' => String (f c) (map_chars f s')
  end.

Definition lower (s : string) : string := map_chars lower_char s.

(** [s.replace(a, b)] for single characters [a] and [b]. *)
Definition replace_char (a b : ascii) (s : string) : string :=
  map_chars (fun c => if Ascii.eqb c a then b else c) s.

Definition is_empty (s : string) : bool :=
  match s with EmptyString => true | _ => false end.

(** A pending run is emitted only when it is not empty. *)
Definition flush (cur : string) : list string :=
  if is_empty cur then [] else [cur].

(** The maximal runs of characters satisfying [keep], left to right;
    [cur] is the run being read. *)
Fixpoint runs_go (keep : ascii -> bool) (cur s : string) : list string :=
  match s with
  | EmptyString => flush cur
  | String c s' =>
      if keep c then runs_go keep (cur +++ String c EmptyString) s'
      else flush cur ++ runs_go keep EmptyString s'
  end.

Definition runs (keep : ascii -> bool) (s : string) : list string :=
  runs_go keep EmptyString s.

(** [s.split()]: the maximal runs of non-whitespace characters. *)
Definition split (s : string) : list string :=
  runs (fun c => negb (is_space c)) s.

(** [re.findall(r"\w+", s)]. *)
Definition findall_word (s : string) : list string := runs is_word s.

(** [sep.join(l)]. *)
Definition join (sep : string) (l : list string) : string :=
  String.concat sep l.

Fixpoint lstrip (s : string) : string :=
  match s with
  | EmptyString => EmptyString
  | String c s' => if is_space c then lstrip s' else s
  end.

Fixpoint rstrip (s : string) : string :=
  match s with
  | EmptyString => EmptyString
  | String c s' =>
      match rstrip s' with
      | EmptyString => if is_space c then EmptyString else String c EmptyString
      | r => String c r
      end
  end.

(** [s.strip()]. *)
Definition strip (s : string) : string := rstrip (lstrip s).

(** [s.startswith(p)]. *)
Definition startswith (s p : string) : bool := String.prefix p s.

Fixpoint drop (n : nat) (s : string) : string :=
  match n, s with
  | O, _ => s
  | S n', String _ s' => drop n' s'
  | S _, EmptyString => EmptyString
  end.

Fixpoint take (n : nat) (s : string) : string :=
  match n, s with
  | S n', String c s' => String c (take n' s')
  | _, _ => EmptyString
  end.

(** [s.find(sep)], with [None] for -1. *)
Fixpoint find (sep s : string) : option nat :=
  if String.prefix sep s then Some O
  else match s with
       | EmptyString => None
       | String _ s' => option_map S (find sep s')
       end.

(** [sep in s]. *)
Definition contains (sep s : string) : bool :=
  match find sep s with Some _ => true | None => false end.

(** [s.partition(sep)]. *)
Definition partition (sep s : string) : string * string * string :=
  match find sep s with
  | Some i => (take i s, sep, drop (i + String.length sep) s)
  | None => (s, EmptyString, EmptyString)
  end.

(** [s[-n:]] for a positive [n]: the last [n] characters. *)
Definition last_chars (n : nat) (s : string) : string :=
  drop (String.length s - n) s.

(** Normalisation of a slice bound against a length, as Python does for
    [l[lo:hi]]: negative bounds count from the end, and every bound is
    clamped to the list. *)
Definition slice_bound (len idx : Z) : Z :=
  if (idx <? 0)%Z then Z.max 0 (idx + len) else Z.min idx len.

(** [l[lo:hi]]. *)
Definition slice {A : Type} (l : list A) (lo hi : Z) : list A :=
  let n := Z.of_nat (List.length l) in
  let a := slice_bound n lo in
  let b := slice_bound n hi in
  firstn (Z.to_nat (b - a)) (skipn (Z.to_nat a) l).

(** [l[:hi]]. *)
Definition slice_to {A : Type} (l : list A) (hi : Z) : list A :=
  slice l 0 hi.

(** [l[lo:]]. *)
Definition slice_from {A : Type} (l : list A) (lo : Z) : list A :=
  skipn (Z.to_nat (slice_bound (Z.of_nat (List.length l)) lo)) l.

(** [re.sub(r"<think>.*?</think>", "", s, flags=re.DOTALL)].  The scan
    goes left to right; [skipping] counts the characters of a match still
    to be dropped.  Where the opening delimiter is not followed by a
    closing one, no later position can match either, and the rest of the
    text is kept. *)
Fixpoint sub_think_go (skipping : nat) (s : string) : string :=
  match s with
  | EmptyString => EmptyString
  | String c s' =>
      match skipping with
      | S k => sub_think_go k s'
      | O =>
          if String.prefix "<think>" s then
            match find "</think>" (drop 7 s) with
            | Some j => sub_think_go (7 + j + 8 - 1) s'
            | None => s
            end
          else String c (sub_think_go O s')
      end
  end.

Definition sub_think (s : string) : string := sub_think_go O s.

(** [s.count(sub)]: the occurrences of [sub] that do not overlap, counted
    from the left; [skipping] counts the characters of an occurrence
    still to be passed.  An empty [sub] occurs between any two characters
    and at both ends. *)
Fixpoint count_go (sub : string) (skipping : nat) (s : string) : nat :=
  match s with
  | EmptyString => O
  | String _ s' =>
      match skipping with
      | S k => count_go sub k s'
      | O =>
          if String.prefix sub s then S (count_go sub (String.length sub - 1) s')
          else count_go sub O s'
      end
  end.

Definition count (s sub : string) : nat :=
  if is_empty sub then S (String.length s) else count_go sub O s.

(** [s.replace(old, new, 1)]. *)
Definition replace_first (s old new : string) : string :=
  match find old s with
  | Some i => take i s +++ new +++ drop (i + String.length old) s
  | None => s
  end.

(** [s.endswith(p)]. *)
Definition endswith (s p : string) : bool :=
  Nat.leb (String.length p) (String.length s)
  && String.eqb (drop (String.length s - String.length p) s) p.

(** The lines a text-mode file gives when iterated: each of ["\n"],
    ["\r\n"] and ["\r"] ends a line and is read as ["\n"]; the text after
    the last of them is a line without terminator. *)
Fixpoint text_lines_go (cur s : string) : list string :=
  match s with
  | EmptyString => flush cur
  | String c s' =>
      if Nat.eqb (code c) 10 then
        (cur +++ String c EmptyString) :: text_lines_go EmptyString s'
      else if Nat.eqb (code c) 13 then
        (cur +++ String (ascii_of_nat 10) EmptyString)
        :: match s' with
           | String c' s'' =>
               if Nat.eqb (code c') 10 then text_lines_go EmptyString s''
               else text_lines_go EmptyString s'
           | EmptyString => []
           end
      else text_lines_go (cur +++ String c EmptyString) s'
  end.

Definition text_lines (s : string) : list string := text_lines_go EmptyString s.

(** [f.read()] on a text-mode file: the content with its line ends read
    as ["\n"]. *)
Definition read_text (s : string) : string := String.concat EmptyString (text_lines s).

(** The first run of non-whitespace characters of [s], and what follows
    it. *)
Fixpoint span_word (s : string) : string * string :=
  match s with
  | EmptyString => (EmptyString, EmptyString)
  | String c s' =>
      if is_space c then (EmptyString, s)
      else let '(w, rest) := span_word s' in (String c w, rest)
  end.

(** [s.split(maxsplit=1)]: the first word, and the rest of the text from
    its first non-whitespace character on, when there is one. *)
Definition split_max1 (s : string) : list string :=
  match lstrip s with
  | EmptyString => []
  | s1 =>
      let '(w, rest) := span_word s1 in
      match lstrip rest with
      | EmptyString => [w]
      | r => [w; r]
      end
  end.

(** [s.ljust(n)]. *)
Fixpoint spaces (n : nat) : string :=
  match n with
  | O => EmptyString
  | S n' => String " "%char (spaces n')
  end.

Definition ljust (n : nat) (s : string) : string :=
  s +++ spaces (n - String.length s).

(** [str(n)] for an int. *)
Definition str_nat (n : nat) : string := NilEmpty.string_of_uint (Nat.to_uint n).

Definition str_int (z : Z) : string := NilZero.string_of_int (Z.to_int z).

End Py.

(** Every character of [s] satisfies [p]. *)
Fixpoint all_chars (p : ascii -> bool) (s : string) : bool :=
  match s with
  | EmptyString => true
  | String c s' => p c && all_chars p s'
  end.

(** A run: a non-empty string of characters that [keep] accepts. *)
Definition is_run (keep : ascii -> bool) (w : string) : Prop :=
  Py.is_empty w = false /\ all_chars keep w = true.

(* ===================================================================== *)
(** * memory.py: the memory store *)
(* ===================================================================== *)

Module Memory.

(** One memory: the dict built by [add]. *)
Record Mem := {
  mem_id : string;
  mem_content : string;
  mem_tags : list string;
  mem_type : string;
  mem_timestamp : string
}.

(** The store: the [memories] list and the content of [memories.jsonl]
    ([None] while the file does not exist). *)
Record Store := {
  memories : list Mem;
  disk : option string
}.

(** Python floats enter only through [search]: true division of two
    ints, [math.log], [*], [+], and the comparison [<] that [score > 0]
    and the sort use.  They are kept abstract. *)
Record FloatOps := {
  float : Type;
  fzero : float;
  truediv : Z -> Z -> float;
  flog : float -> float;
  fmul : float -> float -> float;
  fadd : float -> float -> float;
  flt : float -> float -> bool
}.

(** [<] on the floats that occur is a strict weak order (no NaN arises:
    every quotient is of positive ints and every logarithm is of a
    positive float). *)
Record StrictWeak (fo : FloatOps) : Prop := {
  flt_irrefl : forall a, flt fo a a = false;
  flt_trans : forall a b c, flt fo a b = true -> flt fo b c = true -> flt fo a c = true;
  flt_incomp : forall a b c,
      flt fo a b = false -> flt fo b c = false -> flt fo a c = false
}.

(** ** json.dumps on a memory *)

Definition dq : string := String (ascii_of_nat 34) EmptyString.
Definition nl : string := String (ascii_of_nat 10) EmptyString.

Definition hex_digit (n : nat) : ascii :=
  if Nat.ltb n 10 then ascii_of_nat (48 + n) else ascii_of_nat (87 + n).

(** The escape of one character by [json.dumps] (with [ensure_ascii]):
    everything outside [' '..'~'], the quote and the backslash. *)
Definition json_escape_char (c : ascii) : string :=
  let n := Py.code c in
  if Nat.eqb n 34 then "\" +++ dq
  else if Nat.eqb n 92 then "\\"
  else if Nat.eqb n 10 then "\n"
  else if Nat.eqb n 13 then "\r"
  else if Nat.eqb n 9 then "\t"
  else if Nat.eqb n 8 then "\b"
  else if Nat.eqb n 12 then "\f"
  else if Py.between 32 126 n then String c EmptyString
  else "\u00" +++ String (hex_digit (n / 16)) (String (hex_digit (n mod 16)) EmptyString).

Fixpoint json_escape (s : string) : string :=
  match s with
  | EmptyString => EmptyString
  | String c s' => json_escape_char c +++ json_escape s'
  end.

Definition json_str (s : string) : string := dq +++ json_escape s +++ dq.

Definition json_list (l : list string) : string :=
  "[" +++ Py.join ", " (map json_str l) +++ "]".

Definition json_key (k : string) : string := dq +++ k +++ dq +++ ": ".

Definition json_dumps (m : Mem) : string :=
  "{" +++ json_key "id" +++ json_str (mem_id m) +++ ", "
      +++ json_key "content" +++ json_str (mem_content m) +++ ", "
      +++ json_key "tags" +++ json_list (mem_tags m) +++ ", "
      +++ json_key "type" +++ json_str (mem_type m) +++ ", "
      +++ json_key "timestamp" +++ json_str (mem_timestamp m) +++ "}".

(** What [_save] writes: one line per memory, in list order. *)
Fixpoint serialize (l : list Mem) : string :=
  match l with
  | [] => EmptyString
  | m :: l' => (json_dumps m +++ nl) +++ serialize l'
  end.

Definition _save (st : Store) : Store :=
  {| memories := memories st; disk := Some (serialize (memories st)) |}.

(** ** _chunk *)

(** The [while i < len(words)] loop; [None] when the fuel runs out. *)
Fixpoint chunk_loop (fuel : nat) (words : list string) (max_tokens overlap i : Z)
    (chunks : list string) : option (list string) :=
  match fuel with
  | O => None
  | S fuel' =>
      if (i <? Z.of_nat (List.length words))%Z then
        let chunk_words := Py.slice words i (i + max_tokens) in
        chunk_loop fuel' words max_tokens overlap (i + (max_tokens - overlap))
          (chunks ++ [Py.join " " chunk_words])
      else Some chunks
  end.

(** [_chunk(text, max_tokens, overlap)].  A loop that makes progress
    leaves within [len(words)] iterations; [None] stands for a loop that
    does not. *)
Definition _chunk (text : string) (max_tokens overlap : Z) : option (list string) :=
  let words := Py.split text in
  if (Z.of_nat (List.length words) <=? max_tokens)%Z then Some [text]
  else chunk_loop (S (List.length words)) words max_tokens overlap 0 [].

(** ** add *)

Inductive AddResult :=
| One (m : Mem)
| Many (l : list Mem).

Section Host.

(** The host: [fresh] draws [uuid.uuid4().hex[:12]] and the current UTC
    time in ISO format, to the second. *)
Variable World : Type.
Variable fresh : World -> (string * string) * World.

Fixpoint add_chunks (chunks : list string) (tags : list string) (mem_type : string)
    (mems added : list Mem) (w : World) : list Mem * list Mem * World :=
  match chunks with
  | [] => (mems, added, w)
  | chunk :: rest =>
      let '((i, t), w') := fresh w in
      let mem := {| mem_id := i; mem_content := chunk; mem_tags := tags;
                    mem_type := mem_type; mem_timestamp := t |} in
      add_chunks rest tags mem_type (mems ++ [mem]) (added ++ [mem]) w'
  end.

Definition add (content : string) (tags : list string) (mem_type : string)
    (st : Store) (w : World) : option (AddResult * Store * World) :=
  match _chunk content 500 50 with
  | None => None
  | Some chunks =>
      let '(mems, added, w') := add_chunks chunks tags mem_type (memories st) [] w in
      let st' := _save {| memories := mems; disk := disk st |} in
      Some (match added with [m] => One m | _ => Many added end, st', w')
  end.

End Host.

(** ** search *)

Definition _tokenize (text : string) : list string :=
  Py.findall_word (Py.lower text).

(** [collections.Counter], as an association list. *)
Definition Counter := list (string * nat).

Fixpoint counter_get (c : Counter) (t : string) : nat :=
  match c with
  | [] => O
  | (k, n) :: c' => if String.eqb k t then n else counter_get c' t
  end.

Fixpoint counter_incr (c : Counter) (t : string) : Counter :=
  match c with
  | [] => [(t, 1)]
  | (k, n) :: c' => if String.eqb k t then (k, S n) :: c' else (k, n) :: counter_incr c' t
  end.

Definition counter_of (l : list string) : Counter := fold_left counter_incr l [].

Definition counter_total (c : Counter) : nat := list_sum (map snd c).

(** [set(l)], as a list without repetition. *)
Definition set_of (l : list string) : list string := nodup string_dec l.

Definition mem_in (t : string) (s : list string) : bool := existsb (String.eqb t) s.

(** The token set of a memory: the words of its content and of its tags. *)
Definition mem_tokens (m : Mem) : list string :=
  set_of (_tokenize (mem_content m +++ " " +++ Py.join " " (mem_tags m))).

Definition document_frequency (doc_tokens : list (list string)) : Counter :=
  fold_left (fun df tokens => fold_left counter_incr tokens df) doc_tokens [].

Section Search.

Variable fo : FloatOps.

(** The inner [for term in query_terms] loop. *)
Definition score_of (doc_count : Z) (df : Counter) (query_terms : list string)
    (tokens : list string) (m : Mem) : float fo :=
  let tf := counter_of (_tokenize (mem_content m)) in
  let total := match counter_total tf with O => 1%nat | n => n end in
  fold_left
    (fun score term =>
       if mem_in term tokens then
         let term_tf := truediv fo (Z.of_nat (counter_get tf term)) (Z.of_nat total) in
         let term_idf :=
           flog fo (truediv fo (doc_count + 1) (Z.of_nat (counter_get df term) + 1)) in
         fadd fo score (fmul fo term_tf term_idf)
       else score)
    query_terms (fzero fo).

Definition Scored : Type := float fo * Mem.

(** [scored.sort(key=lambda x: x[0], reverse=True)]: the stable sort into
    non-increasing score order.  An element goes in front of the first
    one whose score is not greater than its own. *)
Fixpoint insert_desc (x : Scored) (l : list Scored) : list Scored :=
  match l with
  | [] => [x]
  | y :: l' => if flt fo (fst x) (fst y) then y :: insert_desc x l' else x :: l
  end.

Definition sort_desc (l : list Scored) : list Scored := fold_right insert_desc [] l.

(** The scoring loop: the memories of positive score, in store order. *)
Definition score_all (mems : list Mem) (query_terms : list string) : list Scored :=
  let doc_count := Z.of_nat (List.length mems) in
  let doc_tokens := map mem_tokens mems in
  let df := document_frequency doc_tokens in
  flat_map
    (fun mt : Mem * list string =>
       let score := score_of doc_count df query_terms (snd mt) (fst mt) in
       if flt fo (fzero fo) score then [(score, fst mt)] else [])
    (combine mems doc_tokens).

Definition search (st : Store) (query : string) (top_k : Z) : list Mem :=
  match memories st with
  | [] => []
  | _ =>
      match _tokenize query with
      | [] => Py.slice_to (memories st) top_k
      | query_terms =>
          let scored := sort_desc (score_all (memories st) query_terms) in
          map snd (Py.slice_to scored top_k)
      end
  end.

(** ** get_context *)

Definition context_line (m : Mem) : string :=
  let tags := Py.join ", " (mem_tags m) in
  let prefix := "[" +++ mem_type m +++ "]" in
  let prefix := if Py.is_empty tags then prefix else prefix +++ " (" +++ tags +++ ")" in
  "- " +++ prefix +++ " " +++ mem_content m.

Definition get_context (st : Store) (query : string) (max_memories : Z) : string :=
  let mems :=
    if Py.is_empty query then
      match memories st with
      | [] => []
      | _ => Py.slice_from (memories st) (- max_memories)
      end
    else search st query max_memories in
  match mems with
  | [] => EmptyString
  | _ => Py.join nl ("## Relevant Project Memories" :: map context_line mems)
  end.

End Search.

(** ** delete, list_all, count *)

(** The index of the first memory whose id starts with [memory_id]. *)
Fixpoint first_match (memory_id : string) (l : list Mem) (i : nat) : option nat :=
  match l with
  | [] => None
  | m :: l' =>
      if Py.startswith (mem_id m) memory_id then Some i
      else first_match memory_id l' (S i)
  end.

(** [l.pop(i)] for an index inside the list. *)
Definition pop {A : Type} (i : nat) (l : list A) : list A :=
  firstn i l ++ skipn (S i) l.

Definition delete (st : Store) (memory_id : string) : bool * Store :=
  match first_match memory_id (memories st) 0 with
  | Some i => (true, _save {| memories := pop i (memories st); disk := disk st |})
  | None => (false, st)
  end.

Definition list_all (st : Store) : list Mem := memories st.

Definition count (st : Store) : Z := Z.of_nat (List.length (memories st)).

(** ** _load *)

Section Load.

(** [json.loads] on a stripped line: the memory the line holds, [None]
    where it raises [JSONDecodeError]. *)
Variable json_loads : string -> option Mem.

(** The [for line in f] loop. *)
Fixpoint load_lines (lines : list string) (mems : list Mem) : list Mem :=
  match lines with
  | [] => mems
  | line :: rest =>
      let line := Py.strip line in
      if Py.is_empty line then load_lines rest mems
      else match json_loads line with
           | Some m => load_lines rest (mems ++ [m])
           | None => load_lines rest mems
           end
  end.

Definition _load (st : Store) : Store :=
  match disk st with
  | None => {| memories := []; disk := disk st |}
  | Some content =>
      {| memories := load_lines (Py.text_lines content) []; disk := disk st |}
  end.

End Load.

End Memory.

(* ===================================================================== *)
(** * prompts.py *)
(* ===================================================================== *)

Module Prompts.

Definition BASE_PROMPT : string := "You are a local coding assistant running entirely offline. You help users with software engineering tasks by reading, writing, and editing code, running commands, and managing project memory.

## Available Tools
You have tools to:
- **read_file**: Read file contents (always read before editing)
- **write_file**: Create or overwrite files
- **edit_file**: Find and replace text in files (use exact matching)
- **run_command**: Execute shell commands (tests, git, builds, etc.)
- **search_files**: Find files by glob pattern
- **search_content**: Search file contents with regex
- **remember**: Save information to project memory
- **recall**: Search project memories
- **ask_user**: Ask the user a clarifying question
- **task_complete**: Signal task completion with a summary

## Rules
1. **Always read a file before editing it.** Never assume file contents.
2. **Ask before destructive actions.** Use ask_user before deleting files or running dangerous commands.
3. **Save learnings to memory.** After completing a task, use task_complete to save a summary. Use remember for project conventions and decisions.
4. **Be precise with edits.** When using edit_file, the old_text must match exactly what's in the file.
5. **Explain your reasoning.** Tell the user what you're doing and why.

## Workflow
For non-trivial tasks:
1. Explore relevant files to understand the codebase
2. Form a step-by-step plan
3. Present the plan and ask for approval
4. Execute the plan step by step
5. Run tests if available
6. Summarize what was done

For quick questions or small fixes, respond directly without a formal plan.
".

Definition PLANNING_ADDENDUM : string := "
## Planning Mode
You are in planning mode. The user has given you a task. You should:
1. Use search_files and read_file to explore relevant code
2. Use recall to check for relevant project memories
3. Think carefully about the approach
4. Present a clear, numbered plan to the user
5. Wait for approval before making changes

/think
".

Definition DIRECT_ADDENDUM : string := "
## Direct Mode
Respond concisely. For simple questions, answer directly. For small code changes, you may proceed without a formal plan.

/no_think
".

Definition build_system_prompt (memory_context : string) (planning : bool) : string :=
  let parts := [BASE_PROMPT] in
  let parts := if Py.is_empty memory_context then parts else parts ++ [memory_context] in
  let parts := if planning then parts ++ [PLANNING_ADDENDUM] else parts ++ [DIRECT_ADDENDUM] in
  Py.join (Memory.nl +++ Memory.nl) parts.

End Prompts.

(* ===================================================================== *)
(** * ui.py: the display lines and the streaming display *)
(* ===================================================================== *)

Module Ui.

Inductive Color :=
| C_DEFAULT | C_AGENT | C_TOOL | C_QUESTION | C_ERROR | C_INFO
| C_MEMORY | C_HEADER | C_STATUS | C_USER | C_THINKING.

Record State := {
  lines : list (Color * string);
  _stream_start : nat;
  _stream_buf : string;
  _thinking : bool;
  _think_buf : string;
  memory_count : Z
}.

Section Terminal.

(** [wrap text] is the list of display lines [_wrap] cuts [text] into;
    it depends on the width of the terminal. *)
Variable wrap : string -> list string.

Definition _wrap (text : string) (color : Color) : list (Color * string) :=
  map (fun l => (color, l)) (wrap text).

Definition set_lines (u : State) (l : list (Color * string)) : State :=
  {| lines := l; _stream_start := _stream_start u; _stream_buf := _stream_buf u;
     _thinking := _thinking u; _think_buf := _think_buf u;
     memory_count := memory_count u |}.

Definition set_stream (u : State) (buf : string) (thinking : bool) (think_buf : string) : State :=
  {| lines := lines u; _stream_start := _stream_start u; _stream_buf := buf;
     _thinking := thinking; _think_buf := think_buf;
     memory_count := memory_count u |}.

Definition set_memory_count (u : State) (n : Z) : State :=
  {| lines := lines u; _stream_start := _stream_start u; _stream_buf := _stream_buf u;
     _thinking := _thinking u; _think_buf := _think_buf u;
     memory_count := n |}.

Definition add_line (u : State) (text : string) (color : Color) : State :=
  set_lines u (lines u ++ _wrap text color).

Definition add_blank (u : State) : State :=
  set_lines u (lines u ++ [(C_DEFAULT, EmptyString)]).

Definition stream_start (u : State) : State :=
  {| lines := lines u; _stream_start := List.length (lines u);
     _stream_buf := EmptyString; _thinking := false; _think_buf := EmptyString;
     memory_count := memory_count u |}.

(** The line shown while the model is reasoning. *)
Definition thinking_line (think_buf : string) : Color * string :=
  let short := Py.strip (Py.replace_char (ascii_of_nat 10) " "%char (Py.last_chars 80 think_buf)) in
  if Py.is_empty short then (C_THINKING, "  thinking...")
  else (C_THINKING, "  thinking: " +++ short +++ "...").

Definition _render_stream (u : State) : State :=
  let kept := firstn (_stream_start u) (lines u) in
  let kept := if _thinking u then kept ++ [thinking_line (_think_buf u)] else kept in
  let kept :=
    if Py.is_empty (_stream_buf u) then kept else kept ++ _wrap (_stream_buf u) C_AGENT in
  set_lines u kept.

Definition stream_token (u : State) (token : string) : State :=
  let combined := _stream_buf u +++ token in
  if Py.contains "<think>" combined && negb (_thinking u) then
    let '(before, _, after) := Py.partition "<think>" combined in
    _render_stream (set_stream u before true after)
  else if _thinking u then
    let think_buf := _think_buf u +++ token in
    if Py.contains "</think>" think_buf then
      let '(_, _, after) := Py.partition "</think>" think_buf in
      _render_stream (set_stream u (_stream_buf u +++ after) false EmptyString)
    else _render_stream (set_stream u (_stream_buf u) true think_buf)
  else _render_stream (set_stream u (_stream_buf u +++ token) false (_think_buf u)).

Definition stream_end (u : State) : State :=
  set_stream u EmptyString false EmptyString.

Definition show_info (u : State) (msg : string) : State := add_line u msg C_INFO.

Definition show_error (u : State) (msg : string) : State :=
  add_line u ("Error: " +++ msg) C_ERROR.

Definition show_tool_call (u : State) (name : string) (args : list (string * string)) : State :=
  let u := add_line (add_blank u) ("--- tool: " +++ name +++ " ---") C_TOOL in
  fold_left
    (fun u kv =>
       let s := snd kv in
       let s := if Nat.ltb 200 (String.length s) then Py.take 200 s +++ "..." else s in
       add_line u ("  " +++ fst kv +++ ": " +++ s) C_TOOL)
    args u.

Definition show_tool_result (u : State) (name result : string) (is_error : bool) : State :=
  let c := if is_error then C_ERROR else C_TOOL in
  let result :=
    if Nat.ltb 2000 (String.length result)
    then Py.take 1500 result +++ Memory.nl +++ "...(truncated)..." +++ Memory.nl
         +++ Py.last_chars 300 result
    else result in
  add_blank (add_line (add_line u ("--- result: " +++ name +++ " ---") c) result c).

Definition show_user (u : State) (msg : string) : State :=
  add_line (add_blank u) ("> " +++ msg) C_USER.

(** One line per memory: the first eight characters of its id, its type
    and tags, its content. *)
Definition memory_line (m : Memory.Mem) : string :=
  let tags := Py.join ", " (Memory.mem_tags m) in
  let hdr := "[" +++ Memory.mem_type m +++ "]" in
  let hdr := if Py.is_empty tags then hdr else hdr +++ " (" +++ tags +++ ")" in
  "  #" +++ Py.take 8 (Memory.mem_id m) +++ " " +++ hdr +++ ": " +++ Memory.mem_content m.

Definition show_memories (u : State) (memories : list Memory.Mem) : State :=
  match memories with
  | [] => add_line u "No memories found." C_INFO
  | _ => fold_left (fun u m => add_line u (memory_line m) C_MEMORY) memories u
  end.

Definition COMMANDS : list (string * string) :=
  [("/plan", "Toggle planning/direct mode");
   ("/memory", "Manage memories (list|search|forget)");
   ("/clear", "Clear conversation history");
   ("/model", "Show/change model (/model [name])");
   ("/help", "Show help and tips");
   ("/quit", "Exit localcoder")].

Definition show_help (u : State) : State :=
  let u := add_line (add_blank u) "Commands:" C_INFO in
  let u :=
    fold_left
      (fun u nd => add_line u ("  " +++ Py.ljust 12 (fst nd) +++ "  " +++ snd nd) C_INFO)
      COMMANDS u in
  let u := add_line (add_blank u) "Tips:" C_INFO in
  let u := add_line u "  Type / then Tab to auto-complete commands" C_INFO in
  let u := add_line u "  Page Up / Page Down to scroll output" C_INFO in
  let u := add_line u "  Ctrl+C to interrupt the agent" C_INFO in
  add_blank u.

End Terminal.

Definition init : State :=
  {| lines := []; _stream_start := 0; _stream_buf := EmptyString;
     _thinking := false; _think_buf := EmptyString; memory_count := 0 |}.

End Ui.

(* ===================================================================== *)
(** * agent.py: the agent loop *)
(* ===================================================================== *)

Module Agent.

(** A tool call as the client yields it.  Argument values are strings,
    the type the schemas of the approval-gated and agent-level tools
    declare for every parameter. *)
Record ToolCall := {
  name : string;
  arguments : list (string * string)
}.

Inductive Role := System | User | Assistant | Tool.

(** A message of the conversation; [tool_calls] is empty where the dict
    has no such key. *)
Record Msg := {
  role : Role;
  content : string;
  tool_calls : list ToolCall
}.

(** What [chat_stream] yields.  The agent reads text and tool calls and
    passes over the final [done] item. *)
Inductive Chunk :=
| Text (data : string)
| ToolCallChunk (data : ToolCall)
| Done.

(** How the iteration over the stream ends. *)
Inductive StreamEnd :=
| Exhausted
| RaisedKeyboardInterrupt
| RaisedException (e : string).

(** What [run] observably does with its collaborators, in order. *)
Inductive Event :=
| EvChat (messages : list Msg)
| EvDispatch (tc : ToolCall)
| EvApproval (desc : string) (approved : bool)
| EvQuestion (question answer : string)
| EvExecute (tool : string) (args : list (string * string)).

Inductive Outcome :=
| Returned
| Interrupted.

Record State := {
  history : list Msg;
  planning : bool;
  max_tool_rounds : Z;
  memory : Memory.Store;
  ui : Ui.State;
  trace : list Event
}.

Definition APPROVAL_REQUIRED : list string := ["run_command"; "write_file"; "edit_file"].

(** [arguments.get(key, "")]. *)
Fixpoint get_arg (args : list (string * string)) (key : string) : string :=
  match args with
  | [] => EmptyString
  | (k, v) :: rest => if String.eqb k key then v else get_arg rest key
  end.

Section Collaborators.

Variable fo : Memory.FloatOps.
Variable World : Type.
(** The model backend behind [OllamaClient.chat_stream]. *)
Variable chat_stream : list Msg -> World -> (list Chunk * StreamEnd) * World.
(** The user's answer at the approval prompt and at a question. *)
Variable approval_answer : string -> World -> bool * World.
Variable question_answer : string -> World -> string * World.
(** [tools.execute_tool]: file, shell and search tools. *)
Variable execute_tool : string -> list (string * string) -> World -> string * World.
Variable fresh : World -> (string * string) * World.
Variable py_repr : string -> string.
Variable wrap : string -> list string.

Definition set_history (a : State) (h : list Msg) : State :=
  {| history := h; planning := planning a; max_tool_rounds := max_tool_rounds a;
     memory := memory a; ui := ui a; trace := trace a |}.

Definition set_memory (a : State) (m : Memory.Store) : State :=
  {| history := history a; planning := planning a; max_tool_rounds := max_tool_rounds a;
     memory := m; ui := ui a; trace := trace a |}.

Definition set_ui (a : State) (u : Ui.State) : State :=
  {| history := history a; planning := planning a; max_tool_rounds := max_tool_rounds a;
     memory := memory a; ui := u; trace := trace a |}.

Definition log (a : State) (e : Event) : State :=
  {| history := history a; planning := planning a; max_tool_rounds := max_tool_rounds a;
     memory := memory a; ui := ui a; trace := trace a ++ [e] |}.

Definition append_history (a : State) (m : Msg) : State :=
  set_history a (history a ++ [m]).

Definition reset (a : State) : State := set_history a [].

Definition set_planning (a : State) (enabled : bool) : State :=
  {| history := history a; planning := enabled; max_tool_rounds := max_tool_rounds a;
     memory := memory a; ui := ui a; trace := trace a |}.

Definition _system_message (a : State) (user_input : string) : Msg :=
  let mem_ctx := Memory.get_context fo (memory a) user_input 5 in
  {| role := System;
     content := Prompts.build_system_prompt mem_ctx (planning a);
     tool_calls := [] |}.

(** [ui.get_approval] and [ui.get_question_response]: the prompt line,
    then the user's answer. *)
Definition get_approval (a : State) (message : string) (w : World) : bool * State * World :=
  let a := set_ui a (Ui.add_line wrap (ui a) ("[Approval Required] " +++ message) Ui.C_QUESTION) in
  let '(ok, w') := approval_answer message w in
  (ok, log a (EvApproval message ok), w').

Definition get_question_response (a : State) (question : string) (w : World)
    : string * State * World :=
  let a := set_ui a (Ui.add_line wrap (ui a) ("[Question] " +++ question) Ui.C_QUESTION) in
  let '(answer, w') := question_answer question w in
  (answer, log a (EvQuestion question answer), w').

(** [[t.strip() for t in tags_str.split(",") if t.strip()]]. *)
Fixpoint split_comma_go (cur s : string) : list string :=
  match s with
  | EmptyString => [cur]
  | String c s' =>
      if Ascii.eqb c ","%char then cur :: split_comma_go EmptyString s'
      else split_comma_go (cur +++ String c EmptyString) s'
  end.

Definition parse_tags (tags_str : string) : list string :=
  if Py.is_empty tags_str then []
  else filter (fun t => negb (Py.is_empty t))
         (map Py.strip (split_comma_go EmptyString tags_str)).

Definition nat_to_string (n : nat) : string :=
  NilEmpty.string_of_uint (Nat.to_uint n).

Definition recall_entry (m : Memory.Mem) : string :=
  let tags := Py.join ", " (Memory.mem_tags m) in
  let entry := "[" +++ Memory.mem_type m +++ "] " +++ Memory.mem_content m in
  if Py.is_empty tags then entry else entry +++ " (tags: " +++ tags +++ ")".

Definition approval_desc (name : string) (arguments : list (string * string)) : string :=
  name +++ "("
  +++ Py.join ", " (map (fun kv => fst kv +++ "=" +++ Py.take 80 (py_repr (snd kv))) arguments)
  +++ ")".

(** [_execute_tool_call]: the tool's result, [None] for a denied call.
    The outer [option] is [None] only if [Memory.add] does not return. *)
Definition _execute_tool_call (name : string) (arguments : list (string * string))
    (a : State) (w : World) : option (option string * State * World) :=
  if String.eqb name "ask_user" then
    let '(answer, a, w) := get_question_response a (get_arg arguments "question") w in
    Some (Some ("User answered: " +++ answer), a, w)
  else if String.eqb name "remember" then
    let content := get_arg arguments "content" in
    let tags := parse_tags (get_arg arguments "tags") in
    match Memory.add World fresh content tags "project" (memory a) w with
    | None => None
    | Some (mem, st, w) =>
        let a := set_memory a st in
        let a := set_ui a (Ui.set_memory_count (ui a) (Memory.count st)) in
        match mem with
        | Memory.Many l =>
            Some (Some ("Saved " +++ nat_to_string (List.length l) +++ " memory chunks."), a, w)
        | Memory.One m =>
            Some (Some ("Saved to memory (id: " +++ Memory.mem_id m +++ ")."), a, w)
        end
    end
  else if String.eqb name "recall" then
    let results := Memory.search fo (memory a) (get_arg arguments "query") 5 in
    match results with
    | [] => Some (Some "No relevant memories found.", a, w)
    | _ => Some (Some (Py.join Memory.nl (map recall_entry results)), a, w)
    end
  else if String.eqb name "task_complete" then
    let summary := get_arg arguments "summary" in
    match Memory.add World fresh summary [] "task" (memory a) w with
    | None => None
    | Some (_, st, w) =>
        let a := set_memory a st in
        let a := set_ui a (Ui.set_memory_count (ui a) (Memory.count st)) in
        let a := set_ui a (Ui.show_info wrap (ui a) ("Task complete: " +++ summary)) in
        Some (Some "Task summary saved to memory.", a, w)
    end
  else
    let run_tool (a : State) (w : World) :=
      let '(result, w) := execute_tool name arguments w in
      Some (Some result, log a (EvExecute name arguments), w) in
    if existsb (String.eqb name) APPROVAL_REQUIRED then
      let '(ok, a, w) := get_approval a (approval_desc name arguments) w in
      if ok then run_tool a w else Some (None, a, w)
    else run_tool a w.

Definition tool_msg (text : string) : Msg :=
  {| role := Tool; content := text; tool_calls := [] |}.

(** The [for tc in tool_calls] loop.  The boolean tells whether
    [task_complete] was reached, which returns from [run]. *)
Fixpoint dispatch (tcs : list ToolCall) (a : State) (w : World)
    : option (bool * State * World) :=
  match tcs with
  | [] => Some (false, a, w)
  | tc :: rest =>
      let a := log a (EvDispatch tc) in
      let a := set_ui a (Ui.show_tool_call wrap (ui a) (name tc) (arguments tc)) in
      match _execute_tool_call (name tc) (arguments tc) a w with
      | None => None
      | Some (None, a, w) =>
          let a := append_history a (tool_msg ("User denied execution of " +++ name tc +++ ".")) in
          let a := set_ui a (Ui.show_info wrap (ui a) "Action denied by user.") in
          dispatch rest a w
      | Some (Some result, a, w) =>
          let is_error := Py.startswith result "Error" in
          let a := set_ui a (Ui.show_tool_result wrap (ui a) (name tc) result is_error) in
          let a := append_history a (tool_msg result) in
          if String.eqb (name tc) "task_complete" then Some (true, a, w)
          else dispatch rest a w
      end
  end.

(** The [for chunk_type, data in chat_stream(...)] loop. *)
Fixpoint consume (chunks : list Chunk) (u : Ui.State) (full_text : string)
    (tool_calls : list ToolCall) : Ui.State * string * list ToolCall :=
  match chunks with
  | [] => (u, full_text, tool_calls)
  | Text data :: rest => consume rest (Ui.stream_token wrap u data) (full_text +++ data) tool_calls
  | ToolCallChunk data :: rest => consume rest u full_text (tool_calls ++ [data])
  | Done :: rest => consume rest u full_text tool_calls
  end.

Definition clean (full_text : string) : string := Py.strip (Py.sub_think full_text).

(** The body of [for _ in range(self.max_tool_rounds)], [rounds] being
    the number of iterations left. *)
Fixpoint run_rounds (rounds : nat) (user_input : string) (a : State) (w : World)
    : option (Outcome * State * World) :=
  match rounds with
  | O =>
      Some (Returned,
            set_ui a (Ui.show_info wrap (ui a) "Reached maximum tool rounds. Stopping."), w)
  | S rounds' =>
      let messages := _system_message a user_input :: history a in
      let a := set_ui a (Ui.stream_start (ui a)) in
      let '((chunks, ending), w) := chat_stream messages w in
      let a := log a (EvChat messages) in
      let '(u, full_text, tool_calls) := consume chunks (ui a) EmptyString [] in
      let a := set_ui a (Ui.stream_end u) in
      match ending with
      | RaisedKeyboardInterrupt => Some (Interrupted, a, w)
      | RaisedException e =>
          Some (Returned, set_ui a (Ui.show_error wrap (ui a) ("LLM error: " +++ e)), w)
      | Exhausted =>
          let clean_text := clean full_text in
          let a :=
            if negb (Py.is_empty clean_text) || negb (Nat.eqb (List.length tool_calls) 0)
            then append_history a
                   {| role := Assistant; content := clean_text; tool_calls := tool_calls |}
            else a in
          match tool_calls with
          | [] => Some (Returned, a, w)
          | _ =>
              match dispatch tool_calls a w with
              | None => None
              | Some (true, a, w) => Some (Returned, a, w)
              | Some (false, a, w) => run_rounds rounds' user_input a w
              end
          end
      end
  end.

Definition run (user_input : string) (a : State) (w : World)
    : option (Outcome * State * World) :=
  let a := append_history a {| role := User; content := user_input; tool_calls := [] |} in
  run_rounds (Z.to_nat (max_tool_rounds a)) user_input a w.

End Collaborators.

(** [Agent.__init__]. *)
Definition init (memory : Memory.Store) (ui : Ui.State) : State :=
  {| history := []; planning := false; max_tool_rounds := 15;
     memory := memory; ui := ui; trace := [] |}.

End Agent.

(* ===================================================================== *)
(** * llm.py: the stream of the chat client *)
(* ===================================================================== *)

Module Llm.

(** A frame of the response body, as [chat_stream] reads it: the [done]
    flag, and the tool calls and content of its message (none and empty
    where the key is missing). *)
Record Frame := {
  done : bool;
  tool_calls : list Agent.ToolCall;
  content : string
}.

(** A line of the response body: empty; one on which an exception is
    raised, by [json.loads] or the reading of the message before
    anything is yielded ([calls] is empty), or by the reading of a tool
    call after the [calls] before it were yielded; or a frame. *)
Inductive Line :=
| Blank
| Raising (calls : list Agent.ToolCall) (e : string)
| Parsed (f : Frame).

(** What one frame that is not the last yields: its tool calls, then its
    content when it is not empty. *)
Definition frame_chunks (f : Frame) : list Agent.Chunk :=
  map Agent.ToolCallChunk (tool_calls f)
  ++ (if Py.is_empty (content f) then [] else [Agent.Text (content f)]).

(** [chat_stream] over the lines the transport delivers; [closing] is
    how the transport ends once the lines are read. *)
Fixpoint chat_stream (lines : list Line) (closing : Agent.StreamEnd)
    : list Agent.Chunk * Agent.StreamEnd :=
  match lines with
  | [] => ([], closing)
  | Blank :: rest => chat_stream rest closing
  | Raising calls e :: _ => (map Agent.ToolCallChunk calls, Agent.RaisedException e)
  | Parsed f :: rest =>
      if done f then ([Agent.Done], Agent.Exhausted)
      else
        let '(more, ending) := chat_stream rest closing in
        (frame_chunks f ++ more, ending)
  end.

End Llm.

(* ===================================================================== *)
(** * tools.py: the file tools and the command output *)
(* ===================================================================== *)

Module Tools.

(** The regular files of the host: path to content, [None] where
    [os.path.isfile] is false.  Reading a regular file and writing to a
    path succeed: the [except Exception] branches of the file tools, taken
    on an I/O or decoding error of the host, are outside the model. *)
Definition Fs : Type := string -> option string.

Definition fs_write (fs : Fs) (path content : string) : Fs :=
  fun p => if String.eqb p path then Some content else fs p.

Section Files.

Variable expanduser : string -> string.

Definition edit_file (fs : Fs) (path old_text new_text : string) : string * Fs :=
  let path := expanduser path in
  match fs path with
  | None => ("Error: File not found: " +++ path, fs)
  | Some raw =>
      let content := Py.read_text raw in
      let count := Py.count content old_text in
      if Nat.eqb count 0 then ("Error: old_text not found in file.", fs)
      else if Nat.ltb 1 count then
        ("Warning: old_text found " +++ Py.str_nat count
         +++ " times. Replacing all occurrences.", fs)
      else
        let new_content := Py.replace_first content old_text new_text in
        ("Edited " +++ path +++ ": replaced " +++ Py.str_nat count +++ " occurrence(s).",
         fs_write fs path new_content)
  end.

Definition write_file (fs : Fs) (path content : string) : string * Fs :=
  let path := expanduser path in
  let lines :=
    (Py.count content Memory.nl + (if Py.endswith content Memory.nl then 0 else 1))%nat in
  ("Wrote " +++ Py.str_nat lines +++ " lines to " +++ path, fs_write fs path content).

End Files.

(** What [subprocess.run] comes back with. *)
Inductive Completed :=
| Finished (stdout stderr : string) (returncode : Z)
| TimeoutExpired
| Failed (e : string).

Definition command_output (c : Completed) : string :=
  match c with
  | Finished stdout stderr returncode =>
      let output := EmptyString in
      let output := if Py.is_empty stdout then output else output +++ stdout in
      let output :=
        if Py.is_empty stderr then output
        else output +++ (if Py.is_empty output then EmptyString else Memory.nl) +++ stderr in
      let output := if Py.is_empty output then "(no output)" else output in
      let output := output +++ Memory.nl +++ "[exit code: " +++ Py.str_int returncode +++ "]" in
      if (10000 <? Z.of_nat (String.length output))%Z then
        Py.take (Z.to_nat 5000) output +++ Memory.nl +++ "... (truncated) ..." +++ Memory.nl
        +++ Py.last_chars (Z.to_nat 2000) output
      else output
  | TimeoutExpired => "Error: Command timed out after 60 seconds."
  | Failed e => "Error running command: " +++ e
  end.

End Tools.

(* ===================================================================== *)
(** * main.py: the slash commands *)
(* ===================================================================== *)

Module Main.

(** What the command handler works on: the agent (with its memory and
    display), the model of the client, and the model and mode shown in
    the status line. *)
Record Session := {
  agent : Agent.State;
  client_model : string;
  ui_model : string;
  ui_mode : string
}.

(** [handle_command] returns [True] to go on and [False] to quit; it
    raises [IndexError] on a command without any word. *)
Inductive Handled :=
| Continue (s : Session)
| Quit
| RaisesIndexError.

Section Commands.

Variable fo : Memory.FloatOps.
Variable wrap : string -> list string.

Definition with_agent (s : Session) (a : Agent.State) : Session :=
  {| agent := a; client_model := client_model s; ui_model := ui_model s;
     ui_mode := ui_mode s |}.

Definition with_ui (s : Session) (u : Ui.State) : Session :=
  with_agent s (Agent.set_ui (agent s) u).

Definition info (s : Session) (msg : string) : Session :=
  with_ui s (Ui.show_info wrap (Agent.ui (agent s)) msg).

Definition error (s : Session) (msg : string) : Session :=
  with_ui s (Ui.show_error wrap (Agent.ui (agent s)) msg).

Definition memory_command (arg : string) (s : Session) : Session :=
  let sub_parts := Py.split_max1 arg in
  let sub_cmd := match sub_parts with c :: _ => c | [] => "list" end in
  let sub_arg := match sub_parts with _ :: a :: _ => a | _ => EmptyString end in
  let a := agent s in
  if String.eqb sub_cmd "list" then
    with_ui s (Ui.show_memories wrap (Agent.ui a) (Memory.list_all (Agent.memory a)))
  else if String.eqb sub_cmd "search" && negb (Py.is_empty sub_arg) then
    with_ui s (Ui.show_memories wrap (Agent.ui a) (Memory.search fo (Agent.memory a) sub_arg 5))
  else if String.eqb sub_cmd "forget" && negb (Py.is_empty sub_arg) then
    match Memory.delete (Agent.memory a) sub_arg with
    | (true, st) =>
        let s := with_agent s (Agent.set_memory a st) in
        let s := with_ui s (Ui.set_memory_count (Agent.ui (agent s)) (Memory.count st)) in
        info s ("Memory " +++ sub_arg +++ " deleted.")
    | (false, _) => error s ("Memory '" +++ sub_arg +++ "' not found.")
    end
  else info s "Usage: /memory [list | search <query> | forget <id>]".

Definition handle_command (command : string) (s : Session) : Handled :=
  match Py.split_max1 (Py.strip command) with
  | [] => RaisesIndexError
  | first :: more =>
      let cmd := Py.lower first in
      let arg := match more with a :: _ => a | [] => EmptyString end in
      if String.eqb cmd "/quit" || String.eqb cmd "/exit" then Quit
      else if String.eqb cmd "/clear" then
        Continue (info (with_agent s (Agent.reset (agent s))) "Conversation cleared.")
      else if String.eqb cmd "/plan" then
        let s := with_agent s (Agent.set_planning (agent s) (negb (Agent.planning (agent s)))) in
        let mode := if Agent.planning (agent s) then "planning" else "direct" in
        let s := {| agent := agent s; client_model := client_model s;
                    ui_model := ui_model s; ui_mode := mode |} in
        Continue (info s ("Switched to " +++ mode +++ " mode."))
      else if String.eqb cmd "/model" then
        if negb (Py.is_empty arg) then
          let s := {| agent := agent s; client_model := arg; ui_model := arg;
                      ui_mode := ui_mode s |} in
          Continue (info s ("Model set to: " +++ arg))
        else Continue (info s ("Current model: " +++ client_model s))
      else if String.eqb cmd "/memory" then Continue (memory_command arg s)
      else if String.eqb cmd "/help" then
        Continue (with_ui s (Ui.show_help wrap (Agent.ui (agent s))))
      else Continue (error s ("Unknown command: " +++ cmd +++ ". Type /help for commands."))
  end.

End Commands.

End Main.

(* ===================================================================== *)
(** * Concrete collaborators, to run the model on examples *)
(* ===================================================================== *)

Module Concrete.

(** Three-decimal fixed-point numbers in place of floats, the logarithm
    taken to first order. *)
Definition milli : Memory.FloatOps :=
  {| Memory.float := Z;
     Memory.fzero := 0%Z;
     Memory.truediv := fun a b => (1000 * a / b)%Z;
     Memory.flog := fun x => (x - 1000)%Z;
     Memory.fmul := fun a b => (a * b / 1000)%Z;
     Memory.fadd := Z.add;
     Memory.flt := Z.ltb |}.

(** The float operations read as exact real arithmetic. *)
Definition real_ops : Memory.FloatOps :=
  {| Memory.float := R;
     Memory.fzero := 0%R;
     Memory.truediv := fun a b => (IZR a / IZR b)%R;
     Memory.flog := ln;
     Memory.fmul := Rmult;
     Memory.fadd := Rplus;
     Memory.flt := fun a b => if Rlt_dec a b then true else false |}.

(** A scripted host: the responses of the backend and the answers at the
    approval prompt in the order they are given, and a counter that
    numbers the ids and the time stamps. *)
Record World := {
  script : list (list Agent.Chunk * Agent.StreamEnd);
  approvals : list bool;
  tick : nat
}.

Definition chat_stream (_ : list Agent.Msg) (w : World)
    : (list Agent.Chunk * Agent.StreamEnd) * World :=
  match script w with
  | [] => (([], Agent.Exhausted), w)
  | r :: rest => (r, {| script := rest; approvals := approvals w; tick := tick w |})
  end.

(** A backend that asks for the same file at every round. *)
Definition persistent_chat (_ : list Agent.Msg) (w : World)
    : (list Agent.Chunk * Agent.StreamEnd) * World :=
  (([Agent.ToolCallChunk {| Agent.name := "read_file";
                            Agent.arguments := [("path", "notes.txt")] |};
     Agent.Done], Agent.Exhausted), w).

Definition approval_answer (_ : string) (w : World) : bool * World :=
  match approvals w with
  | [] => (false, w)
  | b :: rest => (b, {| script := script w; approvals := rest; tick := tick w |})
  end.

Definition question_answer (_ : string) (w : World) : string * World := ("yes", w).

Definition execute_tool (name : string) (_ : list (string * string)) (w : World)
    : string * World := ("ran " +++ name, w).

Definition fresh (w : World) : (string * string) * World :=
  (("id" +++ Agent.nat_to_string (tick w), "t" +++ Agent.nat_to_string (tick w)),
   {| script := script w; approvals := approvals w; tick := S (tick w) |}).

Definition py_repr (s : string) : string := "'" +++ s +++ "'".

Definition wrap (s : string) : list string := [s].

Definition run := Agent.run milli World chat_stream approval_answer question_answer
                    execute_tool fresh py_repr wrap.

Definition dispatch := Agent.dispatch milli World approval_answer question_answer
                         execute_tool fresh py_repr wrap.

Definition add := Memory.add World fresh.

Definition empty_store : Memory.Store := {| Memory.memories := []; Memory.disk := None |}.

Definition mk (i c : string) (tags : list string) : Memory.Mem :=
  {| Memory.mem_id := i; Memory.mem_content := c; Memory.mem_tags := tags;
     Memory.mem_type := "task"; Memory.mem_timestamp := "2024-01-01T00:00:00+00:00" |}.

Definition store_of (l : list Memory.Mem) : Memory.Store :=
  {| Memory.memories := l; Memory.disk := Some (Memory.serialize l) |}.

(** A decoder that knows the lines of the memories [known]. *)
Definition json_loads (known : list Memory.Mem) (line : string) : option Memory.Mem :=
  List.find (fun m => String.eqb (Memory.json_dumps m) line) known.

Definition expanduser (path : string) : string := path.

Definition session (memories : list Memory.Mem) : Main.Session :=
  {| Main.agent :=
       Agent.init (store_of memories)
         (Ui.set_memory_count Ui.init (Z.of_nat (List.length memories)));
     Main.client_model := "qwen3";
     Main.ui_model := "qwen3";
     Main.ui_mode := "direct" |}.

Definition idle : World := {| script := []; approvals := []; tick := 0 |}.

(** [n] copies of the word [w], separated by single spaces. *)
Definition words_text (n : nat) (w : string) : string := Py.join " " (repeat w n).

End Concrete.

(* ===================================================================== *)
(** * The vocabulary of the specification *)
(* ===================================================================== *)

Module Spec.

(** [ceil(a / b)] for a positive [b]. *)
Definition ceil_div (a b : Z) : Z := ((a + b - 1) / b)%Z.

(** The number of records the specification gives for a content of
    [wc > 500] words: [ceil((wc - 500) / 450) + 1]. *)
Definition claimed_chunk_count (wc : Z) : Z := (ceil_div (wc - 500) 450 + 1)%Z.

(** The number of windows that start inside a text of [wc] words when
    the starts are 450 words apart. *)
Definition chunk_count (wc : Z) : nat := Z.to_nat (ceil_div wc 450).

(** The [i]-th window: the words from [450 i] up to [450 i + 500]. *)
Definition window (words : list string) (i : nat) : list string :=
  Py.slice words (450 * Z.of_nat i) (450 * Z.of_nat i + 500).

Definition chunk_text (words : list string) (i : nat) : string :=
  Py.join " " (window words i).

(** The [k] most recently inserted records, most recent first. *)
Definition most_recent_first {A : Type} (k : nat) (l : list A) : list A :=
  firstn k (rev l).

Section Scores.

Variable fo : Memory.FloatOps.
Variable mems : list Memory.Mem.

(** Term frequency: the occurrences of [t] among the words of the
    content of [m], over the number of these words (over 1 for a content
    without words). *)
Definition term_frequency (m : Memory.Mem) (t : string) : Memory.float fo :=
  let words := Memory._tokenize (Memory.mem_content m) in
  Memory.truediv fo (Z.of_nat (count_occ string_dec words t))
    (Z.of_nat (Nat.max 1 (List.length words))).

(** Document frequency: the number of records whose token set (words of
    content and of tags) holds [t]. *)
Definition doc_frequency (t : string) : nat :=
  List.length (filter (fun m => Memory.mem_in t (Memory.mem_tokens m)) mems).

Definition inverse_doc_frequency (t : string) : Memory.float fo :=
  Memory.flog fo
    (Memory.truediv fo (Z.of_nat (List.length mems) + 1) (Z.of_nat (doc_frequency t) + 1)).

Definition weight (m : Memory.Mem) (t : string) : Memory.float fo :=
  Memory.fmul fo (term_frequency m t) (inverse_doc_frequency t).

Definition sum_weights (m : Memory.Mem) (terms : list string) : Memory.float fo :=
  fold_left (fun acc t => Memory.fadd fo acc (weight m t)) terms (Memory.fzero fo).

(** The score as the specification words it: the sum over the terms the
    query and the record share, each term once. *)
Definition claimed_score (query : string) (m : Memory.Mem) : Memory.float fo :=
  sum_weights m
    (filter (fun t => Memory.mem_in t (Memory.mem_tokens m))
       (Memory.set_of (Memory._tokenize query))).

(** The score with every occurrence of a term in the query counted. *)
Definition score (query : string) (m : Memory.Mem) : Memory.float fo :=
  sum_weights m
    (filter (fun t => Memory.mem_in t (Memory.mem_tokens m)) (Memory._tokenize query)).

(** Two scores tie when neither is below the other. *)
Definition tied (a b : Memory.float fo) : bool :=
  negb (Memory.flt fo a b) && negb (Memory.flt fo b a).

(** In a ranking, [x] may stand before [y] when its score is not below
    that of [y]. *)
Definition not_below (x y : Memory.Scored fo) : Prop :=
  Memory.flt fo (fst x) (fst y) = false.

End Scores.

(** The lines of a file content, without their terminators; the text
    after the last terminator counts as a line when it is not empty. *)
Fixpoint lines_go (cur s : string) : list string :=
  match s with
  | EmptyString => Py.flush cur
  | String c s' =>
      if Ascii.eqb c (ascii_of_nat 10) then cur :: lines_go EmptyString s'
      else lines_go (cur +++ String c EmptyString) s'
  end.

Definition lines (s : string) : list string := lines_go EmptyString s.

Definition not_newline (c : ascii) : bool := negb (Ascii.eqb c (ascii_of_nat 10)).

(** A character that ends no line of a text-mode file. *)
Definition no_line_end (c : ascii) : bool :=
  negb (Nat.eqb (Py.code c) 10) && negb (Nat.eqb (Py.code c) 13).

(** The text and the tool calls a stream delivers. *)
Fixpoint stream_text (chunks : list Agent.Chunk) : string :=
  match chunks with
  | [] => EmptyString
  | Agent.Text data :: rest => data +++ stream_text rest
  | _ :: rest => stream_text rest
  end.

Fixpoint stream_calls (chunks : list Agent.Chunk) : list Agent.ToolCall :=
  match chunks with
  | [] => []
  | Agent.ToolCallChunk data :: rest => data :: stream_calls rest
  | _ :: rest => stream_calls rest
  end.

Definition user_msg (user_input : string) : Agent.Msg :=
  {| Agent.role := Agent.User; Agent.content := user_input; Agent.tool_calls := [] |}.

Definition assistant_msg (text : string) (calls : list Agent.ToolCall) : Agent.Msg :=
  {| Agent.role := Agent.Assistant; Agent.content := text; Agent.tool_calls := calls |}.

(** The rounds of a trace: its requests to the backend. *)
Definition is_chat (e : Agent.Event) : bool :=
  match e with Agent.EvChat _ => true | _ => false end.

Definition rounds (t : list Agent.Event) : nat := List.length (filter is_chat t).

(** A trace is guarded when every invocation of a tool whose name is in
    [APPROVAL_REQUIRED] comes right after the approval of that call. *)
Definition guarded (py_repr : string -> string) (t : list Agent.Event) : Prop :=
  forall pre name args post,
    t = pre ++ Agent.EvExecute name args :: post ->
    In name Agent.APPROVAL_REQUIRED ->
    exists pre',
      pre = pre' ++ [Agent.EvApproval (Agent.approval_desc py_repr name args) true].

(** The events one tool call may leave: a question, nothing, a denied
    approval, an approval and the invocation, or the invocation alone for
    a tool outside [APPROVAL_REQUIRED]. *)
Definition call_events (py_repr : string -> string) (name : string)
    (args : list (string * string)) (result : option string)
    (evs : list Agent.Event) : Prop :=
  (exists q ans, evs = [Agent.EvQuestion q ans] /\ result <> None)
  \/ (evs = [] /\ result <> None)
  \/ (evs = [Agent.EvApproval (Agent.approval_desc py_repr name args) false]
      /\ result = None /\ In name Agent.APPROVAL_REQUIRED)
  \/ (evs = [Agent.EvApproval (Agent.approval_desc py_repr name args) true;
             Agent.EvExecute name args] /\ result <> None)
  \/ (evs = [Agent.EvExecute name args] /\ ~ In name Agent.APPROVAL_REQUIRED
      /\ result <> None).

(** What a state keeps through a tool call: the history, the mode and
    the bound on the rounds. *)
Definition same_conversation (a a' : Agent.State) : Prop :=
  Agent.history a' = Agent.history a
  /\ Agent.planning a' = Agent.planning a
  /\ Agent.max_tool_rounds a' = Agent.max_tool_rounds a.

(** The calls of a batch up to its first [task_complete], included. *)
Fixpoint until_complete (tcs : list Agent.ToolCall) : list Agent.ToolCall :=
  match tcs with
  | [] => []
  | tc :: rest =>
      if String.eqb (Agent.name tc) "task_complete" then [tc]
      else tc :: until_complete rest
  end.

Definition has_complete (tcs : list Agent.ToolCall) : bool :=
  existsb (fun tc => String.eqb (Agent.name tc) "task_complete") tcs.

(** The calls a trace shows as dispatched. *)
Fixpoint dispatched (t : list Agent.Event) : list Agent.ToolCall :=
  match t with
  | [] => []
  | Agent.EvDispatch tc :: rest => tc :: dispatched rest
  | _ :: rest => dispatched rest
  end.

Definition tool_turn (m : Agent.Msg) : Prop :=
  Agent.role m = Agent.Tool /\ Agent.tool_calls m = [].

(** The digest [get_context] makes of a list of memories: nothing for
    none, else the heading and one bullet per memory. *)
Definition digest (mems : list Memory.Mem) : string :=
  match mems with
  | [] => EmptyString
  | _ => Py.join Memory.nl ("## Relevant Project Memories" :: map Memory.context_line mems)
  end.

(** The last [k] elements of a list. *)
Definition lastn {A : Type} (k : nat) (l : list A) : list A :=
  skipn (List.length l - k) l.

(** [s] is as [str.strip] leaves a text: no whitespace at either end. *)
Definition trimmed (s : string) : Prop := Py.lstrip s = s /\ Py.rstrip s = s.

(** The invocations of tool implementations in a trace. *)
Definition is_execute (e : Agent.Event) : bool :=
  match e with Agent.EvExecute _ _ => true | _ => false end.

End Spec.

(* ===================================================================== *)
(** * Facts about the Python primitives *)
(* ===================================================================== *)

Section PyFacts.

Example split_example :
  Py.split "  the quick   brown fox " = ["the"; "quick"; "brown"; "fox"].
Proof. reflexivity. Qed.

Example findall_word_example :
  Py.findall_word (Py.lower "Foo-bar_9, BAZ!") = ["foo"; "bar_9"; "baz"].
Proof. reflexivity. Qed.

Example sub_think_example :
  Py.sub_think "a<think>x</think>b<think>y" = "ab<think>y"
  /\ Py.sub_think "a<think>x</think>b<think>y<think>z</think>c" = "abc"
  /\ Py.strip (Py.sub_think " <think>x</think> ") = EmptyString.
Proof. repeat split. Qed.

Example partition_example :
  Py.partition "<think>" "a<think>secret</think>b" = ("a", "<think>", "secret</think>b").
Proof. reflexivity. Qed.

Example slice_example :
  Py.slice [1; 2; 3; 4; 5] 1%Z 3%Z = [2; 3] /\ Py.slice_to [1; 2; 3] (-1)%Z = [1; 2]
  /\ Py.slice_from [1; 2; 3] (-2)%Z = [2; 3] /\ Py.slice_from [1; 2; 3] 0%Z = [1; 2; 3].
Proof. repeat split. Qed.

Lemma append_empty_r (s : string) : s +++ EmptyString = s.
Proof. induction s as [|c s IH]; simpl; [reflexivity | now rewrite IH]. Qed.

Lemma append_assoc (a b c : string) : (a +++ b) +++ c = a +++ b +++ c.
Proof. induction a as [|x a IH]; simpl; [reflexivity | now rewrite IH]. Qed.

Lemma all_chars_app p a b :
  all_chars p (a +++ b) = all_chars p a && all_chars p b.
Proof.
  induction a as [|c a IH]; simpl; [reflexivity|].
  now rewrite IH, andb_assoc.
Qed.

Lemma runs_go_run keep w : forall cur s,
  all_chars keep w = true ->
  Py.runs_go keep cur (w +++ s) = Py.runs_go keep (cur +++ w) s.
Proof.
  induction w as [|c w IH]; intros cur s Hw; simpl in *.
  - now rewrite append_empty_r.
  - apply andb_prop in Hw as [Hc Hw]. rewrite Hc, IH by assumption.
    now rewrite append_assoc.
Qed.

Lemma runs_go_are_runs keep : forall s cur,
  all_chars keep cur = true -> Forall (is_run keep) (Py.runs_go keep cur s).
Proof.
  induction s as [|c s IH]; intros cur Hcur; simpl.
  - unfold Py.flush. destruct (Py.is_empty cur) eqn:E; constructor; [|constructor].
    now split.
  - destruct (keep c) eqn:Hc.
    + apply IH. rewrite all_chars_app, Hcur. simpl. now rewrite Hc.
    + apply Forall_app. split; [|now apply IH].
      unfold Py.flush. destruct (Py.is_empty cur) eqn:E; constructor; [|constructor].
      now split.
Qed.

Lemma runs_are_runs keep s : Forall (is_run keep) (Py.runs keep s).
Proof. now apply runs_go_are_runs. Qed.

(** Joining runs with a separator that [keep] rejects and reading the
    runs of the result gives the runs back. *)
Lemma runs_join keep sep ws :
  keep sep = false -> Forall (is_run keep) ws ->
  Py.runs keep (Py.join (String sep EmptyString) ws) = ws.
Proof.
  intros Hsep. induction ws as [|w ws IH]; intros Hws; [reflexivity|].
  inversion Hws as [|? ? [Hne Hw] Hrest]; subst.
  unfold Py.runs, Py.join in *. simpl String.concat.
  destruct ws as [|w' ws'].
  - rewrite <- (append_empty_r w) at 1.
    rewrite runs_go_run by assumption. simpl. unfold Py.flush. now rewrite Hne.
  - rewrite runs_go_run by assumption. simpl Py.runs_go at 1.
    cbn [String.append]. simpl. rewrite Hsep. unfold Py.flush at 1. rewrite Hne.
    simpl. f_equal. now apply IH.
Qed.

Lemma split_join ws :
  Forall (is_run (fun c => negb (Py.is_space c))) ws ->
  Py.split (Py.join " " ws) = ws.
Proof. intros H. apply runs_join; [reflexivity | assumption]. Qed.

Lemma split_words s : Forall (is_run (fun c => negb (Py.is_space c))) (Py.split s).
Proof. apply runs_are_runs. Qed.

Lemma Forall_firstn {A} (P : A -> Prop) n (l : list A) :
  Forall P l -> Forall P (firstn n l).
Proof.
  revert n; induction l as [|x l IH]; intros [|n] H; simpl; try constructor;
    inversion H; subst; auto.
Qed.

Lemma Forall_skipn {A} (P : A -> Prop) n (l : list A) :
  Forall P l -> Forall P (skipn n l).
Proof.
  revert n; induction l as [|x l IH]; intros [|n] H; simpl; auto.
  inversion H; subst; auto.
Qed.

Lemma Forall_slice {A} (P : A -> Prop) (l : list A) lo hi :
  Forall P l -> Forall P (Py.slice l lo hi).
Proof. intros H. unfold Py.slice. now apply Forall_firstn, Forall_skipn. Qed.

Lemma slice_length {A} (l : list A) lo hi :
  (0 <= lo)%Z -> (lo <= hi)%Z ->
  Z.of_nat (List.length (Py.slice l lo hi))
  = (Z.min hi (Z.of_nat (List.length l)) - Z.min lo (Z.of_nat (List.length l)))%Z.
Proof.
  intros Hlo Hhi. unfold Py.slice, Py.slice_bound.
  destruct (Z.ltb_spec lo 0); [lia|]. destruct (Z.ltb_spec hi 0); [lia|].
  rewrite List.length_firstn, List.length_skipn. lia.
Qed.

Lemma slice_to_firstn {A} (l : list A) k :
  (0 <= k)%Z -> Py.slice_to l k = firstn (Z.to_nat k) l.
Proof.
  intros Hk. unfold Py.slice_to, Py.slice, Py.slice_bound. simpl.
  destruct (Z.ltb_spec k 0); [lia|].
  replace (Z.min 0 (Z.of_nat (List.length l))) with 0%Z by lia. simpl.
  rewrite Z.sub_0_r.
  destruct (Z.le_ge_cases k (Z.of_nat (List.length l))).
  - now rewrite Z.min_l.
  - rewrite Z.min_r, Nat2Z.id by assumption.
    rewrite !firstn_all2; [reflexivity | lia | lia].
Qed.

End PyFacts.

(* ===================================================================== *)
(** * _chunk and add *)
(* ===================================================================== *)

Section Chunking.

Lemma ceil_div_450 (n : Z) :
  (0 <= n)%Z ->
  (450 * Spec.ceil_div n 450 - 450 < n <= 450 * Spec.ceil_div n 450)%Z.
Proof.
  intros Hn. unfold Spec.ceil_div.
  pose proof (Z.mul_div_le (n + 450 - 1) 450 ltac:(lia)).
  pose proof (Z.mul_succ_div_gt (n + 450 - 1) 450 ltac:(lia)).
  lia.
Qed.

Lemma chunk_loop_step fuel words max_tokens overlap i chunks :
  Memory.chunk_loop (S fuel) words max_tokens overlap i chunks
  = if (i <? Z.of_nat (List.length words))%Z then
      Memory.chunk_loop fuel words max_tokens overlap (i + (max_tokens - overlap))
        (chunks ++ [Py.join " " (Py.slice words i (i + max_tokens))])
    else Some chunks.
Proof. reflexivity. Qed.

(** The loop of [_chunk], entered at the start of window [j], appends
    the remaining windows and leaves. *)
Lemma chunk_loop_windows (words : list string) : forall m j acc fuel,
  (j + m = Spec.chunk_count (Z.of_nat (List.length words)))%nat ->
  (m < fuel)%nat ->
  Memory.chunk_loop fuel words 500 50 (450 * Z.of_nat j) acc
  = Some (acc ++ map (Spec.chunk_text words) (seq j m)).
Proof.
  pose proof (ceil_div_450 (Z.of_nat (List.length words)) ltac:(lia)) as Hc.
  unfold Spec.chunk_count.
  induction m as [|m IH]; intros j acc fuel Hj Hfuel;
    (destruct fuel as [|fuel]; [lia|]); rewrite chunk_loop_step.
  - destruct (Z.ltb_spec (450 * Z.of_nat j) (Z.of_nat (List.length words))); [lia|].
    cbn [seq map]. now rewrite app_nil_r.
  - destruct (Z.ltb_spec (450 * Z.of_nat j) (Z.of_nat (List.length words))); [|lia].
    replace (450 * Z.of_nat j + (500 - 50))%Z with (450 * Z.of_nat (S j))%Z by lia.
    rewrite IH by lia. cbn [seq map]. now rewrite <- app_assoc.
Qed.

(** [_chunk] with its default bounds returns, and returns the text
    itself or its windows. *)
Lemma chunk_default (text : string) :
  let words := Py.split text in
  let n := Z.of_nat (List.length words) in
  Memory._chunk text 500 50
  = Some (if (n <=? 500)%Z then [text]
          else map (Spec.chunk_text words) (seq 0 (Spec.chunk_count n))).
Proof.
  intros words n. unfold Memory._chunk. fold words. fold n.
  destruct (n <=? 500)%Z; [reflexivity|].
  apply (chunk_loop_windows words (Spec.chunk_count n) 0 []).
  - reflexivity.
  - unfold Spec.chunk_count. subst n.
    pose proof (ceil_div_450 (Z.of_nat (List.length words)) ltac:(lia)). lia.
Qed.

Lemma window_length (words : list string) (i : nat) :
  Z.of_nat (List.length (Spec.window words i))
  = Z.max 0 (Z.min 500 (Z.of_nat (List.length words) - 450 * Z.of_nat i)).
Proof. unfold Spec.window. rewrite slice_length by lia. lia. Qed.

Lemma window_firstn_skipn (words : list string) (i : nat) :
  Spec.window words i = firstn 500 (skipn (450 * i) words).
Proof.
  unfold Spec.window, Py.slice, Py.slice_bound.
  destruct (Z.ltb_spec (450 * Z.of_nat i) 0); [lia|].
  destruct (Z.ltb_spec (450 * Z.of_nat i + 500) 0); [lia|].
  set (n := List.length words).
  destruct (Nat.le_gt_cases n (450 * i)) as [Hle|Hgt].
  - rewrite !skipn_all2 by (fold n; lia). now rewrite !firstn_nil.
  - replace (Z.to_nat (Z.min (450 * Z.of_nat i) (Z.of_nat n))) with (450 * i)%nat by lia.
    destruct (Nat.le_gt_cases (450 * i + 500) n).
    + f_equal. lia.
    + rewrite !firstn_all2; [reflexivity | |]; rewrite List.length_skipn; fold n; lia.
Qed.

(** Two consecutive windows share the words from the start of the
    second to the end of the first. *)
Lemma window_overlap (words : list string) (i : nat) :
  skipn 450 (Spec.window words i)
  = firstn (List.length (Spec.window words i) - 450) (Spec.window words (S i)).
Proof.
  rewrite !window_firstn_skipn.
  rewrite List.length_firstn, List.length_skipn.
  rewrite skipn_firstn_comm, skipn_skipn, firstn_firstn.
  replace (450 + 450 * i)%nat with (450 * S i)%nat by lia.
  set (n := List.length words).
  destruct (Nat.le_gt_cases (450 * i + 500) n).
  - f_equal. lia.
  - rewrite (firstn_all2 (n := 500 - 450)) by (rewrite List.length_skipn; fold n; lia).
    rewrite firstn_all2; [reflexivity|]. rewrite List.length_skipn. fold n. lia.
Qed.

Section Host.

Variable World : Type.
Variable fresh : World -> (string * string) * World.

Lemma add_chunks_spec tags mem_type : forall chunks mems added w,
  exists new w',
    Memory.add_chunks World fresh chunks tags mem_type mems added w
    = (mems ++ new, added ++ new, w')
    /\ map Memory.mem_content new = chunks
    /\ Forall (fun m => Memory.mem_tags m = tags /\ Memory.mem_type m = mem_type) new.
Proof.
  induction chunks as [|c chunks IH]; intros mems added w; simpl.
  - exists [], w. now rewrite !app_nil_r.
  - destruct (fresh w) as [[i t] w1].
    destruct (IH (mems ++ [{| Memory.mem_id := i; Memory.mem_content := c;
                             Memory.mem_tags := tags; Memory.mem_type := mem_type;
                             Memory.mem_timestamp := t |}])
                 (added ++ [{| Memory.mem_id := i; Memory.mem_content := c;
                              Memory.mem_tags := tags; Memory.mem_type := mem_type;
                              Memory.mem_timestamp := t |}]) w1)
      as (new & w' & Heq & Hc & Hf).
    eexists (_ :: new), w'. rewrite Heq, <- !app_assoc. simpl.
    repeat split; [now rewrite Hc | constructor; [now split | assumption]].
Qed.

(** [add] returns; the store gains one record per chunk, in order, and
    the file holds the whole list. *)
Lemma add_spec content tags mem_type st w :
  exists res new w',
    Memory.add World fresh content tags mem_type st w
    = Some (res, Memory._save {| Memory.memories := Memory.memories st ++ new;
                                 Memory.disk := Memory.disk st |}, w')
    /\ Some (map Memory.mem_content new) = Memory._chunk content 500 50
    /\ Forall (fun m => Memory.mem_tags m = tags /\ Memory.mem_type m = mem_type) new
    /\ res = match new with [m] => Memory.One m | _ => Memory.Many new end.
Proof.
  unfold Memory.add. rewrite chunk_default.
  set (chunks := if (_ <=? 500)%Z then _ else _).
  destruct (add_chunks_spec tags mem_type chunks (Memory.memories st) [] w)
    as (new & w' & Heq & Hc & Hf).
  rewrite Heq. simpl. exists (match new with [m] => Memory.One m | _ => Memory.Many new end), new, w'.
  repeat split; [now rewrite Hc | assumption].
Qed.

End Host.

End Chunking.

Section AddClaims.

Variable World : Type.
Variable fresh : World -> (string * string) * World.

(** C2, as amended.  [add] returns.  A content of at most 500 words
    becomes one record holding the content unchanged.  A content of
    [n > 500] words becomes [ceil(n / 450)] records; the [i]-th holds the
    words from [450 i] up to [450 i + 500], joined by single spaces, so at
    most 500 words; two consecutive records share the words from the
    start of the second to the end of the first, [min(50, n - 450 (i+1))]
    of them. *)
Theorem add_splits_into_windows content tags mem_type st w :
  let words := Py.split content in
  let n := Z.of_nat (List.length words) in
  exists res new w',
    Memory.add World fresh content tags mem_type st w
    = Some (res, Memory._save {| Memory.memories := Memory.memories st ++ new;
                                 Memory.disk := Memory.disk st |}, w')
    /\ map Memory.mem_content new
       = (if (n <=? 500)%Z then [content]
          else map (Spec.chunk_text words) (seq 0 (Spec.chunk_count n)))
    /\ ((500 < n)%Z ->
        List.length new = Spec.chunk_count n
        /\ forall i, (i < Spec.chunk_count n)%nat ->
             Py.split (Spec.chunk_text words i) = Spec.window words i
             /\ (List.length (Spec.window words i) <= 500)%nat
             /\ ((S i < Spec.chunk_count n)%nat ->
                 skipn 450 (Spec.window words i)
                 = firstn (List.length (Spec.window words i) - 450) (Spec.window words (S i))
                 /\ Z.of_nat (List.length (Spec.window words i) - 450)
                    = Z.min 50 (n - 450 * Z.of_nat (S i)))).
Proof.
  intros words n.
  destruct (add_spec World fresh content tags mem_type st w)
    as (res & new & w' & Hadd & Hchunk & _ & _).
  rewrite chunk_default in Hchunk. fold words in Hchunk. fold n in Hchunk.
  injection Hchunk as Hcontent.
  exists res, new, w'. split; [exact Hadd|]. split; [exact Hcontent|].
  intros Hn. split.
  - rewrite <- (length_map Memory.mem_content), Hcontent.
    destruct (Z.leb_spec n 500); [lia|]. now rewrite length_map, length_seq.
  - intros i Hi.
    pose proof (window_length words i) as Hlen. fold n in Hlen.
    split; [|split].
    + apply split_join. unfold Spec.window. apply Forall_slice, split_words.
    + lia.
    + intros HSi. split; [apply window_overlap|].
      pose proof (ceil_div_450 n ltac:(lia)). unfold Spec.chunk_count in HSi. lia.
Qed.

End AddClaims.

(** C2 as stated fails on a content of 901 words: [add] creates three
    records, of 500, 451 and 1 words, where the stated count is two and
    the last two records share one word. *)
Lemma add_901_words_three_records :
  let content := Concrete.words_text 901 "w" in
  Z.of_nat (List.length (Py.split content)) = 901%Z
  /\ option_map
       (fun r => map (fun m => List.length (Py.split (Memory.mem_content m)))
                   (Memory.memories (snd (fst r))))
       (Concrete.add content [] "task" Concrete.empty_store Concrete.idle)
     = Some [500; 451; 1]%nat
  /\ Spec.claimed_chunk_count 901 = 2%Z.
Proof. vm_compute. repeat split. Qed.

Lemma add_splits_into_windows_witness :
  let content := Concrete.words_text 901 "w" in
  let words := Py.split content in
  (500 < Z.of_nat (List.length words))%Z
  /\ (2 < Spec.chunk_count (Z.of_nat (List.length words)))%nat
  /\ Z.of_nat (List.length (Spec.window words 1) - 450) = 1%Z.
Proof.
  intros content words.
  assert (Hn : (500 < Z.of_nat (List.length words))%Z) by (vm_compute; reflexivity).
  assert (Hc : (2 < Spec.chunk_count (Z.of_nat (List.length words)))%nat)
    by (vm_compute; lia).
  split; [exact Hn|]. split; [exact Hc|].
  destruct (add_splits_into_windows Concrete.World Concrete.fresh content [] "task"
              Concrete.empty_store Concrete.idle) as (res & new & w' & _ & _ & H).
  destruct (H Hn) as [_ Hw].
  destruct (Hw 1%nat (Nat.lt_trans 1 2 _ (Nat.lt_succ_diag_r 1) Hc)) as (_ & _ & Hov).
  destruct (Hov Hc) as [_ Hlen].
  etransitivity; [exact Hlen|]. vm_compute. reflexivity.
Defined.

(* ===================================================================== *)
(** * The file written by _save *)
(* ===================================================================== *)

Section Snapshot.

Lemma escape_char_one_line (c : ascii) :
  all_chars Spec.not_newline (Memory.json_escape_char c) = true.
Proof. destruct c as [[] [] [] [] [] [] [] []]; reflexivity. Qed.

Lemma escape_one_line (s : string) :
  all_chars Spec.not_newline (Memory.json_escape s) = true.
Proof.
  induction s as [|c s IH]; simpl; [reflexivity|].
  now rewrite all_chars_app, escape_char_one_line, IH.
Qed.

Lemma json_str_one_line (s : string) :
  all_chars Spec.not_newline (Memory.json_str s) = true.
Proof.
  unfold Memory.json_str. now rewrite !all_chars_app, escape_one_line.
Qed.

Lemma join_one_line sep (l : list string) :
  all_chars Spec.not_newline sep = true ->
  Forall (fun x => all_chars Spec.not_newline x = true) l ->
  all_chars Spec.not_newline (Py.join sep l) = true.
Proof.
  intros Hsep. induction 1 as [|x l Hx Hl IH]; [reflexivity|].
  unfold Py.join in *. simpl. destruct l as [|y l]; [assumption|].
  now rewrite !all_chars_app, Hx, Hsep, IH.
Qed.

Lemma json_list_one_line (l : list string) :
  all_chars Spec.not_newline (Memory.json_list l) = true.
Proof.
  unfold Memory.json_list. rewrite !all_chars_app, join_one_line; [reflexivity..|].
  apply Forall_map, Forall_forall. intros x _. apply json_str_one_line.
Qed.

(** [json.dumps] writes a memory on one line. *)
Lemma json_dumps_one_line (m : Memory.Mem) :
  all_chars Spec.not_newline (Memory.json_dumps m) = true.
Proof.
  unfold Memory.json_dumps, Memory.json_key.
  now rewrite !all_chars_app, !json_str_one_line, json_list_one_line.
Qed.

Lemma lines_go_line w : forall cur s,
  all_chars Spec.not_newline w = true ->
  Spec.lines_go cur (w +++ Memory.nl +++ s) = (cur +++ w) :: Spec.lines_go EmptyString s.
Proof.
  induction w as [|c w IH]; intros cur s Hw; simpl in *.
  - now rewrite append_empty_r.
  - apply andb_prop in Hw as [Hc Hw]. unfold Spec.not_newline in Hc.
    apply negb_true_iff in Hc. rewrite Hc, IH by assumption.
    now rewrite append_assoc.
Qed.

(** The file holds one line per memory, in list order. *)
Lemma serialize_lines (l : list Memory.Mem) :
  Spec.lines (Memory.serialize l) = map Memory.json_dumps l.
Proof.
  unfold Spec.lines. induction l as [|m l IH]; [reflexivity|].
  simpl. rewrite append_assoc, lines_go_line by apply json_dumps_one_line.
  simpl. now rewrite IH.
Qed.

Lemma first_match_split prefix : forall l i,
  match Memory.first_match prefix l i with
  | None => Forall (fun m => Py.startswith (Memory.mem_id m) prefix = false) l
  | Some j =>
      exists before m after,
        l = before ++ m :: after
        /\ Forall (fun m => Py.startswith (Memory.mem_id m) prefix = false) before
        /\ Py.startswith (Memory.mem_id m) prefix = true
        /\ j = (i + List.length before)%nat
  end.
Proof.
  induction l as [|x l IH]; intros i; simpl; [constructor|].
  destruct (Py.startswith (Memory.mem_id x) prefix) eqn:Hx.
  - exists [], x, l. repeat split; [constructor | assumption | simpl; lia].
  - specialize (IH (S i)). destruct (Memory.first_match prefix l (S i)).
    + destruct IH as (before & m & after & -> & Hb & Hm & ->).
      exists (x :: before), m, after.
      repeat split; [constructor; assumption | assumption | simpl; lia].
    + now constructor.
Qed.

Lemma pop_middle {A} (before : list A) m after :
  Memory.pop (List.length before) (before ++ m :: after) = before ++ after.
Proof.
  unfold Memory.pop. induction before as [|x before IH]; [reflexivity|].
  cbn [List.length firstn skipn app]. f_equal. exact IH.
Qed.

(** What [delete] does, by whether an id starts with the prefix. *)
Lemma delete_cases (st : Memory.Store) (prefix : string) :
  (Forall (fun m => Py.startswith (Memory.mem_id m) prefix = false) (Memory.memories st)
   /\ Memory.delete st prefix = (false, st))
  \/ (exists before m after,
        Memory.memories st = before ++ m :: after
        /\ Forall (fun m => Py.startswith (Memory.mem_id m) prefix = false) before
        /\ Py.startswith (Memory.mem_id m) prefix = true
        /\ Memory.delete st prefix
           = (true, {| Memory.memories := before ++ after;
                       Memory.disk := Some (Memory.serialize (before ++ after)) |})).
Proof.
  unfold Memory.delete.
  pose proof (first_match_split prefix (Memory.memories st) 0) as H.
  destruct (Memory.first_match prefix (Memory.memories st) 0) as [j|].
  - right. destruct H as (before & m & after & Hl & Hb & Hm & ->).
    exists before, m, after. rewrite Hl. simpl Nat.add. rewrite pop_middle.
    now repeat split.
  - left. now split.
Qed.

End Snapshot.

Section DeleteClaims.

(** C8.  [delete] either finds no id that starts with the prefix,
    returns false and leaves the store as it is; or it removes the first
    record in store order whose id starts with the prefix, that record
    only, writes the file and returns true, whether or not later ids
    start with the prefix too. *)
Theorem delete_removes_first_match (st : Memory.Store) (prefix : string) :
  (Forall (fun m => Py.startswith (Memory.mem_id m) prefix = false) (Memory.memories st)
   /\ Memory.delete st prefix = (false, st))
  \/ (exists before m after,
        Memory.memories st = before ++ m :: after
        /\ Forall (fun m => Py.startswith (Memory.mem_id m) prefix = false) before
        /\ Py.startswith (Memory.mem_id m) prefix = true
        /\ Memory.delete st prefix
           = (true, {| Memory.memories := before ++ after;
                       Memory.disk := Some (Memory.serialize (before ++ after)) |})
        /\ List.length (before ++ after) = (List.length (Memory.memories st) - 1)%nat).
Proof.
  destruct (delete_cases st prefix) as [H | (before & m & after & Hl & Hb & Hm & Hd)].
  - now left.
  - right. exists before, m, after. repeat split; try assumption.
    rewrite Hl, !length_app. simpl. lia.
Qed.

(** C10.  Every id starts with the empty prefix; [delete] with the
    empty prefix removes the first record of a non-empty store, writes
    the file and returns true, and on an empty store it changes nothing
    and returns false. *)
Theorem delete_empty_prefix (st : Memory.Store) :
  (forall m, Py.startswith (Memory.mem_id m) EmptyString = true)
  /\ Memory.delete st EmptyString
     = match Memory.memories st with
       | [] => (false, st)
       | _ :: rest =>
           (true, {| Memory.memories := rest;
                     Memory.disk := Some (Memory.serialize rest) |})
       end.
Proof.
  split.
  - intros m. unfold Py.startswith. now destruct (Memory.mem_id m).
  - unfold Memory.delete. destruct (Memory.memories st) as [|m rest] eqn:E.
    + reflexivity.
    + simpl. unfold Py.startswith. now destruct (Memory.mem_id m).
Qed.

End DeleteClaims.

Section SnapshotClaim.

Variable World : Type.
Variable fresh : World -> (string * string) * World.

(** C9.  [add] returns with one new memory per chunk appended to the
    list and the file holding the serialization of the whole list, the
    new memories included; a [delete] that returns
    true leaves the file in the same relation to the list, and one that
    returns false leaves store and file untouched.  The serialization is
    one [json.dumps] line per memory, in list order. *)
Theorem file_is_snapshot_after_mutation :
  (forall content tags mem_type st w,
     exists res new st' w',
       Memory.add World fresh content tags mem_type st w = Some (res, st', w')
       /\ Memory.memories st' = Memory.memories st ++ new
       /\ Some (map Memory.mem_content new) = Memory._chunk content 500 50
       /\ Memory.disk st' = Some (Memory.serialize (Memory.memories st')))
  /\ (forall st prefix,
        Memory.delete st prefix = (false, st)
        \/ (fst (Memory.delete st prefix) = true
            /\ Memory.disk (snd (Memory.delete st prefix))
               = Some (Memory.serialize (Memory.memories (snd (Memory.delete st prefix))))))
  /\ (forall l, Spec.lines (Memory.serialize l) = map Memory.json_dumps l).
Proof.
  split; [|split].
  - intros content tags mem_type st w.
    destruct (add_spec World fresh content tags mem_type st w)
      as (res & new & w' & Hadd & Hchunks & _).
    eexists res, new, _, w'. split; [exact Hadd|].
    split; [reflexivity|]. split; [exact Hchunks | reflexivity].
  - intros st prefix.
    destruct (delete_cases st prefix) as [[_ H] | (before & m & after & _ & _ & _ & H)].
    + now left.
    + right. rewrite H. simpl. now split.
  - apply serialize_lines.
Qed.

End SnapshotClaim.

(* ===================================================================== *)
(** * search *)
(* ===================================================================== *)

(** C1.  On a store of three memories the empty query with [k = 2]
    returns the two oldest, oldest first, where the claim asks for the
    two most recent, most recent first.  The fallback of [get_context]
    for an empty query takes the most recent memories; a query without
    terms, which goes through [search], gets the oldest instead. *)
Lemma search_empty_query_returns_oldest :
  let m1 := Concrete.mk "01" "alpha" [] in
  let m2 := Concrete.mk "02" "beta" [] in
  let m3 := Concrete.mk "03" "gamma" [] in
  let st := Concrete.store_of [m1; m2; m3] in
  Memory._tokenize EmptyString = []
  /\ Memory.search Concrete.milli st EmptyString 2 = [m1; m2]
  /\ Spec.most_recent_first 2 (Memory.memories st) = [m3; m2]
  /\ Memory.search Concrete.milli st EmptyString 2
     <> Spec.most_recent_first 2 (Memory.memories st)
  /\ Memory.get_context Concrete.milli st EmptyString 2 = Spec.digest [m2; m3]
  /\ Memory.get_context Concrete.milli st "?!" 2 = Spec.digest [m1; m2].
Proof. repeat split. discriminate. Qed.

Section Counters.

Lemma counter_get_incr (c : Memory.Counter) (t u : string) :
  Memory.counter_get (Memory.counter_incr c t) u
  = if String.eqb t u then S (Memory.counter_get c u) else Memory.counter_get c u.
Proof.
  induction c as [|[k n] c IH]; simpl.
  - reflexivity.
  - destruct (String.eqb_spec k t) as [->|Hkt]; simpl.
    + now destruct (String.eqb t u).
    + rewrite IH. destruct (String.eqb_spec k u) as [->|Hku]; [|reflexivity].
      destruct (String.eqb_spec t u); [congruence | reflexivity].
Qed.

Lemma counter_get_fold (l : list string) : forall c u,
  Memory.counter_get (fold_left Memory.counter_incr l c) u
  = (count_occ string_dec l u + Memory.counter_get c u)%nat.
Proof.
  induction l as [|t l IH]; intros c u; simpl; [reflexivity|].
  rewrite IH, counter_get_incr.
  destruct (string_dec t u) as [->|Hne].
  - rewrite String.eqb_refl. lia.
  - destruct (String.eqb_spec t u); [contradiction | reflexivity].
Qed.

Lemma counter_total_incr (c : Memory.Counter) (t : string) :
  Memory.counter_total (Memory.counter_incr c t) = S (Memory.counter_total c).
Proof.
  unfold Memory.counter_total. induction c as [|[k n] c IH]; simpl; [reflexivity|].
  destruct (String.eqb k t); simpl; [reflexivity | rewrite IH; lia].
Qed.

Lemma counter_total_fold (l : list string) : forall c,
  Memory.counter_total (fold_left Memory.counter_incr l c)
  = (List.length l + Memory.counter_total c)%nat.
Proof.
  induction l as [|t l IH]; intros c; simpl; [reflexivity|].
  rewrite IH, counter_total_incr. lia.
Qed.

(** [Counter(words)[t]] counts the occurrences of [t]. *)
Lemma counter_of_get (l : list string) (t : string) :
  Memory.counter_get (Memory.counter_of l) t = count_occ string_dec l t.
Proof. unfold Memory.counter_of. rewrite counter_get_fold. simpl. lia. Qed.

(** [sum(Counter(words).values())] is the number of words. *)
Lemma counter_of_total (l : list string) :
  Memory.counter_total (Memory.counter_of l) = List.length l.
Proof.
  unfold Memory.counter_of. rewrite counter_total_fold.
  change (Memory.counter_total []) with 0%nat. lia.
Qed.

Lemma mem_in_In (t : string) (l : list string) :
  Memory.mem_in t l = true <-> In t l.
Proof.
  unfold Memory.mem_in. rewrite existsb_exists. split.
  - intros (x & Hx & He). apply String.eqb_eq in He. now subst.
  - intros H. exists t. split; [assumption | apply String.eqb_refl].
Qed.

Lemma count_occ_set (t : string) (l : list string) :
  count_occ string_dec (Memory.set_of l) t
  = if Memory.mem_in t (Memory.set_of l) then 1%nat else 0%nat.
Proof.
  unfold Memory.set_of.
  pose proof (NoDup_nodup string_dec l) as Hnd.
  rewrite (NoDup_count_occ string_dec) in Hnd. specialize (Hnd t).
  destruct (Memory.mem_in t (nodup string_dec l)) eqn:E.
  - apply mem_in_In in E. apply (count_occ_In string_dec) in E. lia.
  - destruct (Nat.eq_dec (count_occ string_dec (nodup string_dec l) t) 0) as [H0|H0];
      [assumption|].
    assert (Hin : In t (nodup string_dec l)) by (apply (count_occ_In string_dec); lia).
    apply mem_in_In in Hin. unfold Memory.set_of in *. congruence.
Qed.

(** [df[t]] is the number of records whose token set holds [t]. *)
Lemma document_frequency_get (mems : list Memory.Mem) (t : string) :
  Memory.counter_get (Memory.document_frequency (map Memory.mem_tokens mems)) t
  = Spec.doc_frequency mems t.
Proof.
  unfold Memory.document_frequency, Spec.doc_frequency.
  assert (H : forall c,
    Memory.counter_get
      (fold_left (fun df tokens => fold_left Memory.counter_incr tokens df)
         (map Memory.mem_tokens mems) c) t
    = (List.length (filter (fun m => Memory.mem_in t (Memory.mem_tokens m)) mems)
       + Memory.counter_get c t)%nat).
  { induction mems as [|m l IH]; intros c; simpl; [reflexivity|].
    rewrite IH, counter_get_fold.
    pose proof (count_occ_set t
      (Memory._tokenize (Memory.mem_content m +++ " " +++ Py.join " " (Memory.mem_tags m))))
      as Hm.
    fold (Memory.mem_tokens m) in Hm. rewrite Hm.
    destruct (Memory.mem_in t (Memory.mem_tokens m)); simpl; lia. }
  rewrite H. simpl. lia.
Qed.

End Counters.

Section Ranking.

Variable fo : Memory.FloatOps.
Hypothesis order : Memory.StrictWeak fo.

Lemma flt_asym a b : Memory.flt fo a b = true -> Memory.flt fo b a = false.
Proof.
  intros Hab. destruct (Memory.flt fo b a) eqn:Hba; [|reflexivity].
  pose proof (Memory.flt_trans fo order a b a Hab Hba) as H.
  now rewrite (Memory.flt_irrefl fo order) in H.
Qed.

Lemma insert_desc_perm x l : Permutation (Memory.insert_desc fo x l) (x :: l).
Proof.
  induction l as [|y l IH]; simpl; [reflexivity|].
  destruct (Memory.flt fo (fst x) (fst y)); [|reflexivity].
  rewrite IH. apply perm_swap.
Qed.

Lemma sort_desc_perm l : Permutation (Memory.sort_desc fo l) l.
Proof.
  induction l as [|x l IH]; simpl; [reflexivity|].
  rewrite insert_desc_perm. now constructor.
Qed.

Lemma insert_desc_sorted x l :
  StronglySorted (Spec.not_below fo) l -> StronglySorted (Spec.not_below fo) (Memory.insert_desc fo x l).
Proof.
  induction 1 as [|y l Hl IH Hy]; simpl.
  - repeat constructor.
  - destruct (Memory.flt fo (fst x) (fst y)) eqn:Hxy.
    + constructor; [assumption|].
      apply Forall_forall. intros z Hz.
      apply (Permutation_in _ (insert_desc_perm x l)) in Hz. destruct Hz as [<-|Hz].
      * now apply flt_asym.
      * rewrite Forall_forall in Hy. now apply Hy.
    + constructor; [now constructor|].
      constructor; [assumption|].
      revert Hy. apply Forall_impl. intros z Hyz.
      exact (Memory.flt_incomp fo order _ _ _ Hxy Hyz).
Qed.

(** The sort leaves the scores in non-increasing order. *)
Lemma sort_desc_sorted l : StronglySorted (Spec.not_below fo) (Memory.sort_desc fo l).
Proof.
  induction l as [|x l IH]; simpl; [constructor | now apply insert_desc_sorted].
Qed.

Lemma filter_insert_desc s x l :
  filter (fun y => Spec.tied fo s (fst y)) (Memory.insert_desc fo x l)
  = filter (fun y => Spec.tied fo s (fst y)) (x :: l).
Proof.
  induction l as [|y l IH]; [reflexivity|].
  cbn [Memory.insert_desc]. destruct (Memory.flt fo (fst x) (fst y)) eqn:Hxy; [|reflexivity].
  cbn [filter] in *. rewrite IH.
  destruct (Spec.tied fo s (fst x)) eqn:Hx; [|reflexivity].
  destruct (Spec.tied fo s (fst y)) eqn:Hy; [|reflexivity].
  unfold Spec.tied in Hx, Hy.
  apply andb_prop in Hx as [_ Hx]. apply andb_prop in Hy as [Hy _].
  apply negb_true_iff in Hx, Hy.
  pose proof (Memory.flt_incomp fo order _ _ _ Hx Hy). congruence.
Qed.

(** The sort is stable: the elements tied at a score keep their order. *)
Lemma sort_desc_stable s l :
  filter (fun y => Spec.tied fo s (fst y)) (Memory.sort_desc fo l)
  = filter (fun y => Spec.tied fo s (fst y)) l.
Proof.
  induction l as [|x l IH]; [reflexivity|].
  cbn [Memory.sort_desc fold_right]. rewrite filter_insert_desc.
  cbn [filter]. fold (Memory.sort_desc fo l). now rewrite IH.
Qed.

End Ranking.

Section Scoring.

Variable fo : Memory.FloatOps.

Lemma fold_left_if {A B} (p : B -> bool) (f : A -> B -> A) (l : list B) : forall a,
  fold_left (fun acc t => if p t then f acc t else acc) l a = fold_left f (filter p l) a.
Proof.
  induction l as [|t l IH]; intros a; simpl; [reflexivity|].
  destruct (p t); simpl; apply IH.
Qed.

Lemma fold_left_same {A B} (f g : A -> B -> A) (l : list B) :
  (forall a t, f a t = g a t) -> forall a, fold_left f l a = fold_left g l a.
Proof.
  intros H. induction l as [|t l IH]; intros a; simpl; [reflexivity|].
  now rewrite H, IH.
Qed.

(** The scoring loop computes the sum of tf-idf weights over the
    occurrences of query terms that the record shares. *)
Lemma score_of_score (mems : list Memory.Mem) (query : string) (m : Memory.Mem) :
  Memory.score_of fo (Z.of_nat (List.length mems))
    (Memory.document_frequency (map Memory.mem_tokens mems))
    (Memory._tokenize query) (Memory.mem_tokens m) m
  = Spec.score fo mems query m.
Proof.
  unfold Memory.score_of, Spec.score, Spec.sum_weights.
  rewrite (fold_left_if (fun t => Memory.mem_in t (Memory.mem_tokens m))
             (fun score term => Memory.fadd fo score _)).
  apply fold_left_same. intros a t.
  unfold Spec.weight, Spec.term_frequency, Spec.inverse_doc_frequency.
  rewrite counter_of_get, counter_of_total, document_frequency_get.
  destruct (List.length (Memory._tokenize (Memory.mem_content m))); reflexivity.
Qed.

Lemma flat_map_combine {A B C} (f : A * B -> list C) (g : A -> B) (l : list A) :
  flat_map f (combine l (map g l)) = flat_map (fun x => f (x, g x)) l.
Proof. induction l as [|x l IH]; simpl; [reflexivity | now rewrite IH]. Qed.

Lemma flat_map_filter {A C} (p : A -> bool) (f : A -> C) (l : list A) :
  flat_map (fun x => if p x then [f x] else []) l = map f (filter p l).
Proof.
  induction l as [|x l IH]; simpl; [reflexivity|].
  rewrite IH. now destruct (p x).
Qed.

(** The scored list: the memories of positive score with their scores,
    in store order. *)
Lemma score_all_positive (mems : list Memory.Mem) (query : string) :
  Memory.score_all fo mems (Memory._tokenize query)
  = map (fun m => (Spec.score fo mems query m, m))
      (filter (fun m => Memory.flt fo (Memory.fzero fo) (Spec.score fo mems query m)) mems).
Proof.
  unfold Memory.score_all. rewrite flat_map_combine. cbn [fst snd].
  rewrite <- flat_map_filter. apply flat_map_ext. intros m.
  now rewrite score_of_score.
Qed.

End Scoring.

Section SearchRanking.

Variable fo : Memory.FloatOps.

Lemma StronglySorted_firstn {A} (R : A -> A -> Prop) (l : list A) : forall n,
  StronglySorted R l -> StronglySorted R (firstn n l).
Proof.
  induction l as [|x l IH]; intros [|n] H; simpl; try constructor.
  - apply IH. now inversion H.
  - apply Forall_firstn. now inversion H.
Qed.

(** With terms in the query, [search] is: score, keep the positive
    scores, sort, cut at [k]. *)
Lemma search_with_terms (st : Memory.Store) (query : string) (k : Z) :
  Memory._tokenize query <> [] -> (0 <= k)%Z ->
  Memory.search fo st query k
  = map snd (firstn (Z.to_nat k)
               (Memory.sort_desc fo
                  (Memory.score_all fo (Memory.memories st) (Memory._tokenize query)))).
Proof.
  intros Hq Hk. unfold Memory.search.
  destruct (Memory.memories st) as [|m l].
  - now rewrite firstn_nil.
  - destruct (Memory._tokenize query) as [|t ts]; [contradiction|].
    now rewrite slice_to_firstn.
Qed.

Hypothesis order : Memory.StrictWeak fo.

(** C3, as amended.  For a query with terms and [k >= 0], the result
    of [search] is a list of records with their scores, the score of a
    record being the sum, over the occurrences of query terms that its
    token set (words of content and of tags) holds, of
    [tf * log((N + 1) / (df + 1))]: there are [min(k, p)] of them, [p]
    the number of records of positive score, so at most [k]; each is a
    record of the store with a positive score; no result has a score
    below that of a later one; and the results tied at any score are, in
    store order, the first records of the store tied at it. *)
Theorem search_ranks_by_score (st : Memory.Store) (query : string) (k : Z) :
  Memory._tokenize query <> [] -> (0 <= k)%Z ->
  let mems := Memory.memories st in
  let score := Spec.score fo mems query in
  let positive := filter (fun m => Memory.flt fo (Memory.fzero fo) (score m)) mems in
  exists ranked : list (Memory.Scored fo),
    Memory.search fo st query k = map snd ranked
    /\ List.length ranked = Nat.min (Z.to_nat k) (List.length positive)
    /\ Forall (fun x => fst x = score (snd x) /\ In (snd x) mems
                        /\ Memory.flt fo (Memory.fzero fo) (fst x) = true) ranked
    /\ StronglySorted (Spec.not_below fo) ranked
    /\ forall s, exists rest,
         filter (fun x => Spec.tied fo s (fst x)) (map (fun m => (score m, m)) positive)
         = filter (fun x => Spec.tied fo s (fst x)) ranked ++ rest.
Proof.
  intros Hq Hk mems score positive.
  rewrite (search_with_terms st query k Hq Hk). fold mems.
  rewrite score_all_positive. fold score. fold positive.
  set (scored := map (fun m => (score m, m)) positive).
  exists (firstn (Z.to_nat k) (Memory.sort_desc fo scored)).
  split; [reflexivity|]. split; [|split; [|split]].
  - rewrite length_firstn, (Permutation_length (sort_desc_perm fo scored)).
    unfold scored. now rewrite length_map.
  - apply Forall_firstn, Forall_forall. intros x Hx.
    apply (Permutation_in _ (sort_desc_perm fo scored)) in Hx.
    unfold scored in Hx. apply in_map_iff in Hx as (m & <- & Hm).
    apply filter_In in Hm as [Hin Hpos]. now repeat split.
  - apply StronglySorted_firstn, sort_desc_sorted, order.
  - intros s.
    exists (filter (fun x => Spec.tied fo s (fst x))
              (skipn (Z.to_nat k) (Memory.sort_desc fo scored))).
    rewrite <- filter_app, firstn_skipn. symmetry. apply sort_desc_stable, order.
Qed.

End SearchRanking.

Lemma milli_order : Memory.StrictWeak Concrete.milli.
Proof.
  constructor; simpl.
  - intros a. apply Z.ltb_irrefl.
  - intros a b c. rewrite !Z.ltb_lt. lia.
  - intros a b c. rewrite !Z.ltb_ge. lia.
Defined.

Lemma search_ranks_by_score_witness :
  let m1 := Concrete.mk "01" "cat dog dog" [] in
  let m2 := Concrete.mk "02" "bird" ["dog"] in
  let m3 := Concrete.mk "03" "dog fish" [] in
  let m4 := Concrete.mk "04" "eel" [] in
  let st := Concrete.store_of [m1; m2; m3; m4] in
  Memory.search Concrete.milli st "Dog!" 5 = [m1; m3]
  /\ exists ranked,
       Memory.search Concrete.milli st "Dog!" 5 = map snd ranked
       /\ List.length ranked = 2%nat
       /\ StronglySorted (Spec.not_below Concrete.milli) ranked.
Proof.
  intros m1 m2 m3 m4 st. split; [reflexivity|].
  destruct (search_ranks_by_score Concrete.milli milli_order st "Dog!" 5)
    as (ranked & Hres & Hlen & _ & Hsorted & _).
  - discriminate.
  - lia.
  - exists ranked. split; [exact Hres|]. split; [exact Hlen | exact Hsorted].
Defined.

Section RepeatedQueryTerms.

Variable fo : Memory.FloatOps.

Let m1 := Concrete.mk "01" "a x x" [].
Let m2 := Concrete.mk "02" "b y" [].

(** Two records and the query ["a a b"]: the scores the loop computes
    and the scores of the specification, in terms of the float
    operations. *)
Lemma repeated_term_scores :
  let idf := Memory.flog fo (Memory.truediv fo 3 2) in
  let a := Memory.fmul fo (Memory.truediv fo 1 3) idf in
  let b := Memory.fmul fo (Memory.truediv fo 1 2) idf in
  Spec.score fo [m1; m2] "a a b" m1 = Memory.fadd fo (Memory.fadd fo (Memory.fzero fo) a) a
  /\ Spec.score fo [m1; m2] "a a b" m2 = Memory.fadd fo (Memory.fzero fo) b
  /\ Spec.claimed_score fo [m1; m2] "a a b" m1 = Memory.fadd fo (Memory.fzero fo) a
  /\ Spec.claimed_score fo [m1; m2] "a a b" m2 = Memory.fadd fo (Memory.fzero fo) b.
Proof. repeat split. Qed.

End RepeatedQueryTerms.

Lemma ln_three_halves : (0 < ln (3 / 2))%R.
Proof. rewrite <- ln_1. apply ln_increasing; lra. Qed.

Lemma real_flt_true (a b : R) : (a < b)%R -> Memory.flt Concrete.real_ops a b = true.
Proof. intros H. simpl. now destruct (Rlt_dec a b). Qed.

Lemma real_flt_false (a b : R) : (b <= a)%R -> Memory.flt Concrete.real_ops a b = false.
Proof. intros H. simpl. destruct (Rlt_dec a b); [lra | reflexivity]. Qed.

(** C3 as stated fails where the query repeats a term.  With exact
    real arithmetic, on the records ["a x x"] and ["b y"] the query
    ["a a b"] ranks the first record first, although the sum over the
    shared terms, each once, is smaller for it than for the second. *)
Lemma search_counts_repeated_query_terms :
  let m1 := Concrete.mk "01" "a x x" [] in
  let m2 := Concrete.mk "02" "b y" [] in
  let st := Concrete.store_of [m1; m2] in
  Memory.search Concrete.real_ops st "a a b" 5 = [m1; m2]
  /\ (Spec.claimed_score Concrete.real_ops (Memory.memories st) "a a b" m1
      < Spec.claimed_score Concrete.real_ops (Memory.memories st) "a a b" m2)%R.
Proof.
  cbv zeta.
  destruct (repeated_term_scores Concrete.real_ops) as (H1 & H2 & C1 & C2).
  cbv zeta in H1, H2, C1, C2.
  pose proof ln_three_halves as HL.
  split.
  - rewrite search_with_terms by (discriminate || lia).
    unfold Concrete.store_of. cbn [Memory.memories].
    rewrite score_all_positive. cbn [filter].
    rewrite H1, H2.
    rewrite !(real_flt_true (Memory.fzero Concrete.real_ops)) by (simpl; lra).
    cbn [map Memory.sort_desc fold_right Memory.insert_desc fst].
    rewrite H1, H2.
    rewrite real_flt_false by (simpl; lra).
    reflexivity.
  - unfold Concrete.store_of. cbn [Memory.memories]. rewrite C1, C2. simpl. lra.
Qed.

(* ===================================================================== *)
(** * The agent loop *)
(* ===================================================================== *)

Section AgentFacts.

Variable fo : Memory.FloatOps.
Variable World : Type.
Variable chat_stream : list Agent.Msg -> World -> (list Agent.Chunk * Agent.StreamEnd) * World.
Variable approval_answer : string -> World -> bool * World.
Variable question_answer : string -> World -> string * World.
Variable execute_tool : string -> list (string * string) -> World -> string * World.
Variable fresh : World -> (string * string) * World.
Variable py_repr : string -> string.
Variable wrap : string -> list string.

Let run := Agent.run fo World chat_stream approval_answer question_answer
             execute_tool fresh py_repr wrap.
Let run_rounds := Agent.run_rounds fo World chat_stream approval_answer question_answer
                    execute_tool fresh py_repr wrap.
Let dispatch := Agent.dispatch fo World approval_answer question_answer
                  execute_tool fresh py_repr wrap.
Let execute_call := Agent._execute_tool_call fo World approval_answer question_answer
                      execute_tool fresh py_repr wrap.

(** The loop over the stream gathers the text and the tool calls. *)
Lemma consume_gathers (chunks : list Agent.Chunk) : forall u text calls,
  exists u',
    Agent.consume wrap chunks u text calls
    = (u', text +++ Spec.stream_text chunks, calls ++ Spec.stream_calls chunks).
Proof.
  induction chunks as [|c chunks IH]; intros u text calls; simpl.
  - exists u. now rewrite append_empty_r, app_nil_r.
  - destruct c as [data|data|].
    + destruct (IH (Ui.stream_token wrap u data) (text +++ data) calls) as [u' ->].
      exists u'. now rewrite append_assoc.
    + destruct (IH u text (calls ++ [data])) as [u' ->].
      exists u'. now rewrite <- app_assoc.
    + apply IH.
Qed.

Lemma consume_done (tail : list Agent.Chunk) : forall u text calls,
  Forall (fun c => c = Agent.Done) tail ->
  Agent.consume wrap tail u text calls = (u, text, calls).
Proof.
  induction tail as [|c tail IH]; intros u text calls H; [reflexivity|].
  inversion H; subst. simpl. now apply IH.
Qed.

(** One round whose stream ends normally without a tool call: the
    assistant turn is recorded when its text is not empty, and [run]
    returns. *)
Lemma round_without_calls n user_input a w chunks w1 :
  chat_stream (Agent._system_message fo a user_input :: Agent.history a) w
  = ((chunks, Agent.Exhausted), w1) ->
  Spec.stream_calls chunks = [] ->
  exists u,
    run_rounds (S n) user_input a w
    = Some (Agent.Returned,
            {| Agent.history :=
                 Agent.history a
                 ++ (if Py.is_empty (Agent.clean (Spec.stream_text chunks)) then []
                     else [Spec.assistant_msg (Agent.clean (Spec.stream_text chunks)) []]);
               Agent.planning := Agent.planning a;
               Agent.max_tool_rounds := Agent.max_tool_rounds a;
               Agent.memory := Agent.memory a;
               Agent.ui := Ui.stream_end u;
               Agent.trace :=
                 Agent.trace a
                 ++ [Agent.EvChat (Agent._system_message fo a user_input :: Agent.history a)] |},
            w1)
    /\ fst (fst (Agent.consume wrap chunks (Ui.stream_start (Agent.ui a)) EmptyString [])) = u.
Proof.
  intros Hchat Hcalls. unfold run_rounds. cbn [Agent.run_rounds].
  change (Agent._system_message fo (Agent.set_ui a (Ui.stream_start (Agent.ui a))) user_input)
    with (Agent._system_message fo a user_input).
  cbn [Agent.set_ui Agent.history Agent.ui]. rewrite Hchat.
  cbn [Agent.log Agent.ui Agent.set_ui].
  destruct (consume_gathers chunks (Ui.stream_start (Agent.ui a)) EmptyString []) as [u Hu].
  rewrite Hu, Hcalls. cbn [String.append app fst].
  exists u. split; [|reflexivity].
  destruct (Py.is_empty (Agent.clean (Spec.stream_text chunks))); cbn; unfold Agent.append_history;
    cbn; now rewrite ?app_nil_r.
Qed.

Lemma firstn_length_app {A} (l l' : list A) : firstn (List.length l) (l ++ l') = l.
Proof.
  rewrite firstn_app, firstn_all, Nat.sub_diag. simpl. apply app_nil_r.
Qed.

(** The display of the stream ["a<th"], ["ink>secret</think>b"]: the
    first token is shown as text; with the second, the text shown goes
    back to ["a"] and what follows the opening delimiter is shown on the
    reasoning line. *)
Lemma think_split_across_tokens (u : Ui.State) :
  let u1 := Ui.stream_token wrap (Ui.stream_start u) "a<th" in
  let u2 := Ui.stream_token wrap u1 "ink>secret</think>b" in
  (Ui._stream_buf u1 = "a<th" /\ Ui._thinking u1 = false
   /\ Ui.lines u1 = Ui.lines u ++ Ui._wrap wrap "a<th" Ui.C_AGENT)
  /\ (Ui._stream_buf u2 = "a" /\ Ui._thinking u2 = true
      /\ Ui._think_buf u2 = "secret</think>b"
      /\ Ui.lines u2
         = Ui.lines u ++ (Ui.C_THINKING, "  thinking: secret</think>b...")
                         :: Ui._wrap wrap "a" Ui.C_AGENT).
Proof.
  intros u1 u2.
  assert (H1 : Ui.lines u1 = Ui.lines u ++ Ui._wrap wrap "a<th" Ui.C_AGENT).
  { subst u1. unfold Ui.stream_token, Ui.stream_start. cbn. now rewrite firstn_all. }
  repeat split; try reflexivity; [exact H1|].
  subst u2. unfold Ui.stream_token.
  change (Ui._stream_buf u1) with "a<th". change (Ui._thinking u1) with false.
  cbn [String.append Py.contains Py.find String.prefix andb negb Py.partition].
  cbn. rewrite firstn_all, firstn_length_app, <- app_assoc. reflexivity.
Qed.

(** C7, as amended.  When the first round's stream ends normally and
    carries no tool call, [run] returns after this one round without
    dispatching a tool: the only new event is the request to the backend,
    and the history gains the user turn and then one assistant turn
    holding the text without its reasoning blocks and outer whitespace,
    or no assistant turn when that text is empty. *)
Theorem text_only_round_ends_turn user_input a w chunks w1 :
  (0 < Agent.max_tool_rounds a)%Z ->
  chat_stream (Agent._system_message fo a user_input
               :: Agent.history a ++ [Spec.user_msg user_input]) w
  = ((chunks, Agent.Exhausted), w1) ->
  Spec.stream_calls chunks = [] ->
  exists a2,
    run user_input a w = Some (Agent.Returned, a2, w1)
    /\ Agent.history a2
       = Agent.history a ++ [Spec.user_msg user_input]
         ++ (if Py.is_empty (Agent.clean (Spec.stream_text chunks)) then []
             else [Spec.assistant_msg (Agent.clean (Spec.stream_text chunks)) []])
    /\ Agent.trace a2
       = Agent.trace a
         ++ [Agent.EvChat (Agent._system_message fo a user_input
                           :: Agent.history a ++ [Spec.user_msg user_input])].
Proof.
  intros Hmax Hchat Hcalls. unfold run, Agent.run.
  set (a1 := Agent.append_history a _).
  destruct (Z.to_nat (Agent.max_tool_rounds a1)) as [|n] eqn:En;
    [subst a1; simpl in En; lia|].
  destruct (round_without_calls n user_input a1 w chunks w1 Hchat Hcalls) as (u & Hrun & _).
  unfold run_rounds in Hrun. rewrite Hrun.
  eexists. split; [reflexivity|]. split; [|reflexivity].
  cbn [Agent.history]. subst a1. cbn. now rewrite <- app_assoc.
Qed.

(** C4.  When the first round's stream delivers the text ["a<th"] and
    then ["ink>secret</think>b"], and nothing else, [run] returns with the
    history extended by the user turn and an assistant turn whose text is
    exactly ["ab"].  On the display, the text shown is ["a<th"] after the
    first token and ["a"] after the second, and ["secret"] appears on the
    reasoning line only. *)
Theorem reasoning_split_across_tokens user_input a w tail w1 :
  (0 < Agent.max_tool_rounds a)%Z ->
  Forall (fun c => c = Agent.Done) tail ->
  chat_stream (Agent._system_message fo a user_input
               :: Agent.history a ++ [Spec.user_msg user_input]) w
  = ((Agent.Text "a<th" :: Agent.Text "ink>secret</think>b" :: tail, Agent.Exhausted), w1) ->
  let u1 := Ui.stream_token wrap (Ui.stream_start (Agent.ui a)) "a<th" in
  let u2 := Ui.stream_token wrap u1 "ink>secret</think>b" in
  exists a2,
    run user_input a w = Some (Agent.Returned, a2, w1)
    /\ Agent.history a2
       = Agent.history a ++ [Spec.user_msg user_input; Spec.assistant_msg "ab" []]
    /\ Agent.ui a2 = Ui.stream_end u2
    /\ Ui._stream_buf u1 = "a<th" /\ Ui._thinking u1 = false
    /\ Ui._stream_buf u2 = "a" /\ Ui._thinking u2 = true
    /\ Py.contains "secret" (Ui._stream_buf u1) = false
    /\ Py.contains "secret" (Ui._stream_buf u2) = false
    /\ Ui.lines u2
       = Ui.lines (Agent.ui a)
         ++ (Ui.C_THINKING, "  thinking: secret</think>b...") :: Ui._wrap wrap "a" Ui.C_AGENT.
Proof.
  intros Hmax Htail Hchat u1 u2. unfold run, Agent.run.
  set (a1 := Agent.append_history a _).
  destruct (Z.to_nat (Agent.max_tool_rounds a1)) as [|n] eqn:En;
    [subst a1; simpl in En; lia|].
  assert (Hcalls : Spec.stream_calls
            (Agent.Text "a<th" :: Agent.Text "ink>secret</think>b" :: tail) = []).
  { simpl. clear Hchat. induction Htail as [|c tail -> _ IH]; [reflexivity | exact IH]. }
  assert (Htext : Spec.stream_text
            (Agent.Text "a<th" :: Agent.Text "ink>secret</think>b" :: tail)
            = "a<think>secret</think>b").
  { simpl. clear Hchat Hcalls. induction Htail as [|c tail -> _ IH]; [reflexivity | exact IH]. }
  destruct (round_without_calls n user_input a1 w _ w1 Hchat Hcalls) as (u & Hrun & Hu).
  unfold run_rounds in Hrun. rewrite Hrun. rewrite Htext.
  cbn [Agent.consume] in Hu. rewrite consume_done in Hu by assumption.
  cbn [fst] in Hu. subst a1. cbn [Agent.ui Agent.append_history Agent.set_history] in Hu.
  fold u1 in Hu. fold u2 in Hu. subst u.
  destruct (think_split_across_tokens (Agent.ui a)) as ((B1 & T1 & _) & (B2 & T2 & _ & L2)).
  fold u1 in B1, T1, B2, T2, L2. fold u2 in B2, T2, L2.
  eexists. split; [reflexivity|].
  cbn [Agent.history Agent.ui Agent.append_history Agent.set_history].
  rewrite B1, B2.
  repeat split; try assumption; try reflexivity.
  now rewrite <- app_assoc.
Qed.

Lemma rounds_log (t : list Agent.Event) (e : Agent.Event) :
  Spec.is_chat e = false -> Spec.rounds (t ++ [e]) = Spec.rounds t.
Proof.
  intros He. unfold Spec.rounds. rewrite filter_app. simpl. rewrite He.
  now rewrite app_nil_r.
Qed.

(** [_execute_tool_call] returns, and makes no request to the backend. *)
Lemma execute_call_returns name arguments a w :
  exists r a' w',
    execute_call name arguments a w = Some (r, a', w')
    /\ Spec.rounds (Agent.trace a') = Spec.rounds (Agent.trace a).
Proof.
  unfold execute_call, Agent._execute_tool_call.
  destruct (String.eqb name "ask_user").
  { unfold Agent.get_question_response.
    destruct (question_answer (Agent.get_arg arguments "question") w) as [answer w1].
    eexists _, _, _. split; [reflexivity|]. cbn. now apply rounds_log. }
  destruct (String.eqb name "remember").
  { destruct (add_spec World fresh (Agent.get_arg arguments "content")
                (Agent.parse_tags (Agent.get_arg arguments "tags")) "project"
                (Agent.memory a) w) as (res & new & w1 & Hadd & _).
    rewrite Hadd. destruct res; eexists _, _, _; (split; [reflexivity|]); reflexivity. }
  destruct (String.eqb name "recall").
  { destruct (Memory.search fo (Agent.memory a) (Agent.get_arg arguments "query") 5);
      eexists _, _, _; (split; [reflexivity|]); reflexivity. }
  destruct (String.eqb name "task_complete").
  { destruct (add_spec World fresh (Agent.get_arg arguments "summary") [] "task"
                (Agent.memory a) w) as (res & new & w1 & Hadd & _).
    rewrite Hadd. eexists _, _, _. split; [reflexivity|]. reflexivity. }
  destruct (existsb (String.eqb name) Agent.APPROVAL_REQUIRED).
  - unfold Agent.get_approval.
    destruct (approval_answer (Agent.approval_desc py_repr name arguments) w) as [ok w1].
    destruct ok.
    + destruct (execute_tool name arguments w1) as [result w2].
      eexists _, _, _. split; [reflexivity|].
      cbn [Agent.trace Agent.log Agent.set_ui].
      now rewrite !rounds_log by reflexivity.
    + eexists _, _, _. split; [reflexivity|]. cbn. now apply rounds_log.
  - destruct (execute_tool name arguments w) as [result w2].
    eexists _, _, _. split; [reflexivity|]. cbn. now apply rounds_log.
Qed.

(** A batch without [task_complete] is processed to its end. *)
Lemma dispatch_whole_batch tcs : forall a w,
  Forall (fun tc => Agent.name tc <> "task_complete") tcs ->
  exists a' w',
    dispatch tcs a w = Some (false, a', w')
    /\ Spec.rounds (Agent.trace a') = Spec.rounds (Agent.trace a).
Proof.
  induction tcs as [|tc rest IH]; intros a w Hnames.
  - exists a, w. now split.
  - inversion Hnames as [|? ? Hname Hrest]; subst.
    unfold dispatch. cbn [Agent.dispatch].
    set (a0 := Agent.set_ui (Agent.log a (Agent.EvDispatch tc)) _).
    destruct (execute_call_returns (Agent.name tc) (Agent.arguments tc) a0 w)
      as (r & a1 & w1 & Hexec & Hrounds).
    unfold execute_call in Hexec. rewrite Hexec.
    assert (H0 : Spec.rounds (Agent.trace a1) = Spec.rounds (Agent.trace a)).
    { rewrite Hrounds. subst a0. cbn. now apply rounds_log. }
    destruct r as [result|].
    + destruct (String.eqb_spec (Agent.name tc) "task_complete") as [E|_]; [contradiction|].
      match goal with |- context [Agent.dispatch _ _ _ _ _ _ _ _ rest ?x w1] =>
        destruct (IH x w1 Hrest) as (a' & w' & Hd & Hr) end.
      unfold dispatch in Hd. rewrite Hd. exists a', w'. split; [reflexivity|].
      rewrite Hr. exact H0.
    + match goal with |- context [Agent.dispatch _ _ _ _ _ _ _ _ rest ?x w1] =>
        destruct (IH x w1 Hrest) as (a' & w' & Hd & Hr) end.
      unfold dispatch in Hd. rewrite Hd. exists a', w'. split; [reflexivity|].
      rewrite Hr. exact H0.
Qed.

Lemma rounds_chat (t : list Agent.Event) (messages : list Agent.Msg) :
  Spec.rounds (t ++ [Agent.EvChat messages]) = S (Spec.rounds t).
Proof.
  unfold Spec.rounds. rewrite filter_app, length_app. simpl. lia.
Qed.

(** While every stream ends normally with a tool call and none is
    [task_complete], the loop runs all its iterations and ends on the
    notice. *)
Lemma run_rounds_exhausts user_input
    (Hback : forall messages w,
        exists chunks w1,
          chat_stream messages w = ((chunks, Agent.Exhausted), w1)
          /\ Spec.stream_calls chunks <> []
          /\ Forall (fun tc => Agent.name tc <> "task_complete") (Spec.stream_calls chunks)) :
  forall n a w,
  exists a2 w2 u,
    run_rounds n user_input a w = Some (Agent.Returned, a2, w2)
    /\ Spec.rounds (Agent.trace a2) = (Spec.rounds (Agent.trace a) + n)%nat
    /\ Agent.ui a2 = Ui.show_info wrap u "Reached maximum tool rounds. Stopping.".
Proof.
  induction n as [|n IH]; intros a w; unfold run_rounds in *.
  - eexists _, _, _. split; [reflexivity|].
    split; [cbn [Agent.trace Agent.set_ui]; lia | reflexivity].
  - cbn [Agent.run_rounds].
    match goal with |- context [chat_stream ?m w] =>
      destruct (Hback m w) as (chunks & w1 & Hchat & Hne & Hnames); rewrite Hchat end.
    match goal with |- context [Agent.consume wrap chunks ?u ?t ?c] =>
      destruct (consume_gathers chunks u t c) as [u' Hu]; rewrite Hu end.
    cbn [app]. destruct (Spec.stream_calls chunks) as [|tc tcs] eqn:Ecalls; [contradiction|].
    cbv beta iota zeta.
    match goal with |- context [Agent.dispatch _ _ _ _ _ _ _ _ (tc :: tcs) ?x w1] =>
      destruct (dispatch_whole_batch (tc :: tcs) x w1 Hnames) as (a' & w' & Hd & Hr);
      assert (Hx : Spec.rounds (Agent.trace x) = S (Spec.rounds (Agent.trace a)))
    end.
    { match goal with |- context [if ?c then _ else _] => destruct c end;
        cbn [Agent.trace Agent.append_history Agent.set_history Agent.set_ui Agent.log];
        apply rounds_chat. }
    unfold dispatch in Hd. rewrite Hd.
    destruct (IH a' w') as (a2 & w2 & u & Hrun & Hrounds & Hui).
    rewrite Hrun. exists a2, w2, u. split; [reflexivity|]. split; [lia | exact Hui].
Qed.

(** C5.  While every stream ends normally with at least one tool call
    and none is [task_complete], [run] returns after exactly
    [max_tool_rounds] requests to the backend, and its last act is the
    notice "Reached maximum tool rounds. Stopping.", shown as
    information. *)
Theorem run_stops_after_max_rounds user_input a w :
  (forall messages w,
      exists chunks w1,
        chat_stream messages w = ((chunks, Agent.Exhausted), w1)
        /\ Spec.stream_calls chunks <> []
        /\ Forall (fun tc => Agent.name tc <> "task_complete") (Spec.stream_calls chunks)) ->
  exists a2 w2 u,
    run user_input a w = Some (Agent.Returned, a2, w2)
    /\ Spec.rounds (Agent.trace a2)
       = (Spec.rounds (Agent.trace a) + Z.to_nat (Agent.max_tool_rounds a))%nat
    /\ Agent.ui a2 = Ui.show_info wrap u "Reached maximum tool rounds. Stopping."
    /\ Ui.lines (Agent.ui a2)
       = Ui.lines u ++ Ui._wrap wrap "Reached maximum tool rounds. Stopping." Ui.C_INFO.
Proof.
  intros Hback. unfold run, Agent.run.
  set (a1 := Agent.append_history a _).
  destruct (run_rounds_exhausts user_input Hback (Z.to_nat (Agent.max_tool_rounds a1)) a1 w)
    as (a2 & w2 & u & Hrun & Hrounds & Hui).
  unfold run_rounds in Hrun. rewrite Hrun. exists a2, w2, u.
  split; [reflexivity|]. split; [exact Hrounds|]. split; [exact Hui|].
  now rewrite Hui.
Qed.

End AgentFacts.

(* ===================================================================== *)
(** * The agent loop on scripted hosts *)
(* ===================================================================== *)

(** C7 as stated fails when the text is only a reasoning block: the
    stream carries text and no tool call, and [run] appends no assistant
    turn. *)
Lemma reasoning_only_reply_appends_no_turn :
  let chunks := [Agent.Text "<think>plan</think>"; Agent.Done] in
  let w := {| Concrete.script := [(chunks, Agent.Exhausted)];
              Concrete.approvals := []; Concrete.tick := 0 |} in
  Spec.stream_text chunks = "<think>plan</think>"
  /\ Spec.stream_calls chunks = []
  /\ option_map (fun r => Agent.history (snd (fst r)))
       (Concrete.run "hi" (Agent.init Concrete.empty_store Ui.init) w)
     = Some [Spec.user_msg "hi"].
Proof. vm_compute. repeat split. Qed.

Lemma text_only_round_witness :
  let chunks := [Agent.Text "Hello "; Agent.Text "there."; Agent.Done] in
  let w := {| Concrete.script := [(chunks, Agent.Exhausted)];
              Concrete.approvals := []; Concrete.tick := 0 |} in
  exists a2,
    Concrete.run "hi" (Agent.init Concrete.empty_store Ui.init) w
    = Some (Agent.Returned, a2, Concrete.idle)
    /\ Agent.history a2 = [Spec.user_msg "hi"; Spec.assistant_msg "Hello there." []].
Proof.
  intros chunks w.
  destruct (text_only_round_ends_turn Concrete.milli Concrete.World Concrete.chat_stream
              Concrete.approval_answer Concrete.question_answer Concrete.execute_tool
              Concrete.fresh Concrete.py_repr Concrete.wrap
              "hi" (Agent.init Concrete.empty_store Ui.init) w chunks Concrete.idle)
    as (a2 & Hrun & Hhist & _).
  - simpl. lia.
  - reflexivity.
  - reflexivity.
  - exists a2. split; [exact Hrun | exact Hhist].
Defined.

Lemma reasoning_split_witness :
  let w := {| Concrete.script :=
                [([Agent.Text "a<th"; Agent.Text "ink>secret</think>b"; Agent.Done],
                  Agent.Exhausted)];
              Concrete.approvals := []; Concrete.tick := 0 |} in
  exists a2,
    Concrete.run "hi" (Agent.init Concrete.empty_store Ui.init) w
    = Some (Agent.Returned, a2, Concrete.idle)
    /\ Agent.history a2 = [Spec.user_msg "hi"; Spec.assistant_msg "ab" []].
Proof.
  intros w.
  destruct (reasoning_split_across_tokens Concrete.milli Concrete.World Concrete.chat_stream
              Concrete.approval_answer Concrete.question_answer Concrete.execute_tool
              Concrete.fresh Concrete.py_repr Concrete.wrap
              "hi" (Agent.init Concrete.empty_store Ui.init) w [Agent.Done] Concrete.idle)
    as (a2 & Hrun & Hhist & _).
  - simpl. lia.
  - repeat constructor.
  - reflexivity.
  - exists a2. split; [exact Hrun | exact Hhist].
Defined.

Lemma run_stops_after_max_rounds_witness :
  exists a2 w2,
    Agent.run Concrete.milli Concrete.World Concrete.persistent_chat
      Concrete.approval_answer Concrete.question_answer Concrete.execute_tool
      Concrete.fresh Concrete.py_repr Concrete.wrap
      "hi" (Agent.init Concrete.empty_store Ui.init) Concrete.idle
    = Some (Agent.Returned, a2, w2)
    /\ Spec.rounds (Agent.trace a2) = 15%nat.
Proof.
  destruct (run_stops_after_max_rounds Concrete.milli Concrete.World Concrete.persistent_chat
              Concrete.approval_answer Concrete.question_answer Concrete.execute_tool
              Concrete.fresh Concrete.py_repr Concrete.wrap
              "hi" (Agent.init Concrete.empty_store Ui.init) Concrete.idle)
    as (a2 & w2 & u & Hrun & Hrounds & _).
  - intros messages w. eexists _, _. split; [reflexivity|].
    split; [discriminate|]. repeat constructor. discriminate.
  - exists a2, w2. split; [exact Hrun | exact Hrounds].
Defined.

(* ===================================================================== *)
(** * More on the agent loop *)
(* ===================================================================== *)

Section AgentTurns.

Variable fo : Memory.FloatOps.
Variable World : Type.
Variable chat_stream : list Agent.Msg -> World -> (list Agent.Chunk * Agent.StreamEnd) * World.
Variable approval_answer : string -> World -> bool * World.
Variable question_answer : string -> World -> string * World.
Variable execute_tool : string -> list (string * string) -> World -> string * World.
Variable fresh : World -> (string * string) * World.
Variable py_repr : string -> string.
Variable wrap : string -> list string.

Let run := Agent.run fo World chat_stream approval_answer question_answer
             execute_tool fresh py_repr wrap.
Let run_rounds := Agent.run_rounds fo World chat_stream approval_answer question_answer
                    execute_tool fresh py_repr wrap.
Let dispatch := Agent.dispatch fo World approval_answer question_answer
                  execute_tool fresh py_repr wrap.
Let execute_call := Agent._execute_tool_call fo World approval_answer question_answer
                      execute_tool fresh py_repr wrap.

(** [_execute_tool_call] returns; it leaves the conversation as it is and
    adds to the trace the events of one call. *)
Lemma execute_call_events name arguments a w :
  exists r a' w' evs,
    execute_call name arguments a w = Some (r, a', w')
    /\ Agent.trace a' = Agent.trace a ++ evs
    /\ Spec.call_events py_repr name arguments r evs
    /\ Spec.same_conversation a a'.
Proof.
  unfold execute_call, Agent._execute_tool_call, Spec.call_events, Spec.same_conversation.
  destruct (String.eqb name "ask_user").
  { unfold Agent.get_question_response.
    destruct (question_answer (Agent.get_arg arguments "question") w) as [answer w1].
    eexists _, _, _, [_]. split; [reflexivity|]. split; [reflexivity|].
    split; [|now repeat split]. left. eexists _, _. split; [reflexivity | discriminate]. }
  destruct (String.eqb name "remember").
  { destruct (add_spec World fresh (Agent.get_arg arguments "content")
                (Agent.parse_tags (Agent.get_arg arguments "tags")) "project"
                (Agent.memory a) w) as (res & new & w1 & Hadd & _).
    rewrite Hadd.
    destruct res; eexists _, _, _, []; (split; [reflexivity|]);
      (split; [cbn; now rewrite app_nil_r|]);
      (split; [right; left; split; [reflexivity | discriminate] | now repeat split]). }
  destruct (String.eqb name "recall").
  { destruct (Memory.search fo (Agent.memory a) (Agent.get_arg arguments "query") 5);
      eexists _, _, _, []; (split; [reflexivity|]);
      (split; [now rewrite app_nil_r|]);
      (split; [right; left; split; [reflexivity | discriminate] | now repeat split]). }
  destruct (String.eqb name "task_complete").
  { destruct (add_spec World fresh (Agent.get_arg arguments "summary") [] "task"
                (Agent.memory a) w) as (res & new & w1 & Hadd & _).
    rewrite Hadd. eexists _, _, _, []. split; [reflexivity|].
    split; [cbn; now rewrite app_nil_r|].
    split; [right; left; split; [reflexivity | discriminate] | now repeat split]. }
  destruct (existsb (String.eqb name) Agent.APPROVAL_REQUIRED) eqn:Egate.
  - unfold Agent.get_approval.
    destruct (approval_answer (Agent.approval_desc py_repr name arguments) w) as [ok w1].
    destruct ok.
    + destruct (execute_tool name arguments w1) as [result w2].
      eexists _, _, _, [_; _]. split; [reflexivity|].
      split; [cbn; now rewrite <- app_assoc|].
      split; [|now repeat split].
      right; right; right; left. split; [reflexivity | discriminate].
    + eexists _, _, _, [_]. split; [reflexivity|]. split; [reflexivity|].
      split; [|now repeat split]. right; right; left. split; [reflexivity|].
      split; [reflexivity|].
      apply existsb_exists in Egate as (x & Hx & E). apply String.eqb_eq in E. now subst.
  - destruct (execute_tool name arguments w) as [result w2].
    eexists _, _, _, [_]. split; [reflexivity|]. split; [reflexivity|].
    split; [|now repeat split].
    right; right; right; right. split; [reflexivity|]. split; [|discriminate].
    intros Hin. apply Bool.not_true_iff_false in Egate. apply Egate.
    apply existsb_exists. exists name. split; [exact Hin | apply String.eqb_refl].
Qed.

Lemma snoc_split {A} (t pre post : list A) (e x : A) :
  t ++ [e] = pre ++ x :: post ->
  (post = [] /\ pre = t /\ x = e)
  \/ (exists post', post = post' ++ [e] /\ t = pre ++ x :: post').
Proof.
  intros H. destruct (exists_last (l := x :: post) ltac:(discriminate)) as (l' & y & Hl).
  destruct post as [|p post].
  - left. apply (app_inj_tail t pre e x) in H as [-> ->]. now repeat split.
  - right. destruct (exists_last (l := p :: post) ltac:(discriminate)) as (post' & z & Hp).
    rewrite Hp in H. change (pre ++ x :: post' ++ [z]) with (pre ++ (x :: post') ++ [z]) in H.
    rewrite app_assoc in H. apply app_inj_tail in H as [-> ->].
    exists post'. now split.
Qed.

Lemma guarded_nil : Spec.guarded py_repr [].
Proof. intros pre name args post H. now destruct pre. Qed.

Lemma guarded_snoc (t : list Agent.Event) (e : Agent.Event) :
  Spec.guarded py_repr t ->
  (forall name args,
      e = Agent.EvExecute name args -> In name Agent.APPROVAL_REQUIRED ->
      exists pre', t = pre' ++ [Agent.EvApproval (Agent.approval_desc py_repr name args) true]) ->
  Spec.guarded py_repr (t ++ [e]).
Proof.
  intros Ht He pre name args post Heq Hin.
  apply snoc_split in Heq as [(_ & -> & Hx) | (post' & _ & Heq)].
  - now apply He.
  - now apply (Ht pre name args post').
Qed.

Lemma guarded_call_events t name args r evs :
  Spec.guarded py_repr t -> Spec.call_events py_repr name args r evs ->
  Spec.guarded py_repr (t ++ evs).
Proof.
  intros Ht [(q & ans & -> & _) | [[-> _] | [(-> & _) | [[-> _] | (-> & Hout & _)]]]].
  - apply guarded_snoc; [assumption | discriminate].
  - now rewrite app_nil_r.
  - apply guarded_snoc; [assumption | discriminate].
  - change [Agent.EvApproval (Agent.approval_desc py_repr name args) true;
            Agent.EvExecute name args]
      with ([Agent.EvApproval (Agent.approval_desc py_repr name args) true]
            ++ [Agent.EvExecute name args]).
    rewrite app_assoc. apply guarded_snoc.
    + apply guarded_snoc; [assumption | discriminate].
    + intros n a0 E _. injection E as <- <-. now exists t.
  - apply guarded_snoc; [assumption|].
    intros n a0 E Hin. injection E as <- <-. contradiction.
Qed.

Lemma dispatched_app (t t' : list Agent.Event) :
  Spec.dispatched (t ++ t') = Spec.dispatched t ++ Spec.dispatched t'.
Proof.
  induction t as [|e t IH]; [reflexivity|].
  destruct e; simpl; now rewrite IH.
Qed.

Lemma dispatched_call_events name args r evs :
  Spec.call_events py_repr name args r evs ->
  Spec.dispatched evs = [] /\ filter Spec.is_chat evs = [].
Proof.
  intros [(q & ans & -> & _) | [[-> _] | [(-> & _) | [[-> _] | (-> & _)]]]]; now split.
Qed.

(** The loop over a batch returns.  It answers each call up to the first
    [task_complete] with one tool turn, dispatches these calls and no
    other, makes no request to the backend, and keeps the trace guarded. *)
Lemma dispatch_returns tcs : forall a w,
  exists a' w' turns evs,
    dispatch tcs a w = Some (Spec.has_complete tcs, a', w')
    /\ Agent.history a' = Agent.history a ++ turns
    /\ Forall Spec.tool_turn turns
    /\ List.length turns = List.length (Spec.until_complete tcs)
    /\ Agent.trace a' = Agent.trace a ++ evs
    /\ Spec.dispatched evs = Spec.until_complete tcs
    /\ filter Spec.is_chat evs = []
    /\ (Spec.guarded py_repr (Agent.trace a) -> Spec.guarded py_repr (Agent.trace a'))
    /\ Agent.planning a' = Agent.planning a
    /\ Agent.max_tool_rounds a' = Agent.max_tool_rounds a.
Proof.
  induction tcs as [|tc rest IH]; intros a w.
  - exists a, w, [], []. rewrite !app_nil_r. now repeat split.
  - unfold dispatch. cbn [Agent.dispatch].
    set (a0 := Agent.set_ui (Agent.log a (Agent.EvDispatch tc)) _).
    destruct (execute_call_events (Agent.name tc) (Agent.arguments tc) a0 w)
      as (r & a1 & w1 & evs1 & Hexec & Htrace & Hev & Hh & Hp & Hm).
    unfold execute_call in Hexec. rewrite Hexec.
    destruct (dispatched_call_events _ _ _ _ Hev) as [Hd1 Hc1].
    assert (Hg1 : Spec.guarded py_repr (Agent.trace a) -> Spec.guarded py_repr (Agent.trace a1)).
    { intros Hg. rewrite Htrace. refine (guarded_call_events _ _ _ _ _ _ Hev).
      subst a0. cbn. apply guarded_snoc; [assumption | discriminate]. }
    assert (Ht1 : Agent.trace a1 = Agent.trace a ++ Agent.EvDispatch tc :: evs1).
    { rewrite Htrace. subst a0. cbn. now rewrite <- app_assoc. }
    assert (Hh1 : Agent.history a1 = Agent.history a) by (rewrite Hh; now subst a0).
    assert (Hp1 : Agent.planning a1 = Agent.planning a) by (rewrite Hp; now subst a0).
    assert (Hm1 : Agent.max_tool_rounds a1 = Agent.max_tool_rounds a)
      by (rewrite Hm; now subst a0).
    clearbody a0. clear Hexec Htrace Hh Hp Hm.
    cbn [Spec.has_complete existsb Spec.until_complete].
    destruct r as [result|].
    + destruct (String.eqb (Agent.name tc) "task_complete") eqn:Etc.
      * eexists _, w1, [_], (Agent.EvDispatch tc :: evs1).
        split; [reflexivity|].
        cbn [Agent.history Agent.trace Agent.planning Agent.max_tool_rounds
             Agent.append_history Agent.set_history Agent.set_ui].
        rewrite Hh1, Ht1. cbn [Spec.dispatched filter Spec.is_chat]. rewrite Hd1, Hc1.
        repeat split; try assumption; try reflexivity.
        -- repeat constructor.
        -- now rewrite <- Ht1.
      * match goal with |- context [Agent.dispatch _ _ _ _ _ _ _ _ rest ?x w1] =>
          destruct (IH x w1) as (a' & w' & turns & evs & Hd & Hh & Ht & Hl & Htr & Hdi & Hc
                                 & Hg & Hp & Hm) end.
        unfold dispatch in Hd. rewrite Hd.
        assert (G : Spec.guarded py_repr (Agent.trace a) -> Spec.guarded py_repr (Agent.trace a'))
          by (intros G0; apply Hg; cbn [Agent.trace Agent.append_history Agent.set_history
                                         Agent.set_ui]; now apply Hg1).
        clear Hg.
        exists a', w', (Agent.tool_msg result :: turns), (Agent.EvDispatch tc :: evs1 ++ evs).
        split; [reflexivity|].
        cbn [Agent.history Agent.trace Agent.planning Agent.max_tool_rounds
             Agent.append_history Agent.set_history Agent.set_ui] in *.
        split; [rewrite Hh, Hh1, <- app_assoc; reflexivity|].
        split; [constructor; [now split | assumption]|].
        split; [cbn [List.length]; now rewrite Hl|].
        split; [rewrite Htr, Ht1, <- app_assoc; reflexivity|].
        split; [cbn [Spec.dispatched]; rewrite dispatched_app, Hd1, Hdi; reflexivity|].
        split; [cbn [filter Spec.is_chat]; rewrite filter_app, Hc1, Hc; reflexivity|].
        split; [exact G|]. split; congruence.
    + assert (Etc : String.eqb (Agent.name tc) "task_complete" = false).
      { destruct Hev as [(q & ans & _ & N) | [[_ N] | [(_ & _ & Hin) | [[_ N] | (_ & _ & N)]]]];
          try (now contradiction N).
        now destruct Hin as [<-|[<-|[<-|[]]]]. }
      rewrite Etc.
      match goal with |- context [Agent.dispatch _ _ _ _ _ _ _ _ rest ?x w1] =>
        destruct (IH x w1) as (a' & w' & turns & evs & Hd & Hh & Ht & Hl & Htr & Hdi & Hc
                               & Hg & Hp & Hm) end.
      unfold dispatch in Hd. rewrite Hd.
      assert (G : Spec.guarded py_repr (Agent.trace a) -> Spec.guarded py_repr (Agent.trace a'))
        by (intros G0; apply Hg; cbn [Agent.trace Agent.append_history Agent.set_history
                                       Agent.set_ui]; now apply Hg1).
      clear Hg.
      exists a', w',
        (Agent.tool_msg ("User denied execution of " +++ Agent.name tc +++ ".") :: turns),
        (Agent.EvDispatch tc :: evs1 ++ evs).
      split; [reflexivity|].
      cbn [Agent.history Agent.trace Agent.planning Agent.max_tool_rounds
           Agent.append_history Agent.set_history Agent.set_ui] in *.
      split; [rewrite Hh, Hh1, <- app_assoc; reflexivity|].
      split; [constructor; [now split | assumption]|].
      split; [cbn [List.length]; now rewrite Hl|].
      split; [rewrite Htr, Ht1, <- app_assoc; reflexivity|].
      split; [cbn [Spec.dispatched]; rewrite dispatched_app, Hd1, Hdi; reflexivity|].
      split; [cbn [filter Spec.is_chat]; rewrite filter_app, Hc1, Hc; reflexivity|].
      split; [exact G|]. split; congruence.
Qed.

Lemma guarded_chat (t : list Agent.Event) (messages : list Agent.Msg) :
  Spec.guarded py_repr t -> Spec.guarded py_repr (t ++ [Agent.EvChat messages]).
Proof. intros G. apply guarded_snoc; [assumption | discriminate]. Qed.

Lemma rounds_app (t t' : list Agent.Event) :
  filter Spec.is_chat t' = [] -> Spec.rounds (t ++ t') = Spec.rounds t.
Proof. intros H. unfold Spec.rounds. now rewrite filter_app, H, app_nil_r. Qed.

(** The loop over the rounds returns; it only appends to the history,
    makes at most as many requests to the backend as it has rounds, and
    keeps the trace guarded. *)
Lemma run_rounds_returns user_input : forall n a w,
  exists o a2 w2 added,
    run_rounds n user_input a w = Some (o, a2, w2)
    /\ Agent.history a2 = Agent.history a ++ added
    /\ (Spec.rounds (Agent.trace a2) <= Spec.rounds (Agent.trace a) + n)%nat
    /\ (Spec.guarded py_repr (Agent.trace a) -> Spec.guarded py_repr (Agent.trace a2)).
Proof.
  induction n as [|n IH]; intros a w; unfold run_rounds in *.
  - eexists _, _, _, []. split; [reflexivity|].
    cbn [Agent.history Agent.trace Agent.set_ui]. rewrite app_nil_r.
    split; [reflexivity|]. split; [lia | auto].
  - cbn [Agent.run_rounds].
    match goal with |- context [chat_stream ?m w] =>
      set (messages := m) end.
    destruct (chat_stream messages w) as [[chunks ending] w1].
    match goal with |- context [Agent.consume wrap chunks ?u ?t ?c] =>
      destruct (consume_gathers wrap chunks u t c) as [u' Hu]; rewrite Hu end.
    cbn [app]. cbv beta iota zeta.
    destruct ending as [| |e].
    + match goal with |- context [if ?c then Agent.append_history ?y ?m else _] =>
        set (x := if c then Agent.append_history y m else y);
        assert (Hx : Agent.trace x = Agent.trace a ++ [Agent.EvChat messages]
                     /\ exists added, Agent.history x = Agent.history a ++ added)
      end.
      { subst x. match goal with |- context [if ?c then _ else _] => destruct c end;
          cbn [Agent.trace Agent.history Agent.append_history Agent.set_history
               Agent.set_ui Agent.log];
          (split; [reflexivity|]); [eexists; reflexivity | exists []; now rewrite app_nil_r]. }
      destruct Hx as [Hxt (added0 & Hxh)]. clearbody x.
      destruct (Spec.stream_calls chunks) as [|tc tcs].
      * exists Agent.Returned, x, w1, added0. split; [reflexivity|].
        split; [exact Hxh|]. rewrite Hxt, rounds_chat.
        split; [lia | apply guarded_chat].
      * destruct (dispatch_returns (tc :: tcs) x w1)
          as (a' & w' & turns & evs & Hd & Hh & _ & _ & Htr & _ & Hc & Hg & _).
        unfold dispatch in Hd. rewrite Hd.
        assert (Hr : Spec.rounds (Agent.trace a') = S (Spec.rounds (Agent.trace a)))
          by (rewrite Htr, (rounds_app _ _ Hc), Hxt; apply rounds_chat).
        assert (G : Spec.guarded py_repr (Agent.trace a)
                    -> Spec.guarded py_repr (Agent.trace a'))
          by (intros G0; apply Hg; rewrite Hxt; now apply guarded_chat).
        destruct (Spec.has_complete (tc :: tcs)).
        -- exists Agent.Returned, a', w', (added0 ++ turns). split; [reflexivity|].
           split; [rewrite Hh, Hxh; now rewrite app_assoc|]. split; [lia | exact G].
        -- destruct (IH a' w') as (o & a2 & w2 & added & Hrun & Hh2 & Hr2 & Hg2).
           rewrite Hrun. exists o, a2, w2, (added0 ++ turns ++ added).
           split; [reflexivity|].
           split; [rewrite Hh2, Hh, Hxh; now rewrite !app_assoc|].
           split; [lia | auto].
    + eexists Agent.Interrupted, _, w1, []. split; [reflexivity|].
      cbn [Agent.history Agent.trace Agent.set_ui Agent.log]. rewrite app_nil_r.
      split; [reflexivity|]. rewrite rounds_chat. split; [lia | apply guarded_chat].
    + eexists Agent.Returned, _, w1, []. split; [reflexivity|].
      cbn [Agent.history Agent.trace Agent.set_ui Agent.log]. rewrite app_nil_r.
      split; [reflexivity|]. rewrite rounds_chat. split; [lia | apply guarded_chat].
Qed.

(** X1.  [run] returns, normally or by an interrupt.  It keeps the
    history it was given and appends to it, the user turn first; it makes
    at most [max_tool_rounds] requests to the backend. *)
Theorem run_appends_and_is_bounded user_input a w :
  exists o a2 w2 added,
    run user_input a w = Some (o, a2, w2)
    /\ Agent.history a2 = Agent.history a ++ Spec.user_msg user_input :: added
    /\ (Spec.rounds (Agent.trace a2)
        <= Spec.rounds (Agent.trace a) + Z.to_nat (Agent.max_tool_rounds a))%nat.
Proof.
  unfold run, Agent.run.
  set (a1 := Agent.append_history a _).
  destruct (run_rounds_returns user_input (Z.to_nat (Agent.max_tool_rounds a1)) a1 w)
    as (o & a2 & w2 & added & Hrun & Hh & Hr & _).
  unfold run_rounds in Hrun. rewrite Hrun. exists o, a2, w2, added.
  split; [reflexivity|]. split; [|exact Hr].
  rewrite Hh. subst a1. cbn [Agent.history Agent.append_history Agent.set_history].
  now rewrite <- app_assoc.
Qed.

(** X2.  Whatever the backend, the user and the tools do, [run] calls
    [execute_tool] for a tool in [APPROVAL_REQUIRED] only right after the
    user approved that very call: a guarded trace stays guarded. *)
Theorem run_executes_gated_tools_only_when_approved user_input a w :
  Spec.guarded py_repr (Agent.trace a) ->
  exists o a2 w2,
    run user_input a w = Some (o, a2, w2) /\ Spec.guarded py_repr (Agent.trace a2).
Proof.
  intros G. unfold run, Agent.run.
  set (a1 := Agent.append_history a _).
  destruct (run_rounds_returns user_input (Z.to_nat (Agent.max_tool_rounds a1)) a1 w)
    as (o & a2 & w2 & added & Hrun & _ & _ & Hg).
  unfold run_rounds in Hrun. rewrite Hrun. exists o, a2, w2.
  split; [reflexivity|]. now apply Hg.
Qed.

(** X3.  The loop over a batch answers each call up to the first
    [task_complete] with exactly one tool turn, in order, and dispatches
    no call after it; it stops the turn exactly when the batch holds a
    [task_complete]. *)
Theorem dispatch_answers_each_call tcs a w :
  exists a' w' turns evs,
    dispatch tcs a w = Some (Spec.has_complete tcs, a', w')
    /\ Agent.history a' = Agent.history a ++ turns
    /\ Forall Spec.tool_turn turns
    /\ List.length turns = List.length (Spec.until_complete tcs)
    /\ Agent.trace a' = Agent.trace a ++ evs
    /\ Spec.dispatched evs = Spec.until_complete tcs.
Proof.
  destruct (dispatch_returns tcs a w)
    as (a' & w' & turns & evs & Hd & Hh & Ht & Hl & Htr & Hdi & _).
  exists a', w', turns, evs. now repeat split.
Qed.

(** One round whose stream ends by an exception. *)
Lemma round_failed n user_input a w chunks ending w1 :
  chat_stream (Agent._system_message fo a user_input :: Agent.history a) w
  = ((chunks, ending), w1) ->
  ending <> Agent.Exhausted ->
  exists u,
    run_rounds (S n) user_input a w
    = Some (match ending with
            | Agent.RaisedKeyboardInterrupt => Agent.Interrupted
            | _ => Agent.Returned
            end,
            {| Agent.history := Agent.history a;
               Agent.planning := Agent.planning a;
               Agent.max_tool_rounds := Agent.max_tool_rounds a;
               Agent.memory := Agent.memory a;
               Agent.ui :=
                 match ending with
                 | Agent.RaisedException e =>
                     Ui.show_error wrap (Ui.stream_end u) ("LLM error: " +++ e)
                 | _ => Ui.stream_end u
                 end;
               Agent.trace :=
                 Agent.trace a
                 ++ [Agent.EvChat (Agent._system_message fo a user_input :: Agent.history a)] |},
            w1).
Proof.
  intros Hchat Hend. unfold run_rounds. cbn [Agent.run_rounds].
  change (Agent._system_message fo (Agent.set_ui a (Ui.stream_start (Agent.ui a))) user_input)
    with (Agent._system_message fo a user_input).
  cbn [Agent.set_ui Agent.history Agent.ui]. rewrite Hchat.
  cbn [Agent.log Agent.ui Agent.set_ui].
  destruct (consume_gathers wrap chunks (Ui.stream_start (Agent.ui a)) EmptyString []) as [u Hu].
  rewrite Hu. exists u.
  destruct ending as [| |e]; [contradiction | reflexivity | reflexivity].
Qed.

(** X4.  When the stream of the first round ends by an exception, what
    it delivered before is dropped: no assistant turn is appended and no
    tool call is dispatched, whatever text and tool calls had arrived.
    The history keeps the user turn.  A [KeyboardInterrupt] leaves [run];
    any other exception is shown as "LLM error" and [run] returns. *)
Theorem failed_stream_drops_the_round user_input a w chunks ending w1 :
  (0 < Agent.max_tool_rounds a)%Z ->
  chat_stream (Agent._system_message fo a user_input
               :: Agent.history a ++ [Spec.user_msg user_input]) w
  = ((chunks, ending), w1) ->
  ending <> Agent.Exhausted ->
  exists u a2,
    run user_input a w
    = Some (match ending with
            | Agent.RaisedKeyboardInterrupt => Agent.Interrupted
            | _ => Agent.Returned
            end, a2, w1)
    /\ Agent.history a2 = Agent.history a ++ [Spec.user_msg user_input]
    /\ Agent.memory a2 = Agent.memory a
    /\ Agent.trace a2
       = Agent.trace a
         ++ [Agent.EvChat (Agent._system_message fo a user_input
                           :: Agent.history a ++ [Spec.user_msg user_input])]
    /\ Agent.ui a2
       = match ending with
         | Agent.RaisedException e =>
             Ui.show_error wrap (Ui.stream_end u) ("LLM error: " +++ e)
         | _ => Ui.stream_end u
         end.
Proof.
  intros Hmax Hchat Hend. unfold run, Agent.run.
  set (a1 := Agent.append_history a _).
  destruct (Z.to_nat (Agent.max_tool_rounds a1)) as [|n] eqn:En;
    [subst a1; simpl in En; lia|].
  destruct (round_failed n user_input a1 w chunks ending w1 Hchat Hend) as (u & Hrun).
  unfold run_rounds in Hrun. rewrite Hrun.
  eexists u, _. split; [reflexivity|]. now repeat split.
Qed.

(** X5.  A [task_complete] call saves its summary: the memory store
    gains the chunks of the summary as memories of type "task" without
    tags and the file is rewritten; the call is answered by the turn "Task
    summary saved to memory." and ends the batch, the calls after it being
    left out. *)
Theorem task_complete_saves_summary tc rest a w :
  Agent.name tc = "task_complete" ->
  exists a' w' new,
    dispatch (tc :: rest) a w = Some (true, a', w')
    /\ Agent.history a' = Agent.history a ++ [Agent.tool_msg "Task summary saved to memory."]
    /\ Memory.memories (Agent.memory a') = Memory.memories (Agent.memory a) ++ new
    /\ Some (map Memory.mem_content new)
       = Memory._chunk (Agent.get_arg (Agent.arguments tc) "summary") 500 50
    /\ Forall (fun m => Memory.mem_tags m = [] /\ Memory.mem_type m = "task") new
    /\ Memory.disk (Agent.memory a')
       = Some (Memory.serialize (Memory.memories (Agent.memory a')))
    /\ Agent.trace a' = Agent.trace a ++ [Agent.EvDispatch tc].
Proof.
  intros Hname. unfold dispatch. cbn [Agent.dispatch].
  unfold Agent._execute_tool_call. rewrite Hname. cbn [String.eqb Ascii.eqb Bool.eqb].
  match goal with |- context [Memory.add World fresh ?c ?t ?ty ?st w] =>
    destruct (add_spec World fresh c t ty st w) as (res & new & w1 & Hadd & Hchunks & Hf & _);
    rewrite Hadd end.
  cbv beta iota zeta. cbn [String.eqb Ascii.eqb Bool.eqb].
  eexists _, w1, new. split; [reflexivity|].
  cbn [Agent.history Agent.memory Agent.trace Agent.append_history Agent.set_history
       Agent.set_ui Agent.set_memory Agent.log Memory.memories Memory.disk Memory._save].
  now repeat split.
Qed.

(** X6.  A [remember] call stores the content as memories of type
    "project" carrying the tags of its [tags] argument, and answers with
    the id of the new memory, or with the number of chunks when the
    content was split. *)
Theorem remember_stores_project_memory arguments a w :
  exists a' w' new,
    execute_call "remember" arguments a w
    = Some (Some (match new with
                  | [m] => "Saved to memory (id: " +++ Memory.mem_id m +++ ")."
                  | _ => "Saved " +++ Agent.nat_to_string (List.length new)
                         +++ " memory chunks."
                  end), a', w')
    /\ Memory.memories (Agent.memory a') = Memory.memories (Agent.memory a) ++ new
    /\ Some (map Memory.mem_content new)
       = Memory._chunk (Agent.get_arg arguments "content") 500 50
    /\ Forall (fun m => Memory.mem_tags m = Agent.parse_tags (Agent.get_arg arguments "tags")
                        /\ Memory.mem_type m = "project") new
    /\ Ui.memory_count (Agent.ui a') = Memory.count (Agent.memory a')
    /\ Agent.history a' = Agent.history a.
Proof.
  unfold execute_call, Agent._execute_tool_call. cbn [String.eqb Ascii.eqb Bool.eqb].
  destruct (add_spec World fresh (Agent.get_arg arguments "content")
              (Agent.parse_tags (Agent.get_arg arguments "tags")) "project"
              (Agent.memory a) w) as (res & new & w1 & Hadd & Hchunks & Hf & Hres).
  rewrite Hadd. exists
    (Agent.set_ui
       (Agent.set_memory a
          (Memory._save {| Memory.memories := Memory.memories (Agent.memory a) ++ new;
                           Memory.disk := Memory.disk (Agent.memory a) |}))
       (Ui.set_memory_count (Agent.ui a)
          (Memory.count
             (Memory._save {| Memory.memories := Memory.memories (Agent.memory a) ++ new;
                              Memory.disk := Memory.disk (Agent.memory a) |})))), w1, new.
  split.
  - subst res. destruct new as [|m [|m' new]]; reflexivity.
  - now repeat split.
Qed.

(** C6.  When the name of a call is in [APPROVAL_REQUIRED] and the
    user denies it, the loop over the batch returns, having gone on with
    the remaining calls.  [execute_tool] is not called for the denied
    call: between its dispatch and the events of the remaining calls the
    trace holds the denied approval only, and the memory store is as
    before when the remaining calls start.  The history returned holds,
    in the place of the call's result, the tool turn "User denied
    execution of <name>.", followed by one tool turn for each remaining
    call up to the first [task_complete]. *)
Theorem denied_call_is_skipped tc rest a w w' :
  In (Agent.name tc) Agent.APPROVAL_REQUIRED ->
  approval_answer (Agent.approval_desc py_repr (Agent.name tc) (Agent.arguments tc)) w
  = (false, w') ->
  exists a' a2 w2 turns evs,
    dispatch (tc :: rest) a w = Some (Spec.has_complete rest, a2, w2)
    /\ dispatch (tc :: rest) a w = dispatch rest a' w'
    /\ Agent.history a'
       = Agent.history a
         ++ [Agent.tool_msg ("User denied execution of " +++ Agent.name tc +++ ".")]
    /\ Agent.trace a'
       = Agent.trace a
         ++ [Agent.EvDispatch tc;
             Agent.EvApproval
               (Agent.approval_desc py_repr (Agent.name tc) (Agent.arguments tc)) false]
    /\ filter Spec.is_execute (Agent.trace a') = filter Spec.is_execute (Agent.trace a)
    /\ Agent.memory a' = Agent.memory a
    /\ Agent.history a2
       = Agent.history a
         ++ Agent.tool_msg ("User denied execution of " +++ Agent.name tc +++ ".") :: turns
    /\ Forall Spec.tool_turn turns
    /\ List.length turns = List.length (Spec.until_complete rest)
    /\ Agent.trace a2
       = Agent.trace a
         ++ Agent.EvDispatch tc
            :: Agent.EvApproval
                 (Agent.approval_desc py_repr (Agent.name tc) (Agent.arguments tc)) false
            :: evs
    /\ Spec.dispatched evs = Spec.until_complete rest.
Proof.
  intros Hin Hdeny.
  assert (Hgate : String.eqb (Agent.name tc) "ask_user" = false
                  /\ String.eqb (Agent.name tc) "remember" = false
                  /\ String.eqb (Agent.name tc) "recall" = false
                  /\ String.eqb (Agent.name tc) "task_complete" = false
                  /\ existsb (String.eqb (Agent.name tc)) Agent.APPROVAL_REQUIRED = true).
  { destruct Hin as [<-|[<-|[<-|[]]]]; repeat split. }
  destruct Hgate as (H1 & H2 & H3 & H4 & H5).
  assert (Hstep : exists a',
    dispatch (tc :: rest) a w = dispatch rest a' w'
    /\ Agent.history a'
       = Agent.history a
         ++ [Agent.tool_msg ("User denied execution of " +++ Agent.name tc +++ ".")]
    /\ Agent.trace a'
       = Agent.trace a
         ++ [Agent.EvDispatch tc;
             Agent.EvApproval
               (Agent.approval_desc py_repr (Agent.name tc) (Agent.arguments tc)) false]
    /\ Agent.memory a' = Agent.memory a).
  { unfold dispatch. cbn [Agent.dispatch]. unfold Agent._execute_tool_call.
    rewrite H1, H2, H3, H4, H5. unfold Agent.get_approval. rewrite Hdeny.
    eexists. split; [reflexivity|].
    cbn [Agent.history Agent.trace Agent.memory Agent.set_ui Agent.log
         Agent.append_history Agent.set_history].
    rewrite <- app_assoc. repeat split. }
  destruct Hstep as (a' & Hd & Hh & Ht & Hm).
  destruct (dispatch_returns rest a' w')
    as (a2 & w2 & turns & evs & Hrest & Hh2 & Hturns & Hlen & Ht2 & Hdisp & _).
  exists a', a2, w2, turns, evs.
  split; [now rewrite Hd|]. split; [exact Hd|]. split; [exact Hh|]. split; [exact Ht|].
  split; [rewrite Ht, filter_app; simpl; now rewrite app_nil_r|].
  split; [exact Hm|].
  split; [rewrite Hh2, Hh, <- app_assoc; reflexivity|].
  split; [exact Hturns|]. split; [exact Hlen|].
  split; [rewrite Ht2, Ht, <- app_assoc; reflexivity | exact Hdisp].
Qed.

End AgentTurns.

Lemma denied_call_witness :
  let write := {| Agent.name := "write_file";
                  Agent.arguments := [("path", "a.txt"); ("content", "x")] |} in
  let read := {| Agent.name := "read_file"; Agent.arguments := [("path", "a.txt")] |} in
  let a := Agent.init Concrete.empty_store Ui.init in
  let w := {| Concrete.script := []; Concrete.approvals := [false]; Concrete.tick := 0 |} in
  exists a2 w2 turns evs,
    Concrete.dispatch [write; read] a w = Some (false, a2, w2)
    /\ Agent.history a2 = Agent.tool_msg "User denied execution of write_file." :: turns
    /\ List.length turns = 1%nat
    /\ Agent.trace a2
       = Agent.EvDispatch write
         :: Agent.EvApproval "write_file(path='a.txt', content='x')" false :: evs
    /\ Spec.dispatched evs = [read].
Proof.
  intros write read a w.
  destruct (denied_call_is_skipped Concrete.milli Concrete.World
              Concrete.approval_answer Concrete.question_answer Concrete.execute_tool
              Concrete.fresh Concrete.py_repr Concrete.wrap
              write [read] a w Concrete.idle)
    as (a' & a2 & w2 & turns & evs & Hd & _ & _ & _ & _ & _ & Hh & _ & Hl & Ht & Hdisp).
  - simpl. auto.
  - reflexivity.
  - exists a2, w2, turns, evs. split; [exact Hd|]. split; [exact Hh|].
    split; [exact Hl|]. split; [exact Ht | exact Hdisp].
Defined.

Lemma run_executes_gated_tools_witness :
  let write := {| Agent.name := "write_file";
                  Agent.arguments := [("path", "a.txt"); ("content", "x")] |} in
  let w := {| Concrete.script := [([Agent.ToolCallChunk write; Agent.Done], Agent.Exhausted);
                                  ([Agent.Text "Written."; Agent.Done], Agent.Exhausted)];
              Concrete.approvals := [true]; Concrete.tick := 0 |} in
  exists o a2 w2,
    Concrete.run "write a.txt" (Agent.init Concrete.empty_store Ui.init) w = Some (o, a2, w2)
    /\ Spec.guarded Concrete.py_repr (Agent.trace a2).
Proof.
  intros write w.
  apply (run_executes_gated_tools_only_when_approved Concrete.milli Concrete.World
           Concrete.chat_stream Concrete.approval_answer Concrete.question_answer
           Concrete.execute_tool Concrete.fresh Concrete.py_repr Concrete.wrap
           "write a.txt" (Agent.init Concrete.empty_store Ui.init) w).
  apply guarded_nil.
Defined.

Lemma failed_stream_witness :
  let read := {| Agent.name := "read_file"; Agent.arguments := [("path", "a.txt")] |} in
  let chunks := [Agent.Text "Let me look."; Agent.ToolCallChunk read] in
  let w := {| Concrete.script := [(chunks, Agent.RaisedException "timed out")];
              Concrete.approvals := []; Concrete.tick := 0 |} in
  exists u a2,
    Concrete.run "hi" (Agent.init Concrete.empty_store Ui.init) w
    = Some (Agent.Returned, a2, Concrete.idle)
    /\ Agent.history a2 = [Spec.user_msg "hi"]
    /\ Agent.ui a2 = Ui.show_error Concrete.wrap (Ui.stream_end u) "LLM error: timed out".
Proof.
  intros read chunks w.
  destruct (failed_stream_drops_the_round Concrete.milli Concrete.World
              Concrete.chat_stream Concrete.approval_answer Concrete.question_answer
              Concrete.execute_tool Concrete.fresh Concrete.py_repr Concrete.wrap
              "hi" (Agent.init Concrete.empty_store Ui.init) w chunks
              (Agent.RaisedException "timed out") Concrete.idle)
    as (u & a2 & Hrun & Hh & _ & _ & Hui).
  - simpl. lia.
  - reflexivity.
  - discriminate.
  - exists u, a2. split; [exact Hrun|]. split; [exact Hh | exact Hui].
Defined.

Lemma task_complete_witness :
  let done := {| Agent.name := "task_complete";
                 Agent.arguments := [("summary", "Added the login form")] |} in
  let read := {| Agent.name := "read_file"; Agent.arguments := [("path", "a.txt")] |} in
  exists a' w' new,
    Concrete.dispatch [done; read] (Agent.init Concrete.empty_store Ui.init) Concrete.idle
    = Some (true, a', w')
    /\ Memory.memories (Agent.memory a') = new
    /\ map Memory.mem_content new = ["Added the login form"]
    /\ Agent.trace a' = [Agent.EvDispatch done].
Proof.
  intros done read.
  destruct (task_complete_saves_summary Concrete.milli Concrete.World
              Concrete.approval_answer Concrete.question_answer
              Concrete.execute_tool Concrete.fresh Concrete.py_repr Concrete.wrap
              done [read] (Agent.init Concrete.empty_store Ui.init) Concrete.idle)
    as (a' & w' & new & Hd & _ & Hm & Hc & _ & _ & Ht).
  - reflexivity.
  - exists a', w', new. split; [exact Hd|]. split; [exact Hm|].
    split; [|exact Ht]. now injection Hc.
Defined.

(* ===================================================================== *)
(** * More on the memory store *)
(* ===================================================================== *)

Section MemoryMore.

Variable fo : Memory.FloatOps.

Lemma slice_from_last {A} (l : list A) (k : Z) :
  (0 <= k)%Z ->
  Py.slice_from l (- k) = if (k =? 0)%Z then l else Spec.lastn (Z.to_nat k) l.
Proof.
  intros Hk. unfold Py.slice_from, Py.slice_bound, Spec.lastn.
  destruct (Z.eqb_spec k 0) as [->|Hne].
  - simpl. now replace (Z.to_nat (Z.min 0 (Z.of_nat (List.length l)))) with 0%nat by lia.
  - destruct (Z.ltb_spec (- k) 0); [|lia]. f_equal. lia.
Qed.

(** X7.  With an empty query [get_context] digests the last
    [max_memories] memories of the store, oldest first; with
    [max_memories = 0] it digests the whole store, as [memories[-0:]] is
    [memories[0:]].  An empty store gives the empty text. *)
Theorem get_context_without_query (st : Memory.Store) (max_memories : Z) :
  (0 <= max_memories)%Z ->
  Memory.get_context fo st EmptyString max_memories
  = Spec.digest (if (max_memories =? 0)%Z then Memory.memories st
                 else Spec.lastn (Z.to_nat max_memories) (Memory.memories st)).
Proof.
  intros Hmax. unfold Memory.get_context. cbn [Py.is_empty].
  destruct (Memory.memories st) as [|m l] eqn:E.
  - unfold Spec.lastn. now destruct (max_memories =? 0)%Z.
  - now rewrite slice_from_last.
Qed.

Lemma windows_cover (words : list string) : forall m j,
  (List.length words <= 450 * (j + m))%nat ->
  flat_map (fun i => firstn 450 (Spec.window words i)) (seq j m) = skipn (450 * j) words.
Proof.
  induction m as [|m IH]; intros j Hlen.
  - simpl. rewrite skipn_all2; [reflexivity | lia].
  - cbn [seq flat_map]. rewrite IH by lia.
    rewrite window_firstn_skipn, firstn_firstn.
    replace (Nat.min 450 500) with 450%nat by reflexivity.
    replace (450 * S j)%nat with (450 + 450 * j)%nat by lia.
    rewrite <- skipn_skipn. apply firstn_skipn.
Qed.

(** X8.  Chunking loses no word.  For a text of more than 500 words,
    the first 450 words of each chunk, one chunk after the other, are the
    words of the text in their order; a text of at most 500 words is its
    own single chunk. *)
Theorem chunks_cover_the_text (text : string) :
  let words := Py.split text in
  exists chunks,
    Memory._chunk text 500 50 = Some chunks
    /\ if (Z.of_nat (List.length words) <=? 500)%Z then chunks = [text]
       else flat_map (fun c => firstn 450 (Py.split c)) chunks = words.
Proof.
  intros words. rewrite chunk_default. fold words.
  eexists. split; [reflexivity|].
  destruct (Z.leb_spec (Z.of_nat (List.length words)) 500); [reflexivity|].
  rewrite flat_map_concat_map, map_map, <- flat_map_concat_map.
  rewrite (flat_map_ext _ (fun i => firstn 450 (Spec.window words i))).
  - rewrite windows_cover; [reflexivity|].
    pose proof (ceil_div_450 (Z.of_nat (List.length words)) ltac:(lia)).
    unfold Spec.chunk_count. lia.
  - intros i. unfold Spec.chunk_text. rewrite split_join; [reflexivity|].
    unfold Spec.window. apply Forall_slice, split_words.
Qed.

Lemma ceil_div_bounds (n d : Z) :
  (0 <= n)%Z -> (0 < d)%Z ->
  (d * Spec.ceil_div n d - d < n <= d * Spec.ceil_div n d)%Z.
Proof.
  intros Hn Hd. unfold Spec.ceil_div.
  pose proof (Z.mul_div_le (n + d - 1) d Hd).
  pose proof (Z.mul_succ_div_gt (n + d - 1) d Hd).
  lia.
Qed.

(** A loop that advances appends the remaining windows and leaves. *)
Lemma chunk_loop_advances (words : list string) (max_tokens overlap : Z) :
  (overlap < max_tokens)%Z ->
  forall m j acc fuel,
    (Z.of_nat j + Z.of_nat m
     = Spec.ceil_div (Z.of_nat (List.length words)) (max_tokens - overlap))%Z ->
    (m < fuel)%nat ->
    exists more,
      Memory.chunk_loop fuel words max_tokens overlap
        ((max_tokens - overlap) * Z.of_nat j) acc
      = Some (acc ++ more)
      /\ List.length more = m.
Proof.
  intros Hd.
  pose proof (ceil_div_bounds (Z.of_nat (List.length words)) (max_tokens - overlap)
                ltac:(lia) ltac:(lia)) as Hc.
  induction m as [|m IH]; intros j acc fuel Hj Hfuel;
    (destruct fuel as [|fuel]; [lia|]); rewrite chunk_loop_step.
  - destruct (Z.ltb_spec ((max_tokens - overlap) * Z.of_nat j) (Z.of_nat (List.length words)));
      [nia|].
    exists []. now rewrite app_nil_r.
  - destruct (Z.ltb_spec ((max_tokens - overlap) * Z.of_nat j) (Z.of_nat (List.length words)));
      [|nia].
    replace ((max_tokens - overlap) * Z.of_nat j + (max_tokens - overlap))%Z
      with ((max_tokens - overlap) * Z.of_nat (S j))%Z by lia.
    destruct (IH (S j) (acc ++ [Py.join " " (Py.slice words
                                  ((max_tokens - overlap) * Z.of_nat j)
                                  ((max_tokens - overlap) * Z.of_nat j + max_tokens))])
                 fuel ltac:(lia) ltac:(lia)) as (more & -> & Hlen).
    eexists (_ :: more). rewrite <- app_assoc. split; [reflexivity|]. simpl. now rewrite Hlen.
Qed.

(** A loop that does not advance never leaves. *)
Lemma chunk_loop_stuck (words : list string) (max_tokens overlap : Z) :
  (max_tokens <= overlap)%Z -> (0 < List.length words)%nat ->
  forall fuel i acc,
    (i <= 0)%Z -> Memory.chunk_loop fuel words max_tokens overlap i acc = None.
Proof.
  intros Hd Hlen. induction fuel as [|fuel IH]; intros i acc Hi; [reflexivity|].
  rewrite chunk_loop_step.
  destruct (Z.ltb_spec i (Z.of_nat (List.length words))); [|lia].
  apply IH. lia.
Qed.

(** X9.  [_chunk] with any bounds.  A text of at most [max_tokens]
    words is returned as it is.  A longer text is cut into
    [ceil(n / (max_tokens - overlap))] chunks when [overlap < max_tokens];
    when [overlap >= max_tokens] (and [max_tokens >= 0]) the loop index
    never grows and [_chunk] does not return. *)
Theorem chunk_returns_iff_it_advances (text : string) (max_tokens overlap : Z) :
  let words := Py.split text in
  let n := Z.of_nat (List.length words) in
  ((n <= max_tokens)%Z -> Memory._chunk text max_tokens overlap = Some [text])
  /\ ((max_tokens < n)%Z -> (overlap < max_tokens)%Z ->
      exists chunks,
        Memory._chunk text max_tokens overlap = Some chunks
        /\ Z.of_nat (List.length chunks) = Spec.ceil_div n (max_tokens - overlap))
  /\ ((0 <= max_tokens < n)%Z -> (max_tokens <= overlap)%Z ->
      Memory._chunk text max_tokens overlap = None
      /\ forall fuel, Memory.chunk_loop fuel words max_tokens overlap 0 [] = None).
Proof.
  intros words n. unfold Memory._chunk. fold words. fold n.
  split; [|split].
  - intros H. now destruct (Z.leb_spec n max_tokens); [|lia].
  - intros Hn Hd. destruct (Z.leb_spec n max_tokens); [lia|].
    assert (Hn0 : n = Z.of_nat (List.length words)) by reflexivity.
    pose proof (ceil_div_bounds n (max_tokens - overlap) ltac:(lia) ltac:(lia)) as Hc.
    clearbody n.
    destruct (chunk_loop_advances words max_tokens overlap Hd
                (Z.to_nat (Spec.ceil_div n (max_tokens - overlap))) 0 []
                (S (List.length words)))
      as (more & Hloop & Hlen).
    + rewrite <- Hn0. nia.
    + nia.
    + rewrite Z.mul_0_r in Hloop. rewrite Hloop. exists more. split; [reflexivity|].
      rewrite Hlen. nia.
  - intros Hn Hd. destruct (Z.leb_spec n max_tokens); [lia|].
    assert (Hpos : (0 < List.length words)%nat) by (subst n; lia).
    split; [|intros fuel]; apply chunk_loop_stuck; try assumption; lia.
Qed.

Lemma lower_char_twice (c : ascii) : Py.lower_char (Py.lower_char c) = Py.lower_char c.
Proof. destruct c as [[] [] [] [] [] [] [] []]; reflexivity. Qed.

Lemma all_chars_map (p : ascii -> bool) (f : ascii -> ascii) (s : string) :
  (forall c, p (f c) = true) -> all_chars p (Py.map_chars f s) = true.
Proof.
  intros H. induction s as [|c s IH]; simpl; [reflexivity | now rewrite H, IH].
Qed.

Lemma runs_go_all (p keep : ascii -> bool) : forall s cur,
  all_chars p cur = true -> all_chars p s = true ->
  Forall (fun w => all_chars p w = true) (Py.runs_go keep cur s).
Proof.
  induction s as [|c s IH]; intros cur Hcur Hs; simpl in *.
  - unfold Py.flush. destruct (Py.is_empty cur); repeat constructor. assumption.
  - apply andb_prop in Hs as [Hc Hs]. destruct (keep c).
    + apply IH; [|assumption]. rewrite all_chars_app, Hcur. simpl. now rewrite Hc.
    + apply Forall_app. split; [|now apply IH].
      unfold Py.flush. destruct (Py.is_empty cur); repeat constructor. assumption.
Qed.

Lemma map_chars_fixed (f : ascii -> ascii) (s : string) :
  all_chars (fun c => Ascii.eqb (f c) c) s = true -> Py.map_chars f s = s.
Proof.
  induction s as [|c s IH]; simpl; [reflexivity|].
  intros H. apply andb_prop in H as [Hc Hs]. apply Ascii.eqb_eq in Hc.
  now rewrite Hc, IH.
Qed.

(** X10.  Every token of [_tokenize] is a non-empty run of word
    characters (letters, digits, underscore) in lower case. *)
Theorem tokens_are_lowercase_words (text : string) :
  Forall (fun t => Py.is_empty t = false
                   /\ all_chars Py.is_word t = true
                   /\ Py.lower t = t)
    (Memory._tokenize text).
Proof.
  unfold Memory._tokenize, Py.findall_word.
  pose proof (runs_are_runs Py.is_word (Py.lower text)) as Hruns.
  pose proof (runs_go_all (fun c => Ascii.eqb (Py.lower_char c) c) Py.is_word
                (Py.lower text) EmptyString eq_refl) as Hlow.
  unfold Py.runs in *.
  rewrite Forall_forall in *. intros t Ht.
  destruct (Hruns t Ht) as [Hne Hw]. repeat split; try assumption.
  apply map_chars_fixed. apply Hlow; [|assumption].
  apply all_chars_map. intros c. apply Ascii.eqb_eq, lower_char_twice.
Qed.

End MemoryMore.

Section AddThenDelete.

Variable World : Type.
Variable fresh : World -> (string * string) * World.

Lemma prefix_refl (s : string) : String.prefix s s = true.
Proof.
  induction s as [|c s IH]; [reflexivity|].
  simpl. now destruct (ascii_dec c c).
Qed.

Lemma first_match_app prefix (l l' : list Memory.Mem) : forall i,
  Forall (fun m => Py.startswith (Memory.mem_id m) prefix = false) l ->
  Memory.first_match prefix (l ++ l') i
  = Memory.first_match prefix l' (i + List.length l).
Proof.
  induction l as [|m l IH]; intros i H; simpl.
  - now rewrite Nat.add_0_r.
  - inversion H as [|? ? Hm Hl]; subst. rewrite Hm, IH by assumption. f_equal. lia.
Qed.

(** X11.  Forgetting what was just remembered restores the store.  When
    a content of at most 500 words is added under a fresh id that no id
    of the store starts with, [delete] with that id returns true and
    leaves the list of memories as it was before the [add], the file
    holding its serialization. *)
Theorem delete_undoes_add content tags mem_type st w i t w1 :
  fresh w = ((i, t), w1) ->
  (List.length (Py.split content) <= 500)%nat ->
  Forall (fun m => Py.startswith (Memory.mem_id m) i = false) (Memory.memories st) ->
  exists res st1,
    Memory.add World fresh content tags mem_type st w = Some (res, st1, w1)
    /\ Memory.delete st1 i
       = (true, {| Memory.memories := Memory.memories st;
                   Memory.disk := Some (Memory.serialize (Memory.memories st)) |}).
Proof.
  intros Hfresh Hlen Hids. unfold Memory.add. rewrite chunk_default.
  destruct (Z.leb_spec (Z.of_nat (List.length (Py.split content))) 500); [|lia].
  cbn [Memory.add_chunks]. rewrite Hfresh. cbn [app].
  eexists _, _. split; [reflexivity|].
  unfold Memory.delete. cbn [Memory.memories Memory._save Memory.disk].
  rewrite first_match_app by assumption.
  cbn [Memory.first_match Memory.mem_id]. unfold Py.startswith at 1.
  rewrite prefix_refl. cbn [Nat.add].
  now rewrite (pop_middle (Memory.memories st) _ []), app_nil_r.
Qed.

End AddThenDelete.

Lemma chunk_returns_iff_it_advances_witness :
  Memory._chunk "a b c" 5 1 = Some ["a b c"]
  /\ (exists chunks, Memory._chunk "a b c" 2 1 = Some chunks
                     /\ Z.of_nat (List.length chunks) = 3%Z)
  /\ Memory._chunk "a b c" 2 2 = None.
Proof.
  destruct (chunk_returns_iff_it_advances "a b c" 5 1) as (H1 & _ & _).
  destruct (chunk_returns_iff_it_advances "a b c" 2 1) as (_ & H2 & _).
  destruct (chunk_returns_iff_it_advances "a b c" 2 2) as (_ & _ & H3).
  split; [apply H1; vm_compute; discriminate|].
  split; [apply H2; reflexivity|].
  apply H3; [split; [lia | reflexivity] | lia].
Defined.

Lemma get_context_without_query_witness :
  let st := Concrete.store_of [Concrete.mk "01" "alpha" []; Concrete.mk "02" "beta" ["x"];
                               Concrete.mk "03" "gamma" []] in
  Memory.get_context Concrete.milli st EmptyString 2
  = Spec.digest [Concrete.mk "02" "beta" ["x"]; Concrete.mk "03" "gamma" []]
  /\ Memory.get_context Concrete.milli st EmptyString 0 = Spec.digest (Memory.memories st).
Proof.
  intros st. split.
  - apply (get_context_without_query Concrete.milli st 2). lia.
  - apply (get_context_without_query Concrete.milli st 0). lia.
Defined.

Lemma delete_undoes_add_witness :
  let st := Concrete.store_of [Concrete.mk "ab" "alpha" []] in
  exists res st1,
    Concrete.add "remember this" ["note"] "project" st Concrete.idle
    = Some (res, st1, {| Concrete.script := []; Concrete.approvals := []; Concrete.tick := 1 |})
    /\ Memory.delete st1 "id0" = (true, st).
Proof.
  intros st.
  apply (delete_undoes_add Concrete.World Concrete.fresh "remember this" ["note"] "project"
           st Concrete.idle "id0" "t0").
  - reflexivity.
  - vm_compute. lia.
  - repeat constructor.
Defined.

(* ===================================================================== *)
(** * The display of a stream *)
(* ===================================================================== *)

Section Streaming.

Variable wrap : string -> list string.

(** What the display shows of a stream: the reasoning line while the
    model reasons, then the visible text. *)
Let view (u : Ui.State) : list (Ui.Color * string) :=
  (if Ui._thinking u then [Ui.thinking_line (Ui._think_buf u)] else [])
  ++ (if Py.is_empty (Ui._stream_buf u) then [] else Ui._wrap wrap (Ui._stream_buf u) Ui.C_AGENT).

Let shown (base : list (Ui.Color * string)) (u : Ui.State) : Prop :=
  Ui._stream_start u = List.length base /\ Ui.lines u = base ++ view u.

Lemma render_shown base u buf thinking think_buf :
  shown base u ->
  shown base (Ui._render_stream wrap (Ui.set_stream u buf thinking think_buf)).
Proof.
  intros [Hstart Hlines]. split; [exact Hstart|].
  unfold Ui._render_stream, view.
  cbn [Ui.set_stream Ui.set_lines Ui.lines Ui._stream_start Ui._stream_buf Ui._thinking
       Ui._think_buf].
  rewrite Hstart, Hlines, firstn_length_app.
  destruct thinking, (Py.is_empty buf); cbn [app]; rewrite <- ?app_assoc, ?app_nil_r;
    reflexivity.
Qed.

Lemma stream_token_shown base u token :
  shown base u -> shown base (Ui.stream_token wrap u token).
Proof.
  intros H. unfold Ui.stream_token.
  destruct (Py.contains "<think>" (Ui._stream_buf u +++ token) && negb (Ui._thinking u)).
  - destruct (Py.partition "<think>" (Ui._stream_buf u +++ token)) as [[before sep] after].
    now apply render_shown.
  - destruct (Ui._thinking u).
    + destruct (Py.contains "</think>" (Ui._think_buf u +++ token)).
      * destruct (Py.partition "</think>" (Ui._think_buf u +++ token)) as [[x sep] after].
        now apply render_shown.
      * now apply render_shown.
    + now apply render_shown.
Qed.

Lemma consume_shown base (chunks : list Agent.Chunk) : forall u text calls,
  shown base u -> shown base (fst (fst (Agent.consume wrap chunks u text calls))).
Proof.
  induction chunks as [|c chunks IH]; intros u text calls H; [exact H|].
  destruct c as [data|data|]; cbn [Agent.consume]; apply IH; [|exact H|exact H].
  now apply stream_token_shown.
Qed.

(** X12.  Streaming never alters what was on the screen before the
    stream started.  Whatever chunks arrive after [stream_start], the
    lines are those of before, followed by at most one reasoning line
    (while a reasoning block is open) and by the wrapped visible text
    (when it is not empty). *)
Theorem stream_keeps_earlier_lines (chunks : list Agent.Chunk) (u : Ui.State) :
  let u' := fst (fst (Agent.consume wrap chunks (Ui.stream_start u) EmptyString [])) in
  Ui.lines u'
  = Ui.lines u
    ++ (if Ui._thinking u' then [Ui.thinking_line (Ui._think_buf u')] else [])
    ++ (if Py.is_empty (Ui._stream_buf u') then []
        else Ui._wrap wrap (Ui._stream_buf u') Ui.C_AGENT).
Proof.
  intros u'.
  assert (H0 : shown (Ui.lines u) (Ui.stream_start u)).
  { split; [reflexivity|]. unfold view. cbn. now rewrite app_nil_r. }
  exact (proj2 (consume_shown (Ui.lines u) chunks _ EmptyString [] H0)).
Qed.

Lemma prefix_app (p a b : string) :
  String.prefix p a = true -> String.prefix p (a +++ b) = true.
Proof.
  revert a. induction p as [|c p IH]; intros a H; [now destruct (a +++ b)|].
  destruct a as [|x a]; [discriminate|]. simpl in *.
  destruct (ascii_dec c x); [now apply IH | discriminate].
Qed.

Lemma find_none_prefix (sep a b : string) :
  Py.find sep (a +++ b) = None -> Py.find sep a = None.
Proof.
  induction a as [|c a IH]; intros H.
  - cbn [String.append] in H. cbn [Py.find].
    destruct (String.prefix sep EmptyString) eqn:Hp; [|reflexivity].
    apply (prefix_app _ _ b) in Hp. cbn [String.append] in Hp.
    destruct b; cbn [Py.find] in H; rewrite Hp in H; discriminate.
  - cbn [String.append Py.find] in *.
    destruct (String.prefix sep (String c (a +++ b))) eqn:Hp; [discriminate|].
    destruct (String.prefix sep (String c a)) eqn:Hq.
    + apply (prefix_app _ _ b) in Hq. cbn [String.append] in Hq. congruence.
    + destruct (Py.find sep (a +++ b)); [discriminate|]. now rewrite IH.
Qed.

Lemma contains_prefix (sep a b : string) :
  Py.contains sep (a +++ b) = false -> Py.contains sep a = false.
Proof.
  unfold Py.contains. intros H.
  destruct (Py.find sep (a +++ b)) eqn:E; [discriminate|].
  now rewrite (find_none_prefix _ _ _ E).
Qed.

Lemma find_none_tail (sep : string) c s :
  Py.find sep (String c s) = None ->
  String.prefix sep (String c s) = false /\ Py.find sep s = None.
Proof.
  cbn [Py.find]. destruct (String.prefix sep (String c s)); [discriminate|].
  destruct (Py.find sep s); [discriminate|]. now split.
Qed.

Lemma sub_think_without_tag (s : string) :
  Py.find "<think>" s = None -> Py.sub_think s = s.
Proof.
  unfold Py.sub_think. induction s as [|c s IH]; intros H; [reflexivity|].
  apply find_none_tail in H as [Hp Hs].
  cbn [Py.sub_think_go]. rewrite Hp. now rewrite IH.
Qed.

Lemma consume_plain (chunks : list Agent.Chunk) : forall u text calls,
  Ui._thinking u = false ->
  Ui._stream_buf u = text ->
  Py.contains "<think>" (text +++ Spec.stream_text chunks) = false ->
  let u' := fst (fst (Agent.consume wrap chunks u text calls)) in
  Ui._thinking u' = false /\ Ui._stream_buf u' = text +++ Spec.stream_text chunks.
Proof.
  induction chunks as [|c chunks IH]; intros u text calls Ht Hb Hc.
  - cbn. now rewrite append_empty_r.
  - destruct c as [data|data|]; cbn [Agent.consume Spec.stream_text] in *;
      [|now apply IH|now apply IH].
    rewrite <- append_assoc in Hc |- *.
    apply IH; [| |exact Hc].
    + unfold Ui.stream_token. rewrite Hb, Ht, (contains_prefix _ _ _ Hc). reflexivity.
    + unfold Ui.stream_token. rewrite Hb, Ht, (contains_prefix _ _ _ Hc). reflexivity.
Qed.

(** X13.  A reply without the opening delimiter of a reasoning block is
    shown and kept whole: after the stream the visible text of the
    display is the concatenation of the text chunks, no reasoning line is
    shown, and the text recorded for the turn is that text with only its
    surrounding whitespace removed. *)
Theorem reply_without_reasoning_is_whole (chunks : list Agent.Chunk) (u : Ui.State) :
  Py.contains "<think>" (Spec.stream_text chunks) = false ->
  let u' := fst (fst (Agent.consume wrap chunks (Ui.stream_start u) EmptyString [])) in
  Ui._thinking u' = false
  /\ Ui._stream_buf u' = Spec.stream_text chunks
  /\ Ui.lines u'
     = Ui.lines u
       ++ (if Py.is_empty (Spec.stream_text chunks) then []
           else Ui._wrap wrap (Spec.stream_text chunks) Ui.C_AGENT)
  /\ Agent.clean (Spec.stream_text chunks) = Py.strip (Spec.stream_text chunks).
Proof.
  intros Hc u'.
  destruct (consume_plain chunks (Ui.stream_start u) EmptyString [] eq_refl eq_refl Hc)
    as [Ht Hb].
  fold u' in Ht, Hb. cbn [String.append] in Hb.
  assert (H0 : shown (Ui.lines u) (Ui.stream_start u)).
  { split; [reflexivity|]. unfold view. cbn. now rewrite app_nil_r. }
  pose proof (proj2 (consume_shown (Ui.lines u) chunks _ EmptyString [] H0)) as Hl.
  fold u' in Hl. unfold view in Hl. rewrite Ht, Hb in Hl. cbn [app] in Hl.
  repeat split; try assumption.
  unfold Agent.clean. rewrite sub_think_without_tag; [reflexivity|].
  unfold Py.contains in Hc. now destruct (Py.find "<think>" (Spec.stream_text chunks)).
Qed.

(** An opening delimiter that is never closed stays in the recorded
    text. *)
Lemma sub_think_unclosed (s : string) :
  Py.find "</think>" s = None -> Py.sub_think s = s.
Proof.
  unfold Py.sub_think. induction s as [|c s IH]; intros H; [reflexivity|].
  pose proof H as H'. apply find_none_tail in H' as [_ Hs].
  cbn [Py.sub_think_go].
  destruct (String.prefix "<think>" (String c s)) eqn:Hp; [|now rewrite IH].
  assert (Hd : forall n t, Py.find "</think>" t = None ->
                           Py.find "</think>" (Py.drop n t) = None).
  { induction n as [|n IHn]; intros t Ht; [exact Ht|].
    destruct t as [|x t]; [exact Ht|]. cbn [Py.drop].
    apply IHn. now apply find_none_tail in Ht. }
  now rewrite (Hd 7%nat _ H).
Qed.

(** X14.  Reasoning that is never closed is recorded.  In a text
    without the closing delimiter nothing is removed, an opening
    delimiter and what follows it included: the text recorded for the
    turn is the text with only its surrounding whitespace removed. *)
Theorem unclosed_reasoning_is_recorded (text : string) :
  Py.contains "</think>" text = false ->
  Agent.clean text = Py.strip text.
Proof.
  intros H. unfold Agent.clean. rewrite sub_think_unclosed; [reflexivity|].
  unfold Py.contains in H. now destruct (Py.find "</think>" text).
Qed.

End Streaming.

(* ===================================================================== *)
(** * Reading the memory file back *)
(* ===================================================================== *)

Section Loading.

Variable json_loads : string -> option Memory.Mem.

Let printable (c : ascii) : bool := Py.between 32 126 (Py.code c).

Lemma printable_plain (c : ascii) :
  printable c = true -> Spec.no_line_end c = true.
Proof. destruct c as [[] [] [] [] [] [] [] []]; intros H; try discriminate H; reflexivity. Qed.

Lemma escape_char_printable (c : ascii) :
  all_chars printable (Memory.json_escape_char c) = true.
Proof. destruct c as [[] [] [] [] [] [] [] []]; reflexivity. Qed.

Lemma escape_printable (s : string) :
  all_chars printable (Memory.json_escape s) = true.
Proof.
  induction s as [|c s IH]; simpl; [reflexivity|].
  now rewrite all_chars_app, escape_char_printable, IH.
Qed.

Lemma json_str_printable (s : string) :
  all_chars printable (Memory.json_str s) = true.
Proof.
  unfold Memory.json_str. now rewrite !all_chars_app, escape_printable.
Qed.

Lemma json_list_printable (l : list string) :
  all_chars printable (Memory.json_list l) = true.
Proof.
  unfold Memory.json_list. rewrite !all_chars_app.
  assert (H : all_chars printable (Py.join ", " (map Memory.json_str l)) = true).
  { unfold Py.join. induction l as [|x l IH]; [reflexivity|].
    cbn [map String.concat]. destruct (map Memory.json_str l) eqn:E.
    - apply json_str_printable.
    - now rewrite !all_chars_app, json_str_printable, IH. }
  now rewrite H.
Qed.

Lemma all_chars_impl (p q : ascii -> bool) (s : string) :
  (forall c, p c = true -> q c = true) -> all_chars p s = true -> all_chars q s = true.
Proof.
  intros Hpq. induction s as [|c s IH]; simpl; [reflexivity|].
  intros H. apply andb_prop in H as [Hc Hs]. now rewrite (Hpq c Hc), IH.
Qed.

(** The output of [json.dumps] on a memory: printable characters
    between braces. *)
Lemma json_dumps_shape (m : Memory.Mem) :
  exists x, Memory.json_dumps m = String "{"%char (x +++ "}")
            /\ all_chars printable x = true.
Proof.
  exists (Memory.json_key "id" +++ Memory.json_str (Memory.mem_id m) +++ ", "
          +++ Memory.json_key "content" +++ Memory.json_str (Memory.mem_content m) +++ ", "
          +++ Memory.json_key "tags" +++ Memory.json_list (Memory.mem_tags m) +++ ", "
          +++ Memory.json_key "type" +++ Memory.json_str (Memory.mem_type m) +++ ", "
          +++ Memory.json_key "timestamp" +++ Memory.json_str (Memory.mem_timestamp m)).
  split.
  - unfold Memory.json_dumps. rewrite !append_assoc. reflexivity.
  - unfold Memory.json_key.
    now rewrite !all_chars_app, !json_str_printable, json_list_printable.
Qed.

Lemma text_lines_go_line (w : string) : forall cur s,
  all_chars Spec.no_line_end w = true ->
  Py.text_lines_go cur (w +++ Memory.nl +++ s)
  = (cur +++ w +++ Memory.nl) :: Py.text_lines_go EmptyString s.
Proof.
  induction w as [|c w IH]; intros cur s Hw.
  - reflexivity.
  - cbn [all_chars] in Hw. apply andb_prop in Hw as [Hc Hw].
    unfold Spec.no_line_end in Hc. apply andb_prop in Hc as [H10 H13].
    apply negb_true_iff in H10, H13.
    cbn [String.append Py.text_lines_go]. rewrite H10, H13, IH by assumption.
    now rewrite append_assoc.
Qed.

Lemma rstrip_nl (w : string) : Py.rstrip (w +++ Memory.nl) = Py.rstrip w.
Proof.
  induction w as [|c w IH]; [reflexivity|].
  cbn [String.append Py.rstrip]. now rewrite IH.
Qed.

Lemma lstrip_app (a b : string) :
  Py.lstrip (a +++ b)
  = if Py.is_empty (Py.lstrip a) then Py.lstrip b else Py.lstrip a +++ b.
Proof.
  induction a as [|c a IH]; [reflexivity|].
  cbn [String.append Py.lstrip]. destruct (Py.is_space c); [exact IH | reflexivity].
Qed.

Lemma strip_nl (w : string) : Py.strip (w +++ Memory.nl) = Py.strip w.
Proof.
  unfold Py.strip. rewrite lstrip_app.
  destruct (Py.lstrip w) eqn:E; cbn [Py.is_empty]; [reflexivity|].
  apply rstrip_nl.
Qed.

Lemma rstrip_ends (w : string) (c : ascii) :
  Py.is_space c = false ->
  Py.rstrip (w +++ String c EmptyString) = w +++ String c EmptyString.
Proof.
  intros Hc. induction w as [|a w IH].
  - cbn. now rewrite Hc.
  - cbn [String.append Py.rstrip]. rewrite IH. now destruct w.
Qed.

Lemma strip_json_dumps (m : Memory.Mem) :
  Py.strip (Memory.json_dumps m) = Memory.json_dumps m.
Proof.
  destruct (json_dumps_shape m) as (x & -> & _).
  unfold Py.strip. cbn [Py.lstrip]. change (Py.is_space "{"%char) with false. cbv iota.
  exact (rstrip_ends (String "{"%char x) "}"%char eq_refl).
Qed.

Lemma json_dumps_plain (m : Memory.Mem) :
  all_chars Spec.no_line_end (Memory.json_dumps m) = true.
Proof.
  destruct (json_dumps_shape m) as (x & -> & Hx).
  cbn [all_chars]. rewrite all_chars_app.
  now rewrite (all_chars_impl _ _ _ printable_plain Hx).
Qed.

(** The lines [_save] wrote load back, in order, before what follows
    them in the file. *)
Lemma load_lines_serialize (l : list Memory.Mem) : forall acc rest,
  Forall (fun m => json_loads (Memory.json_dumps m) = Some m) l ->
  Memory.load_lines json_loads (Py.text_lines (Memory.serialize l +++ rest)) acc
  = Memory.load_lines json_loads (Py.text_lines rest) (acc ++ l).
Proof.
  unfold Py.text_lines.
  induction l as [|m l IH]; intros acc rest H.
  - now rewrite app_nil_r.
  - inversion H as [|? ? Hm Hl]; subst.
    cbn [Memory.serialize]. rewrite !append_assoc.
    rewrite text_lines_go_line by apply json_dumps_plain.
    cbn [Memory.load_lines String.append].
    rewrite strip_nl, strip_json_dumps.
    destruct (json_dumps_shape m) as (x & Hx & _).
    rewrite Hx at 1. cbn [Py.is_empty]. rewrite Hm.
    rewrite IH by assumption. now rewrite <- app_assoc.
Qed.

(** X15.  What [_save] writes, [_load] reads back: when [json.loads]
    inverts [json.dumps] on the memories of the store, loading the file
    just saved gives the same list of memories, in the same order. *)
Theorem load_after_save (st : Memory.Store) :
  Forall (fun m => json_loads (Memory.json_dumps m) = Some m) (Memory.memories st) ->
  Memory._load json_loads (Memory._save st) = Memory._save st.
Proof.
  intros H. unfold Memory._load, Memory._save. cbn [Memory.disk Memory.memories].
  f_equal.
  rewrite <- (append_empty_r (Memory.serialize (Memory.memories st))).
  now rewrite load_lines_serialize.
Qed.

(** X16.  A blank or undecodable line does not stop the loading: the
    memories saved before and after it are all read, in order, and the
    line is skipped. *)
Theorem load_skips_damaged_line (l1 l2 : list Memory.Mem) (junk : string) (st : Memory.Store) :
  Forall (fun m => json_loads (Memory.json_dumps m) = Some m) (l1 ++ l2) ->
  all_chars Spec.no_line_end junk = true ->
  Py.is_empty (Py.strip junk) = true \/ json_loads (Py.strip junk) = None ->
  Memory.disk st
  = Some (Memory.serialize l1 +++ junk +++ Memory.nl +++ Memory.serialize l2) ->
  Memory.memories (Memory._load json_loads st) = l1 ++ l2.
Proof.
  intros H Hplain Hjunk Hdisk. apply Forall_app in H as [H1 H2].
  unfold Memory._load. rewrite Hdisk. cbn [Memory.memories].
  rewrite load_lines_serialize by assumption. cbn [app].
  unfold Py.text_lines. rewrite text_lines_go_line by assumption.
  cbn [Memory.load_lines String.append]. rewrite strip_nl.
  assert (Hskip : forall rest acc,
    (if Py.is_empty (Py.strip junk) then Memory.load_lines json_loads rest acc
     else match json_loads (Py.strip junk) with
          | Some m => Memory.load_lines json_loads rest (acc ++ [m])
          | None => Memory.load_lines json_loads rest acc
          end) = Memory.load_lines json_loads rest acc).
  { intros rest acc. destruct Hjunk as [-> | ->]; [reflexivity|].
    now destruct (Py.is_empty (Py.strip junk)). }
  rewrite Hskip.
  rewrite <- (append_empty_r (Memory.serialize l2)).
  fold (Py.text_lines (Memory.serialize l2 +++ EmptyString)).
  now rewrite load_lines_serialize.
Qed.

End Loading.

(* ===================================================================== *)
(** * The stream of the client *)
(* ===================================================================== *)

Section ClientStream.

(** X17.  A frame with [done] set ends the stream.  Its own message is
    not read, the lines after it are not read, and the generator
    returns: the result is the one of the same lines up to a bare done
    frame, however the transport would have ended. *)
Theorem done_frame_ends_the_stream
    (before after : list Llm.Line) (f : Llm.Frame) (closing : Agent.StreamEnd) :
  Llm.done f = true ->
  Llm.chat_stream (before ++ Llm.Parsed f :: after) closing
  = Llm.chat_stream
      (before ++ [Llm.Parsed {| Llm.done := true; Llm.tool_calls := []; Llm.content := EmptyString |}])
      Agent.Exhausted.
Proof.
  intros Hf. induction before as [|l before IH]; cbn [app Llm.chat_stream].
  - now rewrite Hf.
  - destruct l as [|calls e|g]; [exact IH | reflexivity |].
    destruct (Llm.done g); [reflexivity|]. now rewrite IH.
Qed.

(** X18.  The chunks of a stream are well formed: no text chunk is
    empty, and the done chunk comes at most once, as the last chunk of a
    stream that then ends normally. *)
Theorem stream_chunks_are_well_formed (lines : list Llm.Line) (closing : Agent.StreamEnd) :
  exists body,
    Forall (fun c => c <> Agent.Done /\ c <> Agent.Text EmptyString) body
    /\ (fst (Llm.chat_stream lines closing) = body
        \/ (Llm.chat_stream lines closing = (body ++ [Agent.Done], Agent.Exhausted))).
Proof.
  induction lines as [|l lines IH]; cbn [Llm.chat_stream].
  - exists []. split; [constructor | now left].
  - destruct l as [|calls e|f]; [exact IH | |].
    + exists (map Agent.ToolCallChunk calls). split; [|now left].
      apply Forall_forall. intros c Hc. apply in_map_iff in Hc as (tc & <- & _).
      split; discriminate.
    + destruct (Llm.done f).
      * exists []. split; [constructor | now right].
      * destruct IH as (body & Hbody & Hcase).
        destruct (Llm.chat_stream lines closing) as [more ending].
        exists (Llm.frame_chunks f ++ body). split.
        -- apply Forall_app. split; [|exact Hbody].
           unfold Llm.frame_chunks. apply Forall_app. split.
           ++ apply Forall_forall. intros c Hc. apply in_map_iff in Hc as (tc & <- & _).
              split; discriminate.
           ++ destruct (Llm.content f) eqn:E; cbn [Py.is_empty]; repeat constructor;
                discriminate.
        -- cbn [fst] in *. destruct Hcase as [-> | Hc]; [now left | right].
           injection Hc as -> ->. now rewrite app_assoc.
Qed.

End ClientStream.

(* ===================================================================== *)
(** * The file tools and the command output *)
(* ===================================================================== *)

Section FileTools.

Variable expanduser : string -> string.

Lemma prefix_split (p s : string) :
  String.prefix p s = true -> s = p +++ Py.drop (String.length p) s.
Proof.
  revert s. induction p as [|c p IH]; intros s H; [reflexivity|].
  destruct s as [|x s]; [discriminate|]. simpl in H.
  destruct (ascii_dec c x) as [->|]; [|discriminate].
  cbn [String.length Py.drop String.append]. now rewrite <- IH.
Qed.

Lemma find_split (sep : string) : forall s i,
  Py.find sep s = Some i ->
  s = Py.take i s +++ sep +++ Py.drop (i + String.length sep) s.
Proof.
  induction s as [|c s IH]; intros i H.
  - cbn [Py.find] in H. destruct (String.prefix sep EmptyString) eqn:Hp; [|discriminate].
    injection H as <-. now apply prefix_split.
  - cbn [Py.find] in H. destruct (String.prefix sep (String c s)) eqn:Hp.
    + injection H as <-. now apply prefix_split.
    + destruct (Py.find sep s) as [j|] eqn:Hj; [|discriminate].
      injection H as <-. cbn [Py.take Nat.add Py.drop String.append].
      now rewrite <- (IH j eq_refl).
Qed.

Lemma count_go_none (sub : string) : forall s,
  Py.find sub s = None -> Py.count_go sub 0 s = 0%nat.
Proof.
  induction s as [|c s IH]; intros H; [reflexivity|].
  apply find_none_tail in H as [Hp Hs].
  cbn [Py.count_go]. rewrite Hp. now apply IH.
Qed.

Lemma count_none (s sub : string) :
  Py.find sub s = None -> Py.count s sub = 0%nat.
Proof.
  intros H. unfold Py.count. destruct sub as [|c sub]; cbn [Py.is_empty].
  - destruct s; cbn [Py.find String.prefix] in H; discriminate.
  - now apply count_go_none.
Qed.

(** X19.  [edit_file] changes a file only when [old_text] occurs in it
    exactly once: then that occurrence is replaced by [new_text] and the
    rest of the content is kept.  In every other case no file changes:
    when the path names no file, when [old_text] does not occur, and
    also when it occurs several times, although the message then says
    that all occurrences are replaced.  No other path is ever written. *)
Theorem edit_file_replaces_single_occurrence (fs : Tools.Fs) (path old_text new_text : string) :
  let p := expanduser path in
  let fs' := snd (Tools.edit_file expanduser fs path old_text new_text) in
  (forall q, q <> p -> fs' q = fs q)
  /\ match fs p with
     | None => fs' = fs
     | Some raw =>
         if Nat.eqb (Py.count (Py.read_text raw) old_text) 1 then
           exists before after,
             Py.read_text raw = before +++ old_text +++ after
             /\ fs' p = Some (before +++ new_text +++ after)
         else fs' = fs
     end.
Proof.
  intros p fs'. subst fs'. unfold Tools.edit_file. fold p.
  destruct (fs p) as [raw|] eqn:Hp; [|split; reflexivity].
  set (content := Py.read_text raw).
  destruct (Py.count content old_text) as [|[|n]] eqn:Hc; cbn [Nat.eqb Nat.ltb Nat.leb snd].
  - split; reflexivity.
  - split.
    + intros q Hq. unfold Tools.fs_write.
      destruct (String.eqb_spec q p); [contradiction | reflexivity].
    + unfold Py.replace_first.
      destruct (Py.find old_text content) as [i|] eqn:Hf.
      * exists (Py.take i content), (Py.drop (i + String.length old_text) content).
        split; [now apply find_split|].
        unfold Tools.fs_write. now rewrite String.eqb_refl.
      * apply count_none in Hf. congruence.
  - split; reflexivity.
Qed.

Lemma length_append (a b : string) :
  String.length (a +++ b) = (String.length a + String.length b)%nat.
Proof. induction a as [|c a IH]; simpl; [reflexivity | now rewrite IH]. Qed.

Lemma length_take (n : nat) : forall s, (String.length (Py.take n s) <= n)%nat.
Proof.
  induction n as [|n IH]; intros s; [simpl; lia|].
  destruct s as [|c s]; simpl; [lia|]. specialize (IH s). lia.
Qed.

Lemma length_drop (n : nat) : forall s,
  String.length (Py.drop n s) = (String.length s - n)%nat.
Proof.
  induction n as [|n IH]; intros s; [simpl; lia|].
  destruct s as [|c s]; simpl; [reflexivity | apply IH].
Qed.

(** X20.  The output reported for a command that finished is never
    longer than 10000 characters, whatever the command printed. *)
Theorem command_output_is_bounded (stdout stderr : string) (returncode : Z) :
  (Z.of_nat (String.length (Tools.command_output (Tools.Finished stdout stderr returncode)))
   <= 10000)%Z.
Proof.
  unfold Tools.command_output.
  match goal with
  | |- context [Z.ltb 10000 (Z.of_nat (String.length ?o))] => set (output := o)
  end.
  destruct (Z.ltb_spec 10000 (Z.of_nat (String.length output))) as [Hlong|Hshort];
    [|exact Hshort].
  rewrite !length_append. unfold Py.last_chars. rewrite length_drop.
  pose proof (length_take (Z.to_nat 5000) output) as Ht.
  change (String.length Memory.nl) with 1%nat.
  change (String.length "... (truncated) ...") with 19%nat.
  lia.
Qed.

Lemma endswith_nl_cons (c d : ascii) (s : string) :
  Py.endswith (String c (String d s)) Memory.nl = Py.endswith (String d s) Memory.nl.
Proof.
  unfold Py.endswith, Memory.nl. cbn [String.length Nat.leb Nat.sub andb].
  rewrite Nat.sub_0_r. reflexivity.
Qed.

Lemma code_10 (c : ascii) : Py.code c = 10%nat -> c = ascii_of_nat 10.
Proof. intros E. unfold Py.code in E. now rewrite <- (ascii_nat_embedding c), E. Qed.

Lemma all_chars_cons (p : ascii -> bool) (c : ascii) (s : string) :
  all_chars p (String c s) = true -> p c = true /\ all_chars p s = true.
Proof. intros H. now apply andb_prop in H. Qed.

Lemma text_lines_go_plain (cur : string) (c : ascii) (s : string) :
  Nat.eqb (Py.code c) 13 = false ->
  Py.text_lines_go cur (String c s)
  = if Nat.eqb (Py.code c) 10
    then (cur +++ String c EmptyString) :: Py.text_lines_go EmptyString s
    else Py.text_lines_go (cur +++ String c EmptyString) s.
Proof. intros H. cbn [Py.text_lines_go]. now rewrite H. Qed.

Lemma count_go_nl (c : ascii) (s : string) :
  Py.count_go Memory.nl 0 (String c s)
  = if Nat.eqb (Py.code c) 10 then S (Py.count_go Memory.nl 0 s)
    else Py.count_go Memory.nl 0 s.
Proof.
  unfold Memory.nl. cbn [Py.count_go String.prefix String.length Nat.sub].
  destruct (Nat.eqb_spec (Py.code c) 10) as [E|E].
  - apply code_10 in E. subst c.
    destruct (ascii_dec (ascii_of_nat 10) (ascii_of_nat 10)); [|contradiction].
    now destruct s.
  - destruct (ascii_dec (ascii_of_nat 10) c) as [<-|Hne]; [now contradiction E|].
    reflexivity.
Qed.

Lemma text_lines_count (s : string) : forall cur c,
  all_chars (fun c => negb (Nat.eqb (Py.code c) 13)) (String c s) = true ->
  List.length (Py.text_lines_go cur (String c s))
  = (Py.count_go Memory.nl 0 (String c s)
     + (if Py.endswith (String c s) Memory.nl then 0 else 1))%nat.
Proof.
  induction s as [|d s IH]; intros cur c H;
    apply all_chars_cons in H as [H13 Hs]; apply negb_true_iff in H13;
    rewrite text_lines_go_plain, count_go_nl by assumption.
  - unfold Py.endswith, Memory.nl.
    cbn [Py.text_lines_go Py.count_go String.length Nat.leb Nat.sub Py.drop andb String.eqb].
    destruct (Nat.eqb_spec (Py.code c) 10) as [E|E].
    + apply code_10 in E. subst c. reflexivity.
    + destruct (Ascii.eqb_spec c (ascii_of_nat 10)) as [->|]; [now contradiction E|].
      cbn [Py.flush]. now destruct cur.
  - rewrite endswith_nl_cons.
    destruct (Nat.eqb (Py.code c) 10); cbn [List.length]; now rewrite (IH _ d Hs).
Qed.

Lemma text_lines_go_cons (s : string) : forall cur c,
  all_chars (fun c => negb (Nat.eqb (Py.code c) 13)) (String c s) = true ->
  Py.text_lines_go cur (String c s) <> [].
Proof.
  induction s as [|d s IH]; intros cur c H;
    apply all_chars_cons in H as [H13 Hs]; apply negb_true_iff in H13;
    rewrite text_lines_go_plain by assumption;
    destruct (Nat.eqb (Py.code c) 10); try discriminate.
  - cbn. now destruct cur.
  - now apply IH.
Qed.

(** X21.  [write_file] reports the number of lines that reading the
    file back gives, for a content without carriage return; for the
    empty content it reports one line although the file has none. *)
Theorem write_file_reports_lines (fs : Tools.Fs) (path content : string) :
  all_chars (fun c => negb (Nat.eqb (Py.code c) 13)) content = true ->
  Tools.write_file expanduser fs path content
  = ("Wrote " +++ Py.str_nat (Nat.max 1 (List.length (Py.text_lines content)))
     +++ " lines to " +++ expanduser path,
     Tools.fs_write fs (expanduser path) content).
Proof.
  intros H. unfold Tools.write_file. f_equal. f_equal. f_equal. f_equal.
  destruct content as [|c s]; [reflexivity|].
  unfold Py.text_lines, Py.count. change (Py.is_empty Memory.nl) with false. cbv iota.
  rewrite <- (text_lines_count s EmptyString c H).
  pose proof (text_lines_go_cons s EmptyString c H) as Hne.
  destruct (Py.text_lines_go EmptyString (String c s)); [contradiction|].
  cbn [List.length]. lia.
Qed.

End FileTools.

(* ===================================================================== *)
(** * The slash commands *)
(* ===================================================================== *)

Section SlashCommands.

Variable fo : Memory.FloatOps.
Variable wrap : string -> list string.

Let handle_command := Main.handle_command fo wrap.

Lemma lstrip_blank (s : string) :
  all_chars Py.is_space s = true -> Py.lstrip s = EmptyString.
Proof.
  induction s as [|c s IH]; [reflexivity|].
  intros H. apply andb_prop in H as [Hc Hs]. cbn [Py.lstrip]. rewrite Hc. now apply IH.
Qed.

Lemma lstrip_head (s : string) :
  all_chars Py.is_space s = false ->
  exists a t, Py.lstrip s = String a t /\ Py.is_space a = false.
Proof.
  induction s as [|c s IH]; [discriminate|].
  cbn [all_chars Py.lstrip]. destruct (Py.is_space c) eqn:Hc.
  - exact IH.
  - intros _. now exists c, s.
Qed.

Lemma rstrip_head (a : ascii) (t : string) :
  Py.is_space a = false -> exists r, Py.rstrip (String a t) = String a r.
Proof.
  intros Ha. cbn [Py.rstrip]. destruct (Py.rstrip t) as [|x r].
  - rewrite Ha. now exists EmptyString.
  - now exists (String x r).
Qed.

Lemma split_max1_nil (s : string) :
  Py.split_max1 s = [] <-> Py.lstrip s = EmptyString.
Proof.
  unfold Py.split_max1. destruct (Py.lstrip s) as [|c t]; [tauto|].
  destruct (Py.span_word (String c t)) as [w rest].
  destruct (Py.lstrip rest); split; discriminate.
Qed.

Lemma no_word_iff_blank (command : string) :
  Py.split_max1 (Py.strip command) = [] <-> all_chars Py.is_space command = true.
Proof.
  rewrite split_max1_nil. unfold Py.strip. split.
  - intros H. destruct (all_chars Py.is_space command) eqn:E; [reflexivity|].
    apply lstrip_head in E as (a & t & Hl & Ha).
    destruct (rstrip_head a t Ha) as [r Hr]. rewrite Hl, Hr in H.
    cbn [Py.lstrip] in H. rewrite Ha in H. discriminate.
  - intros H. now rewrite (lstrip_blank _ H).
Qed.

Ltac split_ifs :=
  repeat match goal with
         | |- context [if ?b then _ else _] => destruct b
         end.

(** X22.  [handle_command] raises [IndexError] exactly on a command
    made of whitespace only (the empty command included); on every other
    command it returns. *)
Theorem handle_command_raises_on_blank (command : string) (s : Main.Session) :
  handle_command command s = Main.RaisesIndexError
  <-> all_chars Py.is_space command = true.
Proof.
  rewrite <- no_word_iff_blank. unfold handle_command, Main.handle_command.
  destruct (Py.split_max1 (Py.strip command)) as [|first more].
  - tauto.
  - cbv zeta. split; [|discriminate].
    split_ifs; discriminate.
Qed.

Lemma add_line_memory_count (u : Ui.State) text color :
  Ui.memory_count (Ui.add_line wrap u text color) = Ui.memory_count u.
Proof. reflexivity. Qed.

Lemma show_memories_memory_count (l : list Memory.Mem) : forall u,
  Ui.memory_count (Ui.show_memories wrap u l) = Ui.memory_count u.
Proof.
  unfold Ui.show_memories. destruct l as [|m0 l0]; [reflexivity|].
  generalize (m0 :: l0). clear. intros l.
  induction l as [|m l IH]; intros u; [reflexivity|].
  cbn [fold_left]. now rewrite IH.
Qed.

Lemma show_help_memory_count (u : Ui.State) :
  Ui.memory_count (Ui.show_help wrap u) = Ui.memory_count u.
Proof. reflexivity. Qed.

(** What [/memory] leaves alone, and what it changes. *)
Lemma memory_command_effect (arg : string) (s : Main.Session) :
  let s' := Main.memory_command fo wrap arg s in
  Agent.history (Main.agent s') = Agent.history (Main.agent s)
  /\ Agent.planning (Main.agent s') = Agent.planning (Main.agent s)
  /\ Agent.max_tool_rounds (Main.agent s') = Agent.max_tool_rounds (Main.agent s)
  /\ Agent.trace (Main.agent s') = Agent.trace (Main.agent s)
  /\ Main.client_model s' = Main.client_model s
  /\ Main.ui_model s' = Main.ui_model s
  /\ Main.ui_mode s' = Main.ui_mode s
  /\ ((Agent.memory (Main.agent s') = Agent.memory (Main.agent s)
       /\ Ui.memory_count (Agent.ui (Main.agent s'))
          = Ui.memory_count (Agent.ui (Main.agent s)))
      \/ (exists id,
            Py.is_empty id = false
            /\ Memory.delete (Agent.memory (Main.agent s)) id
               = (true, Agent.memory (Main.agent s'))
            /\ Ui.memory_count (Agent.ui (Main.agent s'))
               = Memory.count (Agent.memory (Main.agent s')))).
Proof.
  unfold Main.memory_command. cbv zeta.
  set (sub_cmd := match Py.split_max1 arg with c :: _ => c | [] => _ end).
  set (sub_arg := match Py.split_max1 arg with _ :: a :: _ => a | _ => _ end).
  destruct (String.eqb sub_cmd "list").
  { repeat split. left. split; [reflexivity|]. apply show_memories_memory_count. }
  destruct (String.eqb sub_cmd "search" && negb (Py.is_empty sub_arg)).
  { repeat split. left. split; [reflexivity|]. apply show_memories_memory_count. }
  destruct (String.eqb sub_cmd "forget" && negb (Py.is_empty sub_arg)) eqn:Hforget.
  - destruct (Memory.delete (Agent.memory (Main.agent s)) sub_arg) as [[|] st] eqn:Hd.
    + repeat split. right. exists sub_arg. repeat split; [|exact Hd].
      apply andb_prop in Hforget as [_ H]. now apply negb_true_iff in H.
    + repeat split. now left.
  - repeat split. now left.
Qed.

(** X23.  A slash command leaves the conversation and the store alone,
    two cases apart: the history is kept, or emptied (by [/clear]); the
    memory store is kept, or is the result of a [delete] that returned
    true for a non-empty id (by [/memory forget]).  The round limit and
    the record of the interactions never change. *)
Theorem commands_keep_conversation_and_store
    (command : string) (s s' : Main.Session) :
  handle_command command s = Main.Continue s' ->
  (Agent.history (Main.agent s') = Agent.history (Main.agent s)
   \/ Agent.history (Main.agent s') = [])
  /\ (Agent.memory (Main.agent s') = Agent.memory (Main.agent s)
      \/ exists id,
           Py.is_empty id = false
           /\ Memory.delete (Agent.memory (Main.agent s)) id
              = (true, Agent.memory (Main.agent s')))
  /\ Agent.max_tool_rounds (Main.agent s') = Agent.max_tool_rounds (Main.agent s)
  /\ Agent.trace (Main.agent s') = Agent.trace (Main.agent s).
Proof.
  unfold handle_command, Main.handle_command.
  destruct (Py.split_max1 (Py.strip command)) as [|first more]; [discriminate|].
  cbv zeta.
  set (cmd := Py.lower first). set (arg := match more with a :: _ => a | [] => _ end).
  destruct (String.eqb cmd "/quit" || String.eqb cmd "/exit"); [discriminate|].
  destruct (String.eqb cmd "/clear").
  { intros H. injection H as <-. repeat split; [now right | now left]. }
  destruct (String.eqb cmd "/plan").
  { intros H. injection H as <-. repeat split; now left. }
  destruct (String.eqb cmd "/model").
  { destruct (negb (Py.is_empty arg)); intros H; injection H as <-;
      repeat split; now left. }
  destruct (String.eqb cmd "/memory").
  { intros H. injection H as <-.
    destruct (memory_command_effect arg s) as (Hh & _ & Hm & Ht & _ & _ & _ & Hst).
    repeat split; [now left | | exact Hm | exact Ht].
    destruct Hst as [[Hst _] | (id & Hid & Hd & _)]; [now left | right].
    now exists id. }
  destruct (String.eqb cmd "/help"); intros H; injection H as <-; repeat split; now left.
Qed.

(** X24.  The status line stays in step with what it reports.  Each of
    these, when it holds before a slash command, holds after it: the
    model shown is the model of the client; the mode shown is the one of
    the planning flag; the count shown is the number of memories of the
    store. *)
Theorem commands_keep_status_in_step (command : string) (s s' : Main.Session) :
  handle_command command s = Main.Continue s' ->
  (Main.ui_model s = Main.client_model s -> Main.ui_model s' = Main.client_model s')
  /\ (Main.ui_mode s = (if Agent.planning (Main.agent s) then "planning" else "direct") ->
      Main.ui_mode s' = (if Agent.planning (Main.agent s') then "planning" else "direct"))
  /\ (Ui.memory_count (Agent.ui (Main.agent s)) = Memory.count (Agent.memory (Main.agent s)) ->
      Ui.memory_count (Agent.ui (Main.agent s'))
      = Memory.count (Agent.memory (Main.agent s'))).
Proof.
  unfold handle_command, Main.handle_command.
  destruct (Py.split_max1 (Py.strip command)) as [|first more]; [discriminate|].
  cbv zeta.
  set (cmd := Py.lower first). set (arg := match more with a :: _ => a | [] => _ end).
  destruct (String.eqb cmd "/quit" || String.eqb cmd "/exit"); [discriminate|].
  destruct (String.eqb cmd "/clear").
  { intros H. injection H as <-. repeat split; intros Hs; exact Hs. }
  destruct (String.eqb cmd "/plan").
  { intros H. injection H as <-. repeat split; intros Hs; first [exact Hs | reflexivity]. }
  destruct (String.eqb cmd "/model").
  { destruct (negb (Py.is_empty arg)); intros H; injection H as <-;
      repeat split; intros Hs; first [exact Hs | reflexivity]. }
  destruct (String.eqb cmd "/memory").
  { intros H. injection H as <-.
    destruct (memory_command_effect arg s) as (_ & Hp & _ & _ & Hc & Hu & Hmode & Hst).
    repeat split; intros Hs.
    - now rewrite Hu, Hc.
    - now rewrite Hmode, Hp.
    - destruct Hst as [[-> ->] | (id & _ & _ & Hcount)]; [exact Hs | exact Hcount]. }
  destruct (String.eqb cmd "/help"); intros H; injection H as <-;
    repeat split; intros Hs; exact Hs.
Qed.

End SlashCommands.

(* ===================================================================== *)
(** * Instances *)
(* ===================================================================== *)

Lemma reply_without_reasoning_witness :
  let read := {| Agent.name := "read_file"; Agent.arguments := [("path", "a.txt")] |} in
  let chunks := [Agent.Text "Hello "; Agent.ToolCallChunk read; Agent.Text "world "] in
  let u' := fst (fst (Agent.consume Concrete.wrap chunks (Ui.stream_start Ui.init)
                        EmptyString [])) in
  Ui._stream_buf u' = "Hello world "
  /\ Ui.lines u' = [(Ui.C_AGENT, "Hello world ")]
  /\ Agent.clean "Hello world " = "Hello world".
Proof.
  intros read chunks u'.
  pose proof (reply_without_reasoning_is_whole Concrete.wrap chunks Ui.init eq_refl) as P.
  cbv zeta in P. destruct P as (_ & Hb & Hl & Hc).
  split; [exact Hb|]. split; [exact Hl | exact Hc].
Defined.

Lemma unclosed_reasoning_witness :
  Agent.clean " a<think>b" = "a<think>b".
Proof.
  exact (unclosed_reasoning_is_recorded " a<think>b" eq_refl).
Defined.

Lemma load_after_save_witness :
  let l := [Concrete.mk "01" "alpha beta" ["x"; "y"]; Concrete.mk "02" "gamma" []] in
  Memory.memories (Memory._load (Concrete.json_loads l) (Concrete.store_of l)) = l.
Proof.
  intros l.
  pose proof (load_after_save (Concrete.json_loads l)
                {| Memory.memories := l; Memory.disk := None |}) as P.
  unfold Memory._save in P. cbn [Memory.memories] in P.
  unfold Concrete.store_of. rewrite P; [reflexivity|].
  repeat constructor.
Defined.

Lemma load_skips_damaged_line_witness :
  let m1 := Concrete.mk "01" "alpha" [] in
  let m2 := Concrete.mk "02" "beta" ["x"] in
  let st := {| Memory.memories := [];
               Memory.disk := Some (Memory.serialize [m1] +++ "{broken" +++ Memory.nl
                                    +++ Memory.serialize [m2]) |} in
  Memory.memories (Memory._load (Concrete.json_loads [m1; m2]) st) = [m1; m2].
Proof.
  intros m1 m2 st.
  apply (load_skips_damaged_line (Concrete.json_loads [m1; m2]) [m1] [m2] "{broken" st).
  - repeat constructor.
  - reflexivity.
  - right. reflexivity.
  - reflexivity.
Defined.

Lemma done_frame_witness :
  let call := {| Agent.name := "read_file"; Agent.arguments := [("path", "a.txt")] |} in
  let hello := {| Llm.done := false; Llm.tool_calls := []; Llm.content := "Hello" |} in
  let last := {| Llm.done := true; Llm.tool_calls := [call]; Llm.content := "bye" |} in
  Llm.chat_stream [Llm.Parsed hello; Llm.Blank; Llm.Parsed last; Llm.Raising [] "late"]
    (Agent.RaisedException "closed")
  = ([Agent.Text "Hello"; Agent.Done], Agent.Exhausted).
Proof.
  intros call hello last.
  exact (done_frame_ends_the_stream [Llm.Parsed hello; Llm.Blank] [Llm.Raising [] "late"]
           last (Agent.RaisedException "closed") eq_refl).
Defined.

Lemma write_file_reports_lines_witness :
  fst (Tools.write_file Concrete.expanduser (fun _ => None) "a.txt"
         ("one" +++ Memory.nl +++ "two"))
  = "Wrote 2 lines to a.txt"
  /\ fst (Tools.write_file Concrete.expanduser (fun _ => None) "a.txt" EmptyString)
     = "Wrote 1 lines to a.txt"
  /\ Py.text_lines EmptyString = [].
Proof.
  split; [|split; [|reflexivity]].
  - rewrite (write_file_reports_lines Concrete.expanduser (fun _ => None) "a.txt"
               ("one" +++ Memory.nl +++ "two") eq_refl).
    reflexivity.
  - rewrite (write_file_reports_lines Concrete.expanduser (fun _ => None) "a.txt"
               EmptyString eq_refl).
    reflexivity.
Defined.

Lemma commands_keep_conversation_and_store_witness :
  let s := Concrete.session [Concrete.mk "01" "alpha" []; Concrete.mk "02" "beta" []] in
  exists s',
    Main.handle_command Concrete.milli Concrete.wrap "/memory forget 02" s = Main.Continue s'
    /\ Agent.history (Main.agent s') = Agent.history (Main.agent s)
    /\ Memory.memories (Agent.memory (Main.agent s')) = [Concrete.mk "01" "alpha" []]
    /\ Agent.trace (Main.agent s') = Agent.trace (Main.agent s).
Proof.
  intros s. eexists. split; [vm_compute; reflexivity|].
  destruct (commands_keep_conversation_and_store Concrete.milli Concrete.wrap
              "/memory forget 02" s _ eq_refl) as (_ & _ & _ & Ht).
  split; [reflexivity|]. split; [reflexivity | exact Ht].
Defined.

Lemma commands_keep_status_in_step_witness :
  let s := Concrete.session [Concrete.mk "01" "alpha" []; Concrete.mk "02" "beta" []] in
  exists s',
    Main.handle_command Concrete.milli Concrete.wrap "/memory forget 02" s = Main.Continue s'
    /\ Main.ui_model s' = Main.client_model s'
    /\ Ui.memory_count (Agent.ui (Main.agent s')) = 1%Z
    /\ Memory.count (Agent.memory (Main.agent s')) = 1%Z.
Proof.
  intros s. eexists. split; [vm_compute; reflexivity|].
  destruct (commands_keep_status_in_step Concrete.milli Concrete.wrap
              "/memory forget 02" s _ eq_refl) as (Hmodel & _ & Hcount).
  split; [exact (Hmodel eq_refl)|].
  split; [exact (eq_trans (Hcount eq_refl) eq_refl) | reflexivity].
Defined.

(* ===================================================================== *)
(** * The memory count of the status line *)
(* ===================================================================== *)

Section MemoryCount.

Variable fo : Memory.FloatOps.
Variable World : Type.
Variable chat_stream : list Agent.Msg -> World -> (list Agent.Chunk * Agent.StreamEnd) * World.
Variable approval_answer : string -> World -> bool * World.
Variable question_answer : string -> World -> string * World.
Variable execute_tool : string -> list (string * string) -> World -> string * World.
Variable fresh : World -> (string * string) * World.
Variable py_repr : string -> string.
Variable wrap : string -> list string.

Let run := Agent.run fo World chat_stream approval_answer question_answer
             execute_tool fresh py_repr wrap.
Let run_rounds := Agent.run_rounds fo World chat_stream approval_answer question_answer
                    execute_tool fresh py_repr wrap.
Let dispatch := Agent.dispatch fo World approval_answer question_answer
                  execute_tool fresh py_repr wrap.
Let execute_call := Agent._execute_tool_call fo World approval_answer question_answer
                      execute_tool fresh py_repr wrap.

(** The count shown is the number of memories of the store. *)
Let counted (a : Agent.State) : Prop :=
  Ui.memory_count (Agent.ui a) = Memory.count (Agent.memory a).

Lemma stream_token_memory_count (u : Ui.State) (token : string) :
  Ui.memory_count (Ui.stream_token wrap u token) = Ui.memory_count u.
Proof.
  unfold Ui.stream_token.
  destruct (Py.contains "<think>" (Ui._stream_buf u +++ token) && negb (Ui._thinking u)).
  - now destruct (Py.partition "<think>" (Ui._stream_buf u +++ token)) as [[? ?] ?].
  - destruct (Ui._thinking u); [|reflexivity].
    destruct (Py.contains "</think>" (Ui._think_buf u +++ token)); [|reflexivity].
    now destruct (Py.partition "</think>" (Ui._think_buf u +++ token)) as [[? ?] ?].
Qed.

Lemma consume_memory_count (chunks : list Agent.Chunk) : forall u text calls,
  Ui.memory_count (fst (fst (Agent.consume wrap chunks u text calls))) = Ui.memory_count u.
Proof.
  induction chunks as [|c chunks IH]; intros u text calls; [reflexivity|].
  destruct c as [data|data|]; cbn [Agent.consume]; rewrite IH; [|reflexivity|reflexivity].
  apply stream_token_memory_count.
Qed.

Lemma show_tool_call_memory_count (u : Ui.State) name (args : list (string * string)) :
  Ui.memory_count (Ui.show_tool_call wrap u name args) = Ui.memory_count u.
Proof.
  unfold Ui.show_tool_call.
  set (u0 := Ui.add_line wrap (Ui.add_blank u) _ Ui.C_TOOL).
  change (Ui.memory_count u) with (Ui.memory_count u0). clearbody u0.
  revert u0. induction args as [|kv args IH]; intros u0; [reflexivity|].
  cbn [fold_left]. now rewrite IH.
Qed.

Lemma execute_call_counted name arguments a w r a' w' :
  counted a -> execute_call name arguments a w = Some (r, a', w') -> counted a'.
Proof.
  unfold counted, execute_call, Agent._execute_tool_call. intros Ha.
  destruct (String.eqb name "ask_user").
  { unfold Agent.get_question_response.
    destruct (question_answer (Agent.get_arg arguments "question") w) as [answer w1].
    intros E. injection E as <- <- <-. exact Ha. }
  destruct (String.eqb name "remember").
  { destruct (Memory.add World fresh _ _ "project" (Agent.memory a) w) as [[[mem st] w1]|];
      [|discriminate].
    destruct mem; intros E; injection E as <- <- <-; reflexivity. }
  destruct (String.eqb name "recall").
  { destruct (Memory.search fo (Agent.memory a) (Agent.get_arg arguments "query") 5);
      intros E; injection E as <- <- <-; exact Ha. }
  destruct (String.eqb name "task_complete").
  { destruct (Memory.add World fresh _ [] "task" (Agent.memory a) w) as [[[mem st] w1]|];
      [|discriminate].
    intros E. injection E as <- <- <-. reflexivity. }
  cbv zeta. unfold Agent.get_approval.
  destruct (existsb (String.eqb name) Agent.APPROVAL_REQUIRED).
  - destruct (approval_answer (Agent.approval_desc py_repr name arguments) w) as [ok w1].
    destruct ok.
    + destruct (execute_tool name arguments w1) as [result w2].
      intros E. injection E as <- <- <-. exact Ha.
    + intros E. injection E as <- <- <-. exact Ha.
  - destruct (execute_tool name arguments w) as [result w2].
    intros E. injection E as <- <- <-. exact Ha.
Qed.

Lemma dispatch_counted (tcs : list Agent.ToolCall) : forall a w b a' w',
  counted a -> dispatch tcs a w = Some (b, a', w') -> counted a'.
Proof.
  unfold dispatch.
  induction tcs as [|tc tcs IH]; intros a w b a' w' Ha; cbn [Agent.dispatch].
  - intros E. now injection E as <- <- <-.
  - match goal with |- context [Agent._execute_tool_call _ _ _ _ _ _ _ _ _ _ ?x w] =>
      set (a0 := x);
      assert (H0 : counted a0)
        by (unfold counted; subst a0; cbn [Agent.ui Agent.set_ui Agent.memory Agent.log];
            rewrite show_tool_call_memory_count; exact Ha)
    end.
    clearbody a0.
    destruct (Agent._execute_tool_call fo World approval_answer question_answer execute_tool
                fresh py_repr wrap (Agent.name tc) (Agent.arguments tc) a0 w)
      as [[[r a1] w1]|] eqn:Hcall; [|discriminate].
    pose proof (execute_call_counted _ _ _ _ _ _ _ H0 Hcall) as H1.
    destruct r as [result|].
    + destruct (String.eqb (Agent.name tc) "task_complete").
      * intros E. injection E as <- <- <-. exact H1.
      * apply IH. exact H1.
    + apply IH. exact H1.
Qed.

Lemma run_rounds_counted user_input : forall n a w o a2 w2,
  counted a -> run_rounds n user_input a w = Some (o, a2, w2) -> counted a2.
Proof.
  unfold run_rounds.
  induction n as [|n IH]; intros a w o a2 w2 Ha; cbn [Agent.run_rounds].
  - intros E. injection E as <- <- <-. exact Ha.
  - match goal with |- context [chat_stream ?m w] => set (messages := m) end.
    destruct (chat_stream messages w) as [[chunks ending] w1].
    match goal with |- context [Agent.consume wrap chunks ?u ?t ?c] =>
      pose proof (consume_memory_count chunks u t c) as Hc;
      destruct (Agent.consume wrap chunks u t c) as [[u' text] calls]
    end.
    cbn [fst Agent.ui Agent.log Agent.set_ui Ui.stream_start Ui.memory_count] in Hc.
    destruct ending as [| |e].
    + match goal with |- context [if ?c then Agent.append_history ?y ?m else _] =>
        set (x := if c then Agent.append_history y m else y);
        assert (Hx : counted x)
          by (unfold counted; subst x; destruct c;
              cbn [Agent.ui Agent.memory Agent.append_history Agent.set_history Agent.set_ui
                   Agent.log Ui.stream_end Ui.set_stream Ui.memory_count];
              rewrite Hc; exact Ha)
      end.
      clearbody x.
      destruct calls as [|tc tcs].
      * intros E. injection E as <- <- <-. exact Hx.
      * destruct (Agent.dispatch fo World approval_answer question_answer execute_tool fresh
                    py_repr wrap (tc :: tcs) x w1) as [[[b a'] w']|] eqn:Hd; [|discriminate].
        pose proof (dispatch_counted _ _ _ _ _ _ Hx Hd) as H'.
        destruct b.
        -- intros E. injection E as <- <- <-. exact H'.
        -- apply IH. exact H'.
    + intros E. injection E as <- <- <-. unfold counted.
      cbn [Agent.ui Agent.memory Agent.set_ui Agent.log Ui.stream_end Ui.set_stream
           Ui.memory_count].
      rewrite Hc. exact Ha.
    + intros E. injection E as <- <- <-. unfold counted.
      cbn [Agent.ui Agent.memory Agent.set_ui Agent.log Ui.stream_end Ui.set_stream
           Ui.memory_count Ui.show_error Ui.add_line Ui.set_lines].
      rewrite Hc. exact Ha.
Qed.

(** X25.  [run] keeps the count of the status line in step with the
    store: when the count shown is the number of memories before a user
    turn, it is so when [run] returns, whatever was remembered or saved
    by the tool calls of the turn. *)
Theorem run_keeps_memory_count user_input a w :
  Ui.memory_count (Agent.ui a) = Memory.count (Agent.memory a) ->
  exists o a2 w2,
    run user_input a w = Some (o, a2, w2)
    /\ Ui.memory_count (Agent.ui a2) = Memory.count (Agent.memory a2).
Proof.
  intros Ha. unfold run, Agent.run.
  set (a1 := Agent.append_history a _).
  destruct (run_rounds_returns fo World chat_stream approval_answer question_answer
              execute_tool fresh py_repr wrap user_input
              (Z.to_nat (Agent.max_tool_rounds a1)) a1 w)
    as (o & a2 & w2 & added & Hrun & _).
  rewrite Hrun. exists o, a2, w2. split; [reflexivity|].
  exact (run_rounds_counted user_input _ a1 w o a2 w2 Ha Hrun).
Qed.

End MemoryCount.

Lemma run_keeps_memory_count_witness :
  let note := {| Agent.name := "remember";
                 Agent.arguments := [("content", "uses pytest"); ("tags", "test")] |} in
  let w := {| Concrete.script := [([Agent.ToolCallChunk note; Agent.Done], Agent.Exhausted);
                                  ([Agent.Text "Noted."; Agent.Done], Agent.Exhausted)];
              Concrete.approvals := []; Concrete.tick := 0 |} in
  exists o a2 w2,
    Concrete.run "remember pytest" (Agent.init Concrete.empty_store Ui.init) w
    = Some (o, a2, w2)
    /\ Ui.memory_count (Agent.ui a2) = Memory.count (Agent.memory a2).
Proof.
  intros note w.
  apply (run_keeps_memory_count Concrete.milli Concrete.World
           Concrete.chat_stream Concrete.approval_answer Concrete.question_answer
           Concrete.execute_tool Concrete.fresh Concrete.py_repr Concrete.wrap
           "remember pytest" (Agent.init Concrete.empty_store Ui.init) w).
  reflexivity.
Defined.
